(** * OMEVV baseline profile module: a shallow embedding and its properties

    Sources embedded here:
    - [plugins/module_utils/omevv_utils/omevv_firmware_utils.py]
      (classes [OMEVVFirmwareProfile] and [OMEVVBaselineProfile]);
    - [plugins/modules/omevv_baseline_profile.py]
      (classes [BaselineProfile], [CreateBaselineProfile],
      [ModifyBaselineProfile], [DeleteBaselineProfile] and [main]).

    Python values are JSON-shaped data, Python exceptions and
    [module.exit_json] are outcomes of a small monad that also records every
    request handed to the REST client and every [time.sleep].

    Conventions of the embedding:
    - [module.params] is a record typed by the argument spec of [main]; the
      helper classes receive JSON values, as their Python code accepts any;
    - the REST client and the two validators of [module_utils/utils.py] are
      collaborators: every statement below that does not name a sample
      collaborator holds for all of them;
    - the messages of Python's own exceptions follow CPython 3.10;
    - the polling loops take a bound on their rounds; a loop that exhausts it
      ends in [OutOfFuel], which no statement below counts as a result. *)

From Stdlib Require Import ZArith List String Ascii Bool Lia DecimalString.
Import ListNotations.
Open Scope list_scope.
Open Scope string_scope.

Set Warnings "-register-all".

(** ** Python values *)

(** What [json.load] produces and what the module passes around.  Dicts keep
    their insertion order, as Python's do.  Floats are not modelled. *)
Inductive json : Type :=
| JNull
| JBool (b : bool)
| JNum (z : Z)
| JStr (s : string)
| JList (l : list json)
| JDict (d : list (string * json)).

Definition dict := list (string * json).

(** Python truthiness: [if v:] / [not v]. *)
Definition truthy (v : json) : bool :=
  match v with
  | JNull => false
  | JBool b => b
  | JNum z => negb (Z.eqb z 0)
  | JStr s => negb (String.eqb s "")
  | JList l => match l with [] => false | _ => true end
  | JDict d => match d with [] => false | _ => true end
  end.

Fixpoint dict_get (k : string) (d : dict) : option json :=
  match d with
  | [] => None
  | (k', v) :: r => if String.eqb k k' then Some v else dict_get k r
  end.

Definition dict_has (k : string) (d : dict) : bool :=
  match dict_get k d with Some _ => true | None => false end.

(** [d[k] = v]: an existing key keeps its position. *)
Fixpoint dict_set (k : string) (v : json) (d : dict) : dict :=
  match d with
  | [] => [(k, v)]
  | (k', v') :: r =>
      if String.eqb k k' then (k, v) :: r else (k', v') :: dict_set k v r
  end.

(** [{k: v for k, v in d.items() if v is not None}] *)
Definition drop_none (d : dict) : dict :=
  filter (fun kv => match snd kv with JNull => false | _ => true end) d.

(** Python [==] on JSON data: [True == 1], lists compare element-wise and
    dicts compare as maps, whatever the order of their keys. *)
Fixpoint py_eq (a b : json) {struct a} : bool :=
  match a, b with
  | JNull, JNull => true
  | JBool x, JBool y => Bool.eqb x y
  | JBool x, JNum n => Z.eqb (if x then 1 else 0) n
  | JNum n, JBool y => Z.eqb n (if y then 1 else 0)
  | JNum n, JNum m => Z.eqb n m
  | JStr s, JStr t => String.eqb s t
  | JList xs, JList ys =>
      (fix go (xs ys : list json) {struct xs} : bool :=
         match xs, ys with
         | [], [] => true
         | x :: xs', y :: ys' => py_eq x y && go xs' ys'
         | _, _ => false
         end) xs ys
  | JDict xs, JDict ys =>
      Nat.eqb (List.length xs) (List.length ys) &&
      (fix go (xs : dict) {struct xs} : bool :=
         match xs with
         | [] => true
         | (k, x) :: xs' =>
             match dict_get k ys with
             | Some y => py_eq x y && go xs'
             | None => false
             end
         end) xs
  | _, _ => false
  end.

Definition is_none (v : json) : bool :=
  match v with JNull => true | _ => false end.

Definition of_option (o : option string) : json :=
  match o with Some s => JStr s | None => JNull end.

Definition of_names (o : option (list string)) : json :=
  match o with Some l => JList (map JStr l) | None => JNull end.

(** [repr] and [str].  Quotes inside strings are not escaped. *)
Fixpoint py_repr (v : json) : string :=
  match v with
  | JNull => "None"
  | JBool true => "True"
  | JBool false => "False"
  | JNum z => NilZero.string_of_int (Z.to_int z)
  | JStr s => "'" ++ s ++ "'"
  | JList l =>
      "[" ++
      (fix items (l : list json) : string :=
         match l with
         | [] => ""
         | x :: r =>
             match r with
             | [] => py_repr x
             | _ => py_repr x ++ ", " ++ items r
             end
         end) l ++ "]"
  | JDict d =>
      "{" ++
      (fix items (d : dict) : string :=
         match d with
         | [] => ""
         | (k, x) :: r =>
             match r with
             | [] => "'" ++ k ++ "': " ++ py_repr x
             | _ => "'" ++ k ++ "': " ++ py_repr x ++ ", " ++ items r
             end
         end) d ++ "}"
  end.

Definition py_str (v : json) : string :=
  match v with JStr s => s | _ => py_repr v end.

Definition type_name (v : json) : string :=
  match v with
  | JNull => "NoneType"
  | JBool _ => "bool"
  | JNum _ => "int"
  | JStr _ => "str"
  | JList _ => "list"
  | JDict _ => "dict"
  end.

(** [t in s] on strings. *)
Fixpoint is_substring (t s : string) : bool :=
  if String.prefix t s then true
  else match s with
       | EmptyString => false
       | String _ s' => is_substring t s'
       end.

(** ** Exceptions, outcomes and the monad of the module *)

(** What an HTTP error carries as its body, as [json.load] finds it: the text
    of a JSON value, or text that is not JSON, with the message of the
    [JSONDecodeError] that [json.load] raises on it. *)
Inductive http_body : Type :=
| JSONText (v : json)
| NotJSON (message : string).

Inductive exn : Type :=
| HTTPError (code : Z) (body : http_body)
| URLError (reason : string)
| OSError (m : string)
| ValueError (m : string)
| TypeError (m : string)
| ConnectionError (m : string)
| AttributeError (m : string)
| IndexError (m : string)
| KeyError (key : string)
| OtherError (class_name m : string).

(** [str(err)].  The reason phrase of an HTTP error is not modelled; [main]
    never prints one. *)
Definition exn_str (e : exn) : string :=
  match e with
  | HTTPError c _ => "HTTP Error " ++ NilZero.string_of_int (Z.to_int c)
  | URLError r => "<urlopen error " ++ r ++ ">"
  | KeyError k => "'" ++ k ++ "'"
  | OSError m | ValueError m | TypeError m | ConnectionError m
  | AttributeError m | IndexError m | OtherError _ m => m
  end.

(** One request handed to the REST client, or one [time.sleep]. *)
Inductive event : Type :=
| Invoke (method uri : string) (data : option json)
| Sleep (seconds : Z).

Record response : Type := Response { success : bool; json_data : json }.

(** What [invoke_request] does: it returns a response object or raises. *)
Inductive reply : Type :=
| Returns (r : response)
| Raises (e : exn).

(** How a computation ends: it returns, raises, leaves through
    [module.exit_json] (a [SystemExit] carrying the keyword arguments), or is
    still looping when the fuel of the model is spent. *)
Inductive result (A : Type) : Type :=
| Ret (a : A)
| Raise (e : exn)
| Exit (kwargs : dict)
| OutOfFuel.
Arguments Ret {A} a.
Arguments Raise {A} e.
Arguments Exit {A} kwargs.
Arguments OutOfFuel {A}.

(** ** The module object and the collaborators *)

Inductive state_choice : Type := present | absent.

(** [module.params]: every key of the argument spec is there, with [None]
    for an option that was not given. *)
Record Params : Type := {
  state : state_choice;
  name : string;
  cluster : option (list string);
  description : option string;
  days : option (list string);
  time : option string;
  repository_profile : option string;
  job_wait : bool;
  job_wait_timeout : Z;
  vcenter_uuid : option string
}.

Record AnsibleModule : Type := {
  params : Params;
  check_mode : bool;
  _diff : bool
}.

(** The REST client ([RestOMEVV.invoke_request]) is a collaborator: its answer
    may depend on everything that happened before. *)
Definition rest_client : Type :=
  list event -> string -> string -> option json -> reply.

(** The collaborators of one run.  [validate_job_wait] and [validate_time]
    live in [module_utils/utils.py]; they are taken as they come: they
    return, raise, or leave through [module.exit_json], and send nothing. *)
Record env : Type := {
  omevv : rest_client;
  validate_job_wait : AnsibleModule -> result json;
  validate_time : json -> AnsibleModule -> result unit
}.

Definition M (A : Type) : Type := env -> list event -> result A * list event.

Class Monad (m : Type -> Type) : Type := {
  ret : forall {A}, A -> m A;
  bind : forall {A B}, m A -> (A -> m B) -> m B
}.

Declare Scope monad_scope.
Delimit Scope monad_scope with monad.
Notation "x <- c1 ;; c2" := (bind c1 (fun x => c2))
  (at level 100, c1 at next level, right associativity) : monad_scope.
Notation "' pat <- c1 ;; c2" := (bind c1 (fun x => match x with pat => c2 end))
  (at level 100, pat pattern, c1 at next level, right associativity) : monad_scope.
Notation "c1 ;; c2" := (bind c1 (fun _ => c2))
  (at level 100, right associativity) : monad_scope.
Open Scope monad_scope.

#[global] Instance result_Monad : Monad result := {
  ret := fun A a => Ret a;
  bind := fun A B c k =>
    match c with
    | Ret a => k a
    | Raise e => Raise e
    | Exit kw => Exit kw
    | OutOfFuel => OutOfFuel
    end
}.

#[global] Instance M_Monad : Monad M := {
  ret := fun A a _ tr => (Ret a, tr);
  bind := fun A B c k e tr =>
    match c e tr with
    | (Ret a, tr') => k a e tr'
    | (Raise x, tr') => (Raise x, tr')
    | (Exit kw, tr') => (Exit kw, tr')
    | (OutOfFuel, tr') => (OutOfFuel, tr')
    end
}.

(** [json.load(err)]: [JSONDecodeError] is a [ValueError]. *)
Definition json_load (body : http_body) : result json :=
  match body with
  | JSONText v => Ret v
  | NotJSON message => Raise (ValueError message)
  end.

(** A computation that sends nothing. *)
Definition lift {A} (r : result A) : M A := fun _ tr => (r, tr).

Definition raise {A} (x : exn) : M A := lift (Raise x).

(** [module.exit_json(msg=..., changed=..., ...)]: the keyword arguments. *)
Definition exit_json {A} (kwargs : dict) : M A := lift (Exit kwargs).

(** [self.omevv.invoke_request(method, uri, data)] *)
Definition invoke_request (method uri : string) (data : option json) : M response :=
  fun e tr =>
    match omevv e tr method uri data with
    | Returns r => (Ret r, (tr ++ [Invoke method uri data])%list)
    | Raises x => (Raise x, (tr ++ [Invoke method uri data])%list)
    end.

(** [time.sleep(seconds)] *)
Definition sleep (seconds : Z) : M unit :=
  fun _ tr => (Ret tt, (tr ++ [Sleep seconds])%list).

(** ** Python operations that may raise *)

(** [v[k]] with a string key. *)
Definition py_getitem (v : json) (k : string) : result json :=
  match v with
  | JDict d =>
      match dict_get k d with
      | Some x => Ret x
      | None => Raise (KeyError k)
      end
  | JList _ => Raise (TypeError "list indices must be integers or slices, not str")
  | JStr _ => Raise (TypeError "string indices must be integers")
  | _ => Raise (TypeError ("'" ++ type_name v ++ "' object is not subscriptable"))
  end.

(** [v.get(k, default)] *)
Definition py_get_default (v : json) (k : string) (default : json) : result json :=
  match v with
  | JDict d =>
      match dict_get k d with
      | Some x => Ret x
      | None => Ret default
      end
  | _ => Raise (AttributeError ("'" ++ type_name v ++ "' object has no attribute 'get'"))
  end.

(** [v.get(k)] *)
Definition py_get (v : json) (k : string) : result json :=
  py_get_default v k JNull.

Fixpoint chars (s : string) : list json :=
  match s with
  | EmptyString => []
  | String c s' => JStr (String c EmptyString) :: chars s'
  end.

(** [for x in v] *)
Definition py_iter (v : json) : result (list json) :=
  match v with
  | JList l => Ret l
  | JDict d => Ret (map (fun kv => JStr (fst kv)) d)
  | JStr s => Ret (chars s)
  | _ => Raise (TypeError ("'" ++ type_name v ++ "' object is not iterable"))
  end.

Definition mem (x : json) (l : list json) : bool := existsb (py_eq x) l.

(** [x in v] *)
Definition py_in (x v : json) : result bool :=
  match v with
  | JList l => Ret (mem x l)
  | JDict d =>
      match x with
      | JStr k => Ret (dict_has k d)
      | JList _ | JDict _ =>
          Raise (TypeError ("unhashable type: '" ++ type_name x ++ "'"))
      | _ => Ret false
      end
  | JStr s =>
      match x with
      | JStr t => Ret (is_substring t s)
      | _ => Raise (TypeError ("'in <string>' requires string as left operand, not "
                               ++ type_name x))
      end
  | _ => Raise (TypeError ("argument of type '" ++ type_name v ++ "' is not iterable"))
  end.

(** [[elt(x) for x in l if cond(x)]]: the condition is evaluated first. *)
Fixpoint comprehension (elt : json -> result json) (cond : json -> result bool)
    (l : list json) : result (list json) :=
  match l with
  | [] => Ret []
  | x :: r =>
      b <- cond x ;;
      if b : bool
      then (y <- elt x ;; ys <- comprehension elt cond r ;; Ret (y :: ys))
      else comprehension elt cond r
  end.

Definition always (_ : json) : result bool := Ret true.

(** [', '.join(l)], from the item of index [i] on. *)
Fixpoint join_from (i : nat) (l : list json) : result string :=
  match l with
  | [] => Ret ""
  | x :: r =>
      match x with
      | JStr s =>
          match r with
          | [] => Ret s
          | _ => t <- join_from (S i) r ;; Ret (s ++ ", " ++ t)
          end
      | _ => Raise (TypeError ("sequence item " ++ NilZero.string_of_uint (Nat.to_uint i)
                               ++ ": expected str instance, " ++ type_name x ++ " found"))
      end
  end.

Definition join_comma (l : list json) : result string := join_from 0 l.

(** The values a set can hold. *)
Definition scalar (x : json) : bool :=
  match x with
  | JList _ | JDict _ => false
  | _ => true
  end.

(** Only hashable values can be members of a set. *)
Definition hashable (x : json) : result json :=
  match x with
  | JList _ | JDict _ => Raise (TypeError ("unhashable type: '" ++ type_name x ++ "'"))
  | _ => Ret x
  end.

(** Equal elements are kept once.  A list stands here for the set of its
    members.  Where the code turns a set back into a list, Python lists it in
    the order of its hash table, which the model does not reproduce: the
    model lists the elements in the order of their first occurrence, and what
    is stated of such a list is stated of its members. *)
Fixpoint dedup (l : list json) : list json :=
  match l with
  | [] => []
  | x :: r => x :: filter (fun y => negb (py_eq x y)) (dedup r)
  end.

(** [set(l)] *)
Definition py_set (l : list json) : result (list json) :=
  s <- comprehension hashable always l ;;
  Ret (dedup s).

(** [a - b] on sets. *)
Definition set_difference (a b : list json) : list json :=
  filter (fun x => negb (mem x b)) a.

(** ** [omevv_firmware_utils.py] *)

Definition NO_REPO_PROFILE_MSG : string := "No repository profiles found.".
Definition NO_CLUSTERS_FOUND_MSG : string := "No clusters found.".
Definition PROFILE_URI : string := "/RepositoryProfiles".
Definition TEST_CONNECTION_URI : string := "/RepositoryProfiles/TestConnection".

(** The message and URI templates, after [.format(...)]. *)
Definition INVALID_REPO_PROFILE_MSG (repository_profile : json) : string :=
  "Invalid repository profile: " ++ py_str repository_profile
  ++ ". Please provide a valid profile.".
Definition INVALID_CLUSTER_NAMES_MSG (cluster_names : string) : string :=
  "Invalid cluster names: " ++ cluster_names ++ ". Please provide valid clusters.".
Definition BASELINE_PROFILE_URI (vcenter_uuid : json) : string :=
  "/Consoles/" ++ py_str vcenter_uuid ++ "/BaselineProfiles".
Definition CLUSTER_URI (vcenter_uuid : json) : string :=
  "/Consoles/" ++ py_str vcenter_uuid ++ "/Clusters".
Definition CLUSTER_IDS_URI (vcenter_uuid : json) : string :=
  "/Consoles/" ++ py_str vcenter_uuid ++ "/Groups/getGroupsForClusters".
Definition DRIFT_URI (vcenter_uuid : json) : string :=
  "/Consoles/" ++ py_str vcenter_uuid ++ "/UpdateJobs".

(** [for d in data: if d.get(key) == value: return d] and then [return {}]:
    the loop of [search_profile_name] and of [get_baseline_profile_by_name]. *)
Fixpoint first_with (key : string) (value : json) (data : list json) : result json :=
  match data with
  | [] => Ret (JDict [])
  | d :: r =>
      v <- py_get d key ;;
      if py_eq v value then Ret d else first_with key value r
  end.

(** The response object of the REST client is taken to define neither
    [__bool__] nor [__len__]: [not resp] is false whatever it holds. *)
Definition response_truthy (_ : response) : bool := true.

Module OMEVVFirmwareProfile.

Definition search_profile_name (data profile_name : json) : result json :=
  l <- py_iter data ;;
  first_with "profileName" profile_name l.

Definition get_firmware_repository_profile (profile_name : json) : M json :=
  resp <- invoke_request "GET" PROFILE_URI None ;;
  if success resp
  then if truthy profile_name
       then lift (search_profile_name (json_data resp) profile_name)
       else ret (json_data resp)
  else ret (JList []).

Definition get_all_repository_profiles : M response :=
  invoke_request "GET" PROFILE_URI None.

Definition get_create_payload_details (name catalog_path description protocol_type
    share_username share_password share_domain : json) : dict :=
  let payload := [] in
  let payload := dict_set "profileName" name payload in
  let payload := dict_set "protocolType" protocol_type payload in
  let payload := dict_set "sharePath" catalog_path payload in
  let payload :=
    if is_none description then payload
    else dict_set "description" description payload in
  let payload := dict_set "profileType" (JStr "Firmware") payload in
  dict_set "shareCredential"
    (JDict [("username", share_username);
            ("password", share_password);
            ("domain", share_domain)]) payload.

Definition get_modify_payload_details (name catalog_path description share_username
    share_password share_domain : json) : dict :=
  let payload := [] in
  let payload := dict_set "profileName" name payload in
  let payload := dict_set "sharePath" catalog_path payload in
  let payload :=
    if is_none description then payload
    else dict_set "description" description payload in
  dict_set "shareCredential"
    (JDict [("username", share_username);
            ("password", share_password);
            ("domain", share_domain)]) payload.

(** [x if x is not None else ""] *)
Definition or_empty (x : json) : json := if is_none x then JStr "" else x.

Definition form_conn_payload (protocol_type catalog_path share_username share_password
    share_domain : json) : dict :=
  let payload := [] in
  let payload := dict_set "protocolType" protocol_type payload in
  let payload := dict_set "catalogPath" catalog_path payload in
  let payload :=
    dict_set "shareCredential"
      (JDict [("username", or_empty share_username);
              ("password", or_empty share_password);
              ("domain", or_empty share_domain)]) payload in
  dict_set "checkCertificate" (JBool false) payload.

Definition test_connection (protocol_type catalog_path share_username share_password
    share_domain : json) : M response :=
  let payload :=
    form_conn_payload protocol_type catalog_path share_username share_password
      share_domain in
  invoke_request "POST" TEST_CONNECTION_URI (Some (JDict payload)).

Definition get_firmware_repository_profile_by_id (profile_id : json) : M response :=
  invoke_request "GET" (PROFILE_URI ++ "/" ++ py_str profile_id) None.

(** [err_msg] of the two methods below: [None], or the text built from the
    required parameters that are [None]. *)
Definition missing_parameters_message (required_params : list json) : result json :=
  let missing_params := filter is_none required_params in
  match missing_params with
  | [] => Ret JNull
  | _ =>
      joined <- join_comma missing_params ;;
      Ret (JStr ("Required parameters such as: " ++ joined))
  end.

Definition create_firmware_repository_profile (name catalog_path description
    protocol_type share_username share_password share_domain : json)
    : M (response * json) :=
  err_msg <- lift (missing_parameters_message [name; catalog_path; protocol_type]) ;;
  let payload :=
    get_create_payload_details name catalog_path description protocol_type
      share_username share_password share_domain in
  resp <- invoke_request "POST" PROFILE_URI (Some (JDict payload)) ;;
  ret (resp, err_msg).

Definition modify_firmware_repository_profile (profile_id name catalog_path description
    share_username share_password share_domain : json) : M (response * json) :=
  err_msg <- lift (missing_parameters_message [name; catalog_path]) ;;
  let payload :=
    get_modify_payload_details name catalog_path description share_username
      share_password share_domain in
  resp <- invoke_request "PUT" (PROFILE_URI ++ "/" ++ py_str profile_id)
            (Some (JDict payload)) ;;
  ret (resp, err_msg).

Definition delete_firmware_repository_profile (profile_id : json) : M response :=
  invoke_request "DELETE" (PROFILE_URI ++ "/" ++ py_str profile_id) None.

End OMEVVFirmwareProfile.

Module OMEVVBaselineProfile.

Definition get_all_clusters (vcenter_uuid : json) : M response :=
  invoke_request "GET" (CLUSTER_URI vcenter_uuid) None.

Definition validate_repository_profile (repository_profile : json)
    (module : AnsibleModule) : M json :=
  available_repo_profiles <- OMEVVFirmwareProfile.get_all_repository_profiles ;;
  if negb (response_truthy available_repo_profiles)
  then ret (JDict [("error", JStr NO_REPO_PROFILE_MSG)])
  else
    available_repo_profile_names <-
      lift (l <- py_iter (json_data available_repo_profiles) ;;
            comprehension (fun profile => py_get profile "profileName") always l) ;;
    if negb (mem repository_profile available_repo_profile_names)
    then ret (JDict [("error", JStr (INVALID_REPO_PROFILE_MSG repository_profile))])
    else ret (JDict [("success", JBool true)]).

Definition validate_cluster_names (cluster_names vcenter_uuid : json) : M json :=
  available_clusters <- get_all_clusters vcenter_uuid ;;
  if negb (response_truthy available_clusters)
  then ret (JDict [("error", JStr NO_CLUSTERS_FOUND_MSG)])
  else
    available_cluster_names <-
      lift (l <- py_iter (json_data available_clusters) ;;
            comprehension (fun cluster => py_get cluster "name") always l) ;;
    invalid_clusters <-
      lift (l <- py_iter cluster_names ;;
            comprehension (fun cluster => Ret cluster)
              (fun cluster => Ret (negb (mem cluster available_cluster_names))) l) ;;
    match invalid_clusters with
    | [] => ret (JDict [("success", JBool true)])
    | _ =>
        joined <- lift (join_comma invalid_clusters) ;;
        ret (JDict [("error", JStr (INVALID_CLUSTER_NAMES_MSG joined))])
    end.

(** [[c['entityId'] for c in clusters if c['name'] in cluster_names]] *)
Definition entity_ids (clusters cluster_names : json) : result (list json) :=
  l <- py_iter clusters ;;
  comprehension (fun c => py_getitem c "entityId")
    (fun c => n <- py_getitem c "name" ;; py_in n cluster_names) l.

Definition get_cluster_id (cluster_names vcenter_uuid : json) : M (list json) :=
  clusters_resp <- invoke_request "GET" (CLUSTER_URI vcenter_uuid) None ;;
  let clusters := if success clusters_resp then json_data clusters_resp else JList [] in
  cluster_ids <- lift (entity_ids clusters cluster_names) ;;
  ret cluster_ids.

Definition get_group_ids_for_clusters (vcenter_uuid cluster_names : json)
    : M (list json) :=
  clusters_resp <- invoke_request "GET" (CLUSTER_URI vcenter_uuid) None ;;
  let clusters := if success clusters_resp then json_data clusters_resp else JList [] in
  cluster_ids <- lift (entity_ids clusters cluster_names) ;;
  match cluster_ids with
  | [] => ret []
  | _ =>
      let payload := JDict [("clustIds", JList cluster_ids)] in
      group_resp <- invoke_request "POST" (CLUSTER_IDS_URI vcenter_uuid) (Some payload) ;;
      if success group_resp
      then lift (l <- py_iter (json_data group_resp) ;;
                 comprehension (fun g => py_getitem g "groupId") always l)
      else ret []
  end.

Definition get_repo_id_by_name (repository_profile : json) : M json :=
  repo_profile_info <-
    OMEVVFirmwareProfile.get_firmware_repository_profile repository_profile ;;
  if truthy repo_profile_info
  then lift (py_get repo_profile_info "id")
  else ret JNull.

Definition get_baseline_profiles (vcenter_uuid : json) : M json :=
  response <- invoke_request "GET" (BASELINE_PROFILE_URI vcenter_uuid) None ;;
  if success response then ret (json_data response) else ret (JList []).

Definition get_baseline_profile_by_id (profile_id vcenter_uuid : json) : M response :=
  invoke_request "GET"
    (BASELINE_PROFILE_URI vcenter_uuid ++ "/" ++ py_str profile_id) None.

Definition get_baseline_profile_by_name (profile_name vcenter_uuid : json) : M json :=
  profiles <- get_baseline_profiles vcenter_uuid ;;
  lift (l <- py_iter profiles ;; first_with "name" profile_name l).

Definition selected (day : string) (days_selected : list string) : bool :=
  existsb (String.eqb day) days_selected.

(** [days] and [time] are what the argument spec hands over: a list of
    strings or [None], and a string or [None]. *)
Definition create_job_schedule (days : option (list string)) (time : option string)
    : json :=
  if truthy (of_names days) && truthy (of_option time)
  then
    let days_selected := match days with Some l => l | None => [] end in
    if selected "all" days_selected
    then JDict [("monday", JBool true);
                ("tuesday", JBool true);
                ("wednesday", JBool true);
                ("thursday", JBool true);
                ("friday", JBool true);
                ("saturday", JBool true);
                ("sunday", JBool true);
                ("time", of_option time)]
    else JDict [("monday", JBool (selected "monday" days_selected));
                ("tuesday", JBool (selected "tuesday" days_selected));
                ("wednesday", JBool (selected "wednesday" days_selected));
                ("thursday", JBool (selected "thursday" days_selected));
                ("friday", JBool (selected "friday" days_selected));
                ("saturday", JBool (selected "saturday" days_selected));
                ("sunday", JBool (selected "sunday" days_selected));
                ("time", of_option time)]
  else JNull.

Definition get_current_job_schedule (profile_id vcenter_uuid : json) : M response :=
  invoke_request "GET" (DRIFT_URI vcenter_uuid ++ "/" ++ py_str profile_id) None.

(** [{group['omevv_groupID'] for group in existing_profile.get('clusterGroups', [])}] *)
Definition attached_group_ids (existing_profile : json) : result (list json) :=
  groups <- py_get_default existing_profile "clusterGroups" (JList []) ;;
  l <- py_iter groups ;;
  ids <- comprehension
           (fun group => v <- py_getitem group "omevv_groupID" ;; hashable v)
           always l ;;
  Ret (dedup ids).

Definition get_add_remove_group_ids (existing_profile vcenter_uuid cluster_names : json)
    : M (list json * list json) :=
  current_group_ids <- lift (attached_group_ids existing_profile) ;;
  fetched <- get_group_ids_for_clusters vcenter_uuid cluster_names ;;
  new_group_ids <- lift (py_set fetched) ;;
  let add_group_ids := set_difference new_group_ids current_group_ids in
  let remove_group_ids := set_difference current_group_ids new_group_ids in
  ret (add_group_ids, remove_group_ids).

Definition create_baseline_profile (name firmware_repo_id group_ids vcenter_uuid
    payload : json) : M (response * json) :=
  let err_msg :=
    if negb (truthy name) || negb (truthy firmware_repo_id) || negb (truthy group_ids)
    then JStr "Required parameters: name, firmware_repo_id, or group_ids are missing."
    else JNull in
  resp <- invoke_request "POST" (BASELINE_PROFILE_URI vcenter_uuid) (Some payload) ;;
  ret (resp, err_msg).

Definition modify_baseline_profile (profile_id vcenter_uuid payload : json)
    : M (response * json) :=
  let err_msg :=
    if negb (truthy profile_id) || negb (truthy vcenter_uuid) || negb (truthy payload)
    then JStr "Required parameters: profile_id, vcenter_uuid, or payload are missing."
    else JNull in
  let url := BASELINE_PROFILE_URI vcenter_uuid ++ "/" ++ py_str profile_id in
  resp <- invoke_request "PATCH" url (Some payload) ;;
  ret (resp, err_msg).

Definition delete_baseline_profile (profile_id vcenter_uuid : json) : M response :=
  invoke_request "DELETE"
    (BASELINE_PROFILE_URI vcenter_uuid ++ "/" ++ py_str profile_id) None.

End OMEVVBaselineProfile.

(** ** [omevv_baseline_profile.py] *)

Definition SUCCESS_CREATION_MSG : string := "Successfully created the baseline profile.".
Definition FAILED_CREATION_MSG : string := "Unable to create the baseline profile.".
Definition SUCCESS_MODIFY_MSG : string := "Successfully modified the baseline profile.".
Definition FAILED_MODIFY_MSG : string := "Unable to modify the baseline profile.".
Definition SUCCESS_DELETION_MSG : string := "Successfully deleted the baseline profile.".
Definition FAILED_DELETION_MSG : string := "Unable to delete the baseline profile.".
Definition CHANGES_FOUND_MSG : string := "Changes found to be applied.".
Definition CHANGES_NOT_FOUND_MSG : string := "No changes found to be applied.".
Definition TIMEOUT_NEGATIVE_OR_ZERO_MSG : string :=
  "The value for the 'job_wait_timeout' parameter cannot be negative or zero.".

(** *** Attribute lookup on the operation classes *)

Inductive class : Type :=
| cls_BaselineProfile
| cls_CreateBaselineProfile
| cls_ModifyBaselineProfile
| cls_DeleteBaselineProfile.

Definition class_name (c : class) : string :=
  match c with
  | cls_BaselineProfile => "BaselineProfile"
  | cls_CreateBaselineProfile => "CreateBaselineProfile"
  | cls_ModifyBaselineProfile => "ModifyBaselineProfile"
  | cls_DeleteBaselineProfile => "DeleteBaselineProfile"
  end.

(** The names each class body defines. *)
Definition class_methods (c : class) : list string :=
  match c with
  | cls_BaselineProfile => ["__init__"; "validate_common_params"; "execute"]
  | cls_CreateBaselineProfile =>
      ["__init__"; "get_cluster_groups"; "diff_mode_check";
       "perform_create_baseline_profile"; "execute"]
  | cls_ModifyBaselineProfile =>
      ["__init__"; "diff_mode_check"; "perform_modify_baseline_profile"; "execute"]
  | cls_DeleteBaselineProfile =>
      ["__init__"; "diff_mode_check"; "perform_delete_baseline_profile"; "execute"]
  end.

(** The attributes the [__init__] chain sets on an instance. *)
Definition instance_attributes (c : class) : list string :=
  ["module"; "obj"; "omevv_baseline_obj"; "omevv_profile_obj"] ++
  match c with
  | cls_BaselineProfile => []
  | cls_CreateBaselineProfile | cls_ModifyBaselineProfile => ["existing_profile"]
  | cls_DeleteBaselineProfile => ["profile_name"]
  end.

Definition base_class (c : class) : option class :=
  match c with
  | cls_BaselineProfile => None
  | _ => Some cls_BaselineProfile
  end.

Definition among (x : string) (l : list string) : bool := existsb (String.eqb x) l.

(** [hasattr(self, attr)] for an instance of [c]. *)
Definition hasattr (c : class) (attr : string) : bool :=
  among attr (instance_attributes c) || among attr (class_methods c) ||
  match base_class c with
  | Some b => among attr (class_methods b)
  | None => false
  end.

(** [self.attr(...)]: the attribute is looked up first, and the lookup raises
    when neither the instance, its class nor the base class binds [attr].
    [callee] is what the lookup finds; it is asked for only where there is
    something to find. *)
Definition call_self_method {A} (c : class) (attr : string)
    (callee : hasattr c attr = true -> M A) : M A :=
  (if hasattr c attr as found return (hasattr c attr = found -> M A)
   then fun bound => callee bound
   else fun _ =>
     raise (AttributeError
              ("'" ++ class_name c ++ "' object has no attribute '" ++ attr ++ "'")))
    eq_refl.

(** The callee at a call site whose name is bound to nothing. *)
Definition nothing_bound {A} (bound : false = true) : M A :=
  match Bool.diff_false_true bound with end.

(** [f(a)] or [f(a, b)] where the definition of [f] has the two parameters
    [first] and [second] after [self]: when the call site supplies no second
    argument, binding the arguments raises before the body of [f] runs (the
    wording of the message is that of Python 3.10 and later). *)
Definition call_method {A B C} (qualname first second : string)
    (f : A -> B -> M C) (a : A) (b : option B) : M C :=
  match b with
  | Some b => f a b
  | None =>
      raise (TypeError
               (qualname ++ "() missing 1 required positional argument: '"
                ++ second ++ "'"))
  end.

(** [validate_job_wait(module)] and [validate_time(time, module)] *)
Definition call_validate_job_wait (module : AnsibleModule) : M json :=
  fun e tr => (validate_job_wait e module, tr).
Definition call_validate_time (time : json) (module : AnsibleModule) : M unit :=
  fun e tr => (validate_time e time module, tr).

Definition when (b : bool) (c : M unit) : M unit := if b then c else ret tt.

(** [zip(a, b, c)] *)
Fixpoint zip3 (a b c : list json) : list (json * json * json) :=
  match a, b, c with
  | x :: a', y :: b', z :: c' => (x, y, z) :: zip3 a' b' c'
  | _, _, _ => []
  end.

(** The list both [diff_mode_check]s build from the zipped names and ids. *)
Definition cluster_groups_of (cluster_names cluster_ids group_ids : list json) : json :=
  JList (map (fun t => match t with
                       | (cluster_name, cluster_id, group_id) =>
                           JDict [("clusterID", cluster_id);
                                  ("clusterName", cluster_name);
                                  ("omevv_groupID", group_id)]
                       end)
             (zip3 cluster_names cluster_ids group_ids)).

(** [while profile_resp.json_data["status"] not in ["SUCCESSFUL", "FAILED"]:]
    [time.sleep(3)] and fetch again.  The loop of both [perform_...] methods;
    [fuel] bounds the number of rounds the model follows. *)
Fixpoint poll_until_terminal (fuel : nat) (fetch : M response) (profile_resp : response)
    : M response :=
  status <- lift (py_getitem (json_data profile_resp) "status") ;;
  if mem status [JStr "SUCCESSFUL"; JStr "FAILED"]
  then ret profile_resp
  else match fuel with
       | O => lift OutOfFuel
       | S fuel' =>
           sleep 3 ;;
           profile_resp' <- fetch ;;
           poll_until_terminal fuel' fetch profile_resp'
       end.

(** [profile_resp.json_data["status"] == "SUCCESSFUL"] *)
Definition status_successful (profile_resp : response) : M bool :=
  status <- lift (py_getitem (json_data profile_resp) "status") ;;
  ret (py_eq status (JStr "SUCCESSFUL")).

(** [f(k1=v1, k2=v2)] where the definition of [f] has the two parameters
    [first] and [second] after [self]: a keyword that names neither raises
    when the arguments are bound, before the body of [f] runs, and so does a
    parameter left without a value. *)
Definition call_keywords {C} (qualname first second : string)
    (f : json -> json -> M C) (kwargs : dict) : M C :=
  match find (fun kv => negb (among (fst kv) [first; second])) kwargs with
  | Some kv =>
      raise (TypeError (qualname ++ "() got an unexpected keyword argument '"
                        ++ fst kv ++ "'"))
  | None =>
      match dict_get first kwargs, dict_get second kwargs with
      | Some a, Some b => f a b
      | None, Some _ =>
          raise (TypeError (qualname ++ "() missing 1 required positional argument: '"
                            ++ first ++ "'"))
      | Some _, None =>
          raise (TypeError (qualname ++ "() missing 1 required positional argument: '"
                            ++ second ++ "'"))
      | None, None =>
          raise (TypeError (qualname ++ "() missing 2 required positional arguments: '"
                            ++ first ++ "' and '" ++ second ++ "'"))
      end
  end.

Module BaselineProfile.

Definition validate_common_params (module : AnsibleModule) : M unit :=
  resp <- call_validate_job_wait module ;;
  when (truthy resp)
    (exit_json [("msg", JStr TIMEOUT_NEGATIVE_OR_ZERO_MSG); ("failed", JBool true)]) ;;
  call_validate_time (of_option (time (params module))) module ;;
  let repository_profile := of_option (repository_profile (params module)) in
  repo_validation <-
    call_method "OMEVVBaselineProfile.validate_repository_profile"
      "repository_profile" "module"
      OMEVVBaselineProfile.validate_repository_profile repository_profile None ;;
  has_error <- lift (py_in (JStr "error") repo_validation) ;;
  when has_error
    (msg <- lift (py_getitem repo_validation "error") ;;
     exit_json [("msg", msg); ("failed", JBool true)]) ;;
  let cluster_names := of_names (cluster (params module)) in
  let vcenter_uuid := of_option (vcenter_uuid (params module)) in
  cluster_validation <-
    OMEVVBaselineProfile.validate_cluster_names cluster_names vcenter_uuid ;;
  has_error <- lift (py_in (JStr "error") cluster_validation) ;;
  when has_error
    (msg <- lift (py_getitem cluster_validation "error") ;;
     exit_json [("msg", msg); ("failed", JBool true)]).

End BaselineProfile.

Module CreateBaselineProfile.

(** The body of the [for] loop of [get_cluster_groups], over the names left. *)
Fixpoint get_cluster_groups_from (module : AnsibleModule) (cluster_names : list json)
    : M (list json) :=
  match cluster_names with
  | [] => ret []
  | cluster_name :: rest =>
      let vcenter_uuid := of_option (vcenter_uuid (params module)) in
      group_id <-
        call_keywords "OMEVVBaselineProfile.get_group_ids_for_clusters"
          "vcenter_uuid" "cluster_names"
          OMEVVBaselineProfile.get_group_ids_for_clusters
          [("vcenter_uuid", vcenter_uuid); ("cluster_name", cluster_name)] ;;
      cluster_id <- OMEVVBaselineProfile.get_cluster_id cluster_name vcenter_uuid ;;
      cluster_groups <- get_cluster_groups_from module rest ;;
      ret (JDict [("clusterID", JList cluster_id);
                  ("clusterName", cluster_name);
                  ("omevv_groupID", JList group_id)] :: cluster_groups)
  end.

Definition get_cluster_groups (module : AnsibleModule) (cluster_names : json)
    : M (list json) :=
  names <- lift (py_iter cluster_names) ;;
  get_cluster_groups_from module names.

Definition diff_mode_check (module : AnsibleModule) (payload : json) : M json :=
  let cluster_names := of_names (cluster (params module)) in
  let vcenter_uuid := of_option (vcenter_uuid (params module)) in
  let description := of_option (description (params module)) in
  cluster_ids <- OMEVVBaselineProfile.get_cluster_id cluster_names vcenter_uuid ;;
  group_ids <- OMEVVBaselineProfile.get_group_ids_for_clusters vcenter_uuid cluster_names ;;
  names <- lift (py_iter cluster_names) ;;
  let cluster_groups := cluster_groups_of names cluster_ids group_ids in
  payload_name <- lift (py_get payload "name") ;;
  payload_repo_id <- lift (py_get payload "firmwareRepoId") ;;
  payload_schedule <- lift (py_get payload "jobSchedule") ;;
  let filtered_payload :=
    [("name", payload_name);
     ("firmwareRepoId", payload_repo_id);
     ("firmwareRepoName", of_option (repository_profile (params module)));
     ("clusterGroups", cluster_groups);
     ("description", description);
     ("jobSchedule", payload_schedule)] in
  ret (JDict [("before", JDict []); ("after", JDict (drop_none filtered_payload))]).

Definition perform_create_baseline_profile (fuel : nat) (module : AnsibleModule)
    (payload : json) : M unit :=
  let vcenter_uuid := of_option (vcenter_uuid (params module)) in
  payload_name <- lift (py_get payload "name") ;;
  payload_repo_id <- lift (py_get payload "firmwareRepoId") ;;
  payload_group_ids <- lift (py_get payload "groupIds") ;;
  ' (response, err_msg) <-
    OMEVVBaselineProfile.create_baseline_profile payload_name payload_repo_id
      payload_group_ids vcenter_uuid payload ;;
  if success response
  then
    let fetch :=
      OMEVVBaselineProfile.get_baseline_profile_by_id (json_data response) vcenter_uuid in
    profile_resp <- fetch ;;
    profile_resp <- poll_until_terminal fuel fetch profile_resp ;;
    diff <- diff_mode_check module payload ;;
    successful <- (if _diff module then status_successful profile_resp else ret false) ;;
    if successful
    then exit_json [("msg", JStr SUCCESS_CREATION_MSG);
                    ("baseline_profile_info", json_data profile_resp);
                    ("diff", diff);
                    ("changed", JBool true)]
    else
      successful <- status_successful profile_resp ;;
      if successful
      then exit_json [("msg", JStr SUCCESS_CREATION_MSG);
                      ("baseline_profile_info", json_data profile_resp);
                      ("changed", JBool true)]
      else exit_json [("msg", JStr FAILED_CREATION_MSG);
                      ("baseline_profile_info", json_data profile_resp);
                      ("failed", JBool true)]
  else exit_json [("msg", JStr FAILED_CREATION_MSG); ("failed", JBool true)].

(** The statements of [execute] after [self.validate_common_params()]. *)
Definition execute_body (module : AnsibleModule) : M unit :=
  let vcenter_uuid := of_option (vcenter_uuid (params module)) in
  firmware_repo_id <-
    OMEVVBaselineProfile.get_repo_id_by_name
      (of_option (repository_profile (params module))) ;;
  group_ids <-
    OMEVVBaselineProfile.get_group_ids_for_clusters vcenter_uuid
      (of_names (cluster (params module))) ;;
  let job_schedule :=
    OMEVVBaselineProfile.create_job_schedule (days (params module))
      (time (params module)) in
  let payload :=
    [("name", JStr (name (params module)));
     ("firmwareRepoId", firmware_repo_id);
     ("groupIds", JList group_ids)] in
  let payload :=
    match description (params module) with
    | Some d => dict_set "description" (JStr d) payload
    | None => payload
    end in
  let payload :=
    if truthy job_schedule then dict_set "jobSchedule" job_schedule payload
    else payload in
  when (check_mode module && _diff module)
    (diff <- diff_mode_check module (JDict payload) ;;
     exit_json [("msg", JStr CHANGES_FOUND_MSG); ("diff", diff); ("changed", JBool true)]) ;;
  when (check_mode module)
    (exit_json [("msg", JStr CHANGES_FOUND_MSG); ("changed", JBool true)]) ;;
  call_self_method cls_CreateBaselineProfile "create_baseline_profile" nothing_bound.

Definition execute (module : AnsibleModule) : M unit :=
  BaselineProfile.validate_common_params module ;;
  execute_body module.

End CreateBaselineProfile.

Module ModifyBaselineProfile.

Definition diff_mode_check (module : AnsibleModule) (existing_profile payload : json)
    : M json :=
  let cluster_names := of_names (cluster (params module)) in
  let vcenter_uuid := of_option (vcenter_uuid (params module)) in
  (* the default of [params.get('description', ...)] is evaluated, then
     unused: [params] has the key *)
  _ <- lift (py_get existing_profile "description") ;;
  let description := of_option (description (params module)) in
  cluster_ids <- OMEVVBaselineProfile.get_cluster_id cluster_names vcenter_uuid ;;
  group_ids <- OMEVVBaselineProfile.get_group_ids_for_clusters vcenter_uuid cluster_names ;;
  names <- lift (py_iter cluster_names) ;;
  let cluster_groups := cluster_groups_of names cluster_ids group_ids in
  drift_job_id <- lift (py_get existing_profile "driftJobId") ;;
  old_job_schedule_resp <-
    OMEVVBaselineProfile.get_current_job_schedule drift_job_id vcenter_uuid ;;
  old_job_schedule <- lift (py_get (json_data old_job_schedule_resp) "schedule") ;;
  new_job_schedule <- lift (py_getitem payload "jobSchedule") ;;
  payload_repo_id <- lift (py_get payload "firmwareRepoId") ;;
  let modified_payload :=
    [("name", JStr (name (params module)));
     ("firmwareRepoId", payload_repo_id);
     ("firmwareRepoName", of_option (repository_profile (params module)));
     ("clusterGroups", cluster_groups);
     ("description", description);
     ("jobSchedule", new_job_schedule)] in
  items <- lift (match existing_profile with
                 | JDict d => Ret d
                 | _ => Raise (AttributeError
                                 ("'" ++ type_name existing_profile
                                  ++ "' object has no attribute 'items'"))
                 end) ;;
  let filtered_existing_profile :=
    filter (fun kv => dict_has (fst kv) modified_payload) items in
  let filtered_existing_profile :=
    dict_set "jobSchedule" old_job_schedule filtered_existing_profile in
  if py_eq (JDict filtered_existing_profile) (JDict modified_payload)
  then ret (JDict [("before", JDict []); ("after", JDict [])])
  else ret (JDict [("before", JDict (drop_none filtered_existing_profile));
                   ("after", JDict (drop_none modified_payload))]).

Definition perform_modify_baseline_profile (fuel : nat) (module : AnsibleModule)
    (existing_profile payload diff_before_modify : json) : M unit :=
  let diff := diff_before_modify in
  profile_id <- lift (py_get existing_profile "id") ;;
  let vcenter_uuid := of_option (vcenter_uuid (params module)) in
  ' (response, err_msg) <-
    OMEVVBaselineProfile.modify_baseline_profile profile_id vcenter_uuid payload ;;
  if success response
  then
    let fetch := OMEVVBaselineProfile.get_baseline_profile_by_id profile_id vcenter_uuid in
    profile_resp <- fetch ;;
    profile_resp <- poll_until_terminal fuel fetch profile_resp ;;
    successful <- (if _diff module then status_successful profile_resp else ret false) ;;
    if successful
    then exit_json [("msg", JStr SUCCESS_MODIFY_MSG);
                    ("baseline_profile_info", json_data profile_resp);
                    ("diff", diff);
                    ("changed", JBool true)]
    else
      successful <- status_successful profile_resp ;;
      if successful
      then exit_json [("msg", JStr SUCCESS_MODIFY_MSG);
                      ("baseline_profile_info", json_data profile_resp);
                      ("changed", JBool true)]
      else exit_json [("msg", JStr FAILED_MODIFY_MSG);
                      ("baseline_profile_info", json_data profile_resp);
                      ("failed", JBool true)]
  else exit_json [("msg", JStr FAILED_MODIFY_MSG); ("failed", JBool true)].

(** The statements of [execute] after [self.validate_common_params()]. *)
Definition execute_body (module : AnsibleModule) (existing_profile : json) : M unit :=
  let vcenter_uuid := of_option (vcenter_uuid (params module)) in
  ' (add_group_ids, remove_group_ids) <-
    OMEVVBaselineProfile.get_add_remove_group_ids existing_profile vcenter_uuid
      (of_names (cluster (params module))) ;;
  let job_schedule :=
    OMEVVBaselineProfile.create_job_schedule (days (params module))
      (time (params module)) in
  let repository_name := of_option (repository_profile (params module)) in
  firmware_repo_id <- OMEVVBaselineProfile.get_repo_id_by_name repository_name ;;
  _ <- lift (py_get existing_profile "description") ;;
  let new_payload :=
    JDict [("addgroupIds", JList add_group_ids);
           ("removeGroupIds", JList remove_group_ids);
           ("jobSchedule", job_schedule);
           ("description", of_option (description (params module)));
           ("configurationRepoId", JNum 0);
           ("firmwareRepoId", firmware_repo_id);
           ("driverRepoId", JNum 0);
           ("modifiedBy", JStr "Administrator@VSPHERE.LOCAL")] in
  diff <- diff_mode_check module existing_profile new_payload ;;
  before <- lift (py_getitem diff "before") ;;
  after <- lift (py_getitem diff "after") ;;
  when (negb (truthy before) && negb (truthy after))
    (exit_json [("msg", JStr CHANGES_NOT_FOUND_MSG); ("changed", JBool false)]) ;;
  when (check_mode module && _diff module)
    (exit_json [("msg", JStr CHANGES_FOUND_MSG); ("diff", diff); ("changed", JBool true)]) ;;
  when (check_mode module)
    (exit_json [("msg", JStr CHANGES_FOUND_MSG); ("changed", JBool true)]) ;;
  call_self_method cls_ModifyBaselineProfile "modify_baseline_profile" nothing_bound.

Definition execute (module : AnsibleModule) (existing_profile : json) : M unit :=
  BaselineProfile.validate_common_params module ;;
  execute_body module existing_profile.

End ModifyBaselineProfile.

Module DeleteBaselineProfile.

Definition diff_mode_check (module : AnsibleModule) (payload : json) : result json :=
  v_name <- py_getitem payload "name" ;;
  v_description <- py_getitem payload "description" ;;
  v_repo_id <- py_getitem payload "firmwareRepoId" ;;
  v_repo_name <- py_getitem payload "firmwareRepoName" ;;
  v_groups <- py_getitem payload "clusterGroups" ;;
  let diff_dict :=
    [("name", v_name);
     ("description", v_description);
     ("firmwareRepoId", v_repo_id);
     ("firmwareRepoName", v_repo_name);
     ("clusterGroups", v_groups)] in
  if _diff module
  then Ret (JDict [("before", JDict diff_dict); ("after", JDict [])])
  else Ret (JDict []).

Definition perform_delete_baseline_profile (module : AnsibleModule)
    (profile_resp : json) : M unit :=
  diff <- lift (diff_mode_check module profile_resp) ;;
  let vcenter_uuid := of_option (vcenter_uuid (params module)) in
  profile_id <- lift (py_getitem profile_resp "id") ;;
  resp <- OMEVVBaselineProfile.delete_baseline_profile profile_id vcenter_uuid ;;
  if success resp
  then
    when (_diff module)
      (exit_json [("msg", JStr SUCCESS_DELETION_MSG);
                  ("baseline_profile_info", JDict []);
                  ("diff", diff);
                  ("changed", JBool true)]) ;;
    exit_json [("msg", JStr SUCCESS_DELETION_MSG);
               ("baseline_profile_info", JDict []);
               ("changed", JBool true)]
  else exit_json [("msg", JStr FAILED_DELETION_MSG); ("failed", JBool true)].

Definition execute (module : AnsibleModule) (profile_name : json) : M unit :=
  let vcenter_uuid := of_option (vcenter_uuid (params module)) in
  profile_exists <-
    OMEVVBaselineProfile.get_baseline_profile_by_name profile_name vcenter_uuid ;;
  let found := truthy profile_exists in
  when (found && check_mode module && _diff module)
    (diff <- lift (diff_mode_check module profile_exists) ;;
     exit_json [("msg", JStr CHANGES_FOUND_MSG); ("diff", diff); ("changed", JBool true)]) ;;
  when (negb found && check_mode module)
    (exit_json [("msg", JStr CHANGES_NOT_FOUND_MSG); ("changed", JBool false)]) ;;
  when (negb found && negb (check_mode module) && _diff module)
    (exit_json [("msg", JStr CHANGES_NOT_FOUND_MSG);
                ("diff", JDict [("before", JDict []); ("after", JDict [])]);
                ("changed", JBool false)]) ;;
  when (negb found && negb (check_mode module))
    (exit_json [("msg", JStr CHANGES_NOT_FOUND_MSG); ("changed", JBool false)]) ;;
  when (found && negb (check_mode module))
    (call_self_method cls_DeleteBaselineProfile "delete_baseline_profile" nothing_bound) ;;
  when (found && check_mode module)
    (exit_json [("msg", JStr CHANGES_FOUND_MSG); ("changed", JBool true)]).

End DeleteBaselineProfile.

(** *** [main] *)

(** The [try] block.  Entering [RestOMEVV(module.params)] is taken to send
    nothing. *)
Definition main_try (module : AnsibleModule) : M unit :=
  let profile_name := JStr (name (params module)) in
  let vcenter_uuid := of_option (vcenter_uuid (params module)) in
  match state (params module) with
  | present =>
      existing_profile <-
        OMEVVBaselineProfile.get_baseline_profile_by_name profile_name vcenter_uuid ;;
      if truthy existing_profile
      then ModifyBaselineProfile.execute module existing_profile
      else CreateBaselineProfile.execute module
  | absent => DeleteBaselineProfile.execute module profile_name
  end.

(** [except HTTPError as err:] with [err.code] and the body of [err], which
    the clause parses with [json.load(err)] where it needs it. *)
Definition except_HTTPError (module : AnsibleModule) (err_code : Z) (err : http_body)
    : M unit :=
  when (Z.eqb err_code 500)
    (msg <- lift (json_load err) ;;
     exit_json [("msg", msg); ("failed", JBool true)]) ;;
  error_info <- lift (json_load err) ;;
  code <- lift (py_get error_info "errorCode") ;;
  message <- lift (py_get error_info "message") ;;
  already_exists <- lift (py_in (JStr "18001") code) ;;
  when (already_exists && check_mode module)
    (exit_json [("msg", JStr CHANGES_NOT_FOUND_MSG)]) ;;
  internal <- lift (py_in (JStr "500") code) ;;
  when internal
    (exit_json [("msg", message); ("skipped", JBool true)]) ;;
  exit_json [("msg", message); ("error_info", error_info); ("failed", JBool true)].

(** [except URLError as err:] *)
Definition except_URLError (err : exn) : M unit :=
  exit_json [("msg", JStr (exn_str err)); ("unreachable", JBool true)].

(** The classes of the last [except] clause. *)
Definition caught_by_last_clause (err : exn) : bool :=
  match err with
  | OSError _ | ValueError _ | TypeError _ | ConnectionError _
  | AttributeError _ | IndexError _ | KeyError _ => true
  | _ => false
  end.

Definition main (module : AnsibleModule) : M unit :=
  fun e tr =>
    match main_try module e tr with
    | (Raise (HTTPError err_code body), tr') => except_HTTPError module err_code body e tr'
    | (Raise (URLError reason), tr') => except_URLError (URLError reason) e tr'
    | (Raise err, tr') =>
        if caught_by_last_clause err
        then exit_json [("msg", JStr (exn_str err)); ("failed", JBool true)] e tr'
        else (Raise err, tr')
    | other => other
    end.

(** One run of the module from an empty history. *)
Definition run (e : env) (module : AnsibleModule) : result unit * list event :=
  main module e [].

(** ** What is read off a run *)

Definition mutating (ev : event) : bool :=
  match ev with
  | Invoke method _ _ =>
      String.eqb method "POST" || String.eqb method "PATCH" || String.eqb method "DELETE"
  | Sleep _ => false
  end.

Definition is_get (ev : event) : bool :=
  match ev with
  | Invoke method _ _ => String.eqb method "GET"
  | Sleep _ => false
  end.

Definition kwarg (k : string) (r : result unit) : option json :=
  match r with
  | Exit kwargs => dict_get k kwargs
  | _ => None
  end.

Definition weekdays : list string :=
  ["monday"; "tuesday"; "wednesday"; "thursday"; "friday"; "saturday"; "sunday"].

(** [schedule[day]], when there is a schedule. *)
Definition flag (key : string) (schedule : json) : option json :=
  match schedule with
  | JDict d => dict_get key d
  | _ => None
  end.

(** ** Sample collaborators for the concrete runs below *)

Definition sample_vcenter : string := "vc-1".

Definition sample_schedule : json :=
  JDict [("monday", JBool true);
         ("tuesday", JBool false);
         ("wednesday", JBool false);
         ("thursday", JBool false);
         ("friday", JBool true);
         ("saturday", JBool false);
         ("sunday", JBool false);
         ("time", JStr "20:00")].

(** A stored baseline profile, as the backend lists it. *)
Definition sample_profile : json :=
  JDict [("id", JNum 1001);
         ("name", JStr "profile-1");
         ("description", JStr "nightly");
         ("firmwareRepoId", JNum 1000);
         ("firmwareRepoName", JStr "repo-1");
         ("clusterGroups",
          JList [JDict [("clusterID", JStr "domain-c1");
                        ("clusterName", JStr "cluster-1");
                        ("omevv_groupID", JNum 5)]]);
         ("driftJobId", JNum 77);
         ("status", JStr "SUCCESSFUL")].

Definition not_found : reply :=
  Raises (HTTPError 404
            (JSONText (JDict [("errorCode", JStr "12027");
                              ("message", JStr "Resource not found.")]))).

(** A backend that holds the given baseline profiles, one repository profile,
    one cluster with its group, and the schedule of drift job 77. *)
Definition sample_backend (profiles : list json) : rest_client :=
  fun _ method uri _ =>
    if String.eqb method "GET" && String.eqb uri "/Consoles/vc-1/BaselineProfiles"
    then Returns (Response true (JList profiles))
    else if String.eqb method "GET" && String.eqb uri "/RepositoryProfiles"
    then Returns (Response true
                    (JList [JDict [("id", JNum 1000); ("profileName", JStr "repo-1")]]))
    else if String.eqb method "GET" && String.eqb uri "/Consoles/vc-1/Clusters"
    then Returns (Response true
                    (JList [JDict [("entityId", JStr "domain-c1");
                                   ("name", JStr "cluster-1")]]))
    else if String.eqb method "POST"
            && String.eqb uri "/Consoles/vc-1/Groups/getGroupsForClusters"
    then Returns (Response true (JList [JDict [("groupId", JNum 5)]]))
    else if String.eqb method "GET" && String.eqb uri "/Consoles/vc-1/UpdateJobs/77"
    then Returns (Response true (JDict [("schedule", sample_schedule)]))
    else if String.eqb method "DELETE"
            && String.eqb uri "/Consoles/vc-1/BaselineProfiles/1001"
    then Returns (Response true JNull)
    else not_found.

(** Stand-ins for the two validators of [module_utils/utils.py]: the first
    flags a waiting time that is not positive, the second accepts any time. *)
Definition sample_validate_job_wait (module : AnsibleModule) : result json :=
  Ret (JBool (job_wait (params module) && (job_wait_timeout (params module) <=? 0)%Z)).

Definition sample_validate_time (_ : json) (_ : AnsibleModule) : result unit := Ret tt.

Definition sample_env (profiles : list json) : env :=
  {| omevv := sample_backend profiles;
     validate_job_wait := sample_validate_job_wait;
     validate_time := sample_validate_time |}.

(** The task that would leave [sample_profile] as it is. *)
Definition sample_params (s : state_choice) : Params :=
  {| state := s;
     name := "profile-1";
     cluster := Some ["cluster-1"];
     description := Some "nightly";
     days := Some ["monday"; "friday"];
     time := Some "20:00";
     repository_profile := Some "repo-1";
     job_wait := true;
     job_wait_timeout := 1200;
     vcenter_uuid := Some sample_vcenter |}.

Definition sample_module (s : state_choice) (check diff : bool) : AnsibleModule :=
  {| params := sample_params s; check_mode := check; _diff := diff |}.


(** A REST client whose every call raises [err]. *)
Definition failing_env (err : exn) : env :=
  {| omevv := fun _ _ _ _ => Raises err;
     validate_job_wait := sample_validate_job_wait;
     validate_time := sample_validate_time |}.

Definition missing_argument_message : string :=
  "OMEVVBaselineProfile.validate_repository_profile() missing 1 required positional argument: 'module'".

Definition no_delete_method_message : string :=
  "'DeleteBaselineProfile' object has no attribute 'delete_baseline_profile'".

(** A task that asks for the absence of a profile the backend does not hold. *)
Definition sample_module_other_name : AnsibleModule :=
  {| params :=
       {| state := absent;
          name := "profile-2";
          cluster := None;
          description := None;
          days := None;
          time := None;
          repository_profile := None;
          job_wait := true;
          job_wait_timeout := 1200;
          vcenter_uuid := Some sample_vcenter |};
     check_mode := false;
     _diff := true |}.

(** Two error bodies: the "already exists" code of the module's
    documentation, and a code that contains "500". *)
Definition sample_conflict : json :=
  JDict [("errorCode", JStr "18001");
         ("message", JStr "Baseline profile with name Test already exists.")].

Definition sample_internal : json :=
  JDict [("errorCode", JStr "12500"); ("message", JStr "Internal error.")].

(** The body of an error page that is not JSON, with what [json.load] says
    of it. *)
Definition sample_error_page : http_body :=
  NotJSON "Expecting value: line 1 column 1 (char 0)".

(** A REST client whose every response is flagged unsuccessful. *)
Definition unsuccessful_env : env :=
  {| omevv := fun _ _ _ _ =>
       Returns (Response false (JDict [("message", JStr "Service unavailable.")]));
     validate_job_wait := sample_validate_job_wait;
     validate_time := sample_validate_time |}.

(** A profile attached to groups 1, 2 and 3, and a backend whose cluster
    resolves to groups 2, 3 and 4. *)
Definition profile_with_groups_123 : json :=
  JDict [("name", JStr "profile-1");
         ("clusterGroups",
          JList [JDict [("omevv_groupID", JNum 1)];
                 JDict [("omevv_groupID", JNum 2)];
                 JDict [("omevv_groupID", JNum 3)]])].

Definition env_with_groups_234 : env :=
  {| omevv := fun _ method _ _ =>
       if String.eqb method "GET"
       then Returns (Response true
                       (JList [JDict [("entityId", JStr "domain-c1");
                                      ("name", JStr "cluster-1")]]))
       else Returns (Response true
                       (JList [JDict [("groupId", JNum 2)];
                               JDict [("groupId", JNum 3)];
                               JDict [("groupId", JNum 4)]]));
     validate_job_wait := sample_validate_job_wait;
     validate_time := sample_validate_time |}.

(** *** What the polling loop observes *)

Definition status_of (r : response) : result json := py_getitem (json_data r) "status".

(** The loop goes on after [r]: it carries a status, neither of the two
    final ones. *)
Definition still_running (r : response) : bool :=
  match status_of r with
  | Ret s => negb (mem s [JStr "SUCCESSFUL"; JStr "FAILED"])
  | _ => false
  end.

(** The REST client answers the successive fetches of [uri], the first at
    history [tr] and each later one after a sleep of 3, with [observed]. *)
Fixpoint fetches (e : env) (uri : string) (tr : list event) (observed : list response)
    : Prop :=
  match observed with
  | [] => True
  | r :: rest =>
      omevv e tr "GET" uri None = Returns r /\
      fetches e uri ((tr ++ [Invoke "GET" uri None]) ++ [Sleep 3])%list rest
  end.

(** The events of a poll that waits [n] times. *)
Fixpoint poll_events (uri : string) (n : nat) : list event :=
  match n with
  | O => [Invoke "GET" uri None]
  | S n' => Invoke "GET" uri None :: Sleep 3 :: poll_events uri n'
  end.

Definition fetched (uri : string) (ev : event) : bool :=
  match ev with
  | Invoke method uri' _ => String.eqb method "GET" && String.eqb uri' uri
  | Sleep _ => false
  end.

Definition snapshot (status : string) : response :=
  Response true (JDict [("id", JNum 1001); ("status", JStr status)]).

(** A backend that accepts the submission and then reports the given
    statuses, one per fetch of profile 1001. *)
Definition polling_env (statuses : list string) : env :=
  {| omevv := fun tr method uri data =>
       if String.eqb method "POST" && String.eqb uri "/Consoles/vc-1/BaselineProfiles"
       then Returns (Response true (JNum 1001))
       else if String.eqb method "PATCH"
               && String.eqb uri "/Consoles/vc-1/BaselineProfiles/1001"
       then Returns (Response true JNull)
       else if String.eqb method "GET"
               && String.eqb uri "/Consoles/vc-1/BaselineProfiles/1001"
       then Returns
              (snapshot
                 (nth (List.length
                         (filter (fetched "/Consoles/vc-1/BaselineProfiles/1001") tr))
                    statuses "FAILED"))
       else sample_backend [] tr method uri data;
     validate_job_wait := sample_validate_job_wait;
     validate_time := sample_validate_time |}.

(** The payloads [execute] would build for the sample task. *)
Definition sample_create_payload : dict :=
  [("name", JStr "profile-1");
   ("firmwareRepoId", JNum 1000);
   ("groupIds", JList [JNum 5]);
   ("description", JStr "nightly");
   ("jobSchedule", sample_schedule)].

Definition sample_modify_payload : json :=
  JDict [("addgroupIds", JList []);
         ("removeGroupIds", JList []);
         ("jobSchedule", sample_schedule);
         ("description", JStr "nightly");
         ("configurationRepoId", JNum 0);
         ("firmwareRepoId", JNum 1000);
         ("driverRepoId", JNum 0);
         ("modifiedBy", JStr "Administrator@VSPHERE.LOCAL")].

(** The address of one baseline profile. *)
Definition profile_uri (vcenter_uuid profile_id : json) : string :=
  BASELINE_PROFILE_URI vcenter_uuid ++ "/" ++ py_str profile_id.

(** The keyword arguments of the two final exits of a [perform_...] method. *)
Definition success_exit (message : string) (with_diff : bool) (info diff : json) : dict :=
  if with_diff
  then [("msg", JStr message); ("baseline_profile_info", info); ("diff", diff);
        ("changed", JBool true)]
  else [("msg", JStr message); ("baseline_profile_info", info); ("changed", JBool true)].

Definition failure_exit (message : string) (info : json) : dict :=
  [("msg", JStr message); ("baseline_profile_info", info); ("failed", JBool true)].

(** What [diff_mode_check] of the delete path reports for [sample_profile]. *)
Definition sample_delete_diff : json :=
  JDict [("before",
          JDict [("name", JStr "profile-1");
                 ("description", JStr "nightly");
                 ("firmwareRepoId", JNum 1000);
                 ("firmwareRepoName", JStr "repo-1");
                 ("clusterGroups",
                  JList [JDict [("clusterID", JStr "domain-c1");
                                ("clusterName", JStr "cluster-1");
                                ("omevv_groupID", JNum 5)]])]);
         ("after", JDict [])].

Definition no_op_diff : json := JDict [("before", JDict []); ("after", JDict [])].

(** The sample task with a repository profile the backend does not hold. *)
Definition sample_module_unknown_repository : AnsibleModule :=
  {| params :=
       {| state := present;
          name := "profile-1";
          cluster := Some ["cluster-1"];
          description := Some "nightly";
          days := Some ["monday"; "friday"];
          time := Some "20:00";
          repository_profile := Some "repo-9";
          job_wait := true;
          job_wait_timeout := 1200;
          vcenter_uuid := Some sample_vcenter |};
     check_mode := false;
     _diff := false |}.

(** ** What a computation sends *)

(** [c] hands nothing to the REST client and does not sleep. *)
Definition silent {A} (c : M A) : Prop := forall e tr, snd (c e tr) = tr.

(** [c] adds exactly the events [l] to the history. *)
Definition sends {A} (c : M A) (l : list event) : Prop :=
  forall e tr, snd (c e tr) = (tr ++ l)%list.

(** [c] ends by raising or by leaving the module. *)
Definition never_returns {A} (c : M A) : Prop :=
  forall e tr a, fst (c e tr) <> Ret a.

(** Every event [c] adds to the history satisfies [P]. *)
Definition sends_only (P : event -> bool) {A} (c : M A) : Prop :=
  forall e tr, exists l, snd (c e tr) = (tr ++ l)%list /\ forallb P l = true.

(** A request that only reads: a GET, or the POST that translates cluster
    ids to group ids. *)
Definition resolving (ev : event) : bool :=
  match ev with
  | Invoke method uri _ =>
      String.eqb method "GET"
      || (String.eqb method "POST"
          && is_substring "/Groups/getGroupsForClusters" uri)
  | Sleep _ => false
  end.

(** ** Further samples *)

(** Three repository profiles, two of them of the same name. *)
Definition sample_repository_b : json :=
  JDict [("id", JNum 2); ("profileName", JStr "b")].

Definition sample_repositories : list json :=
  [JDict [("id", JNum 1); ("profileName", JStr "a")];
   sample_repository_b;
   JDict [("id", JNum 3); ("profileName", JStr "b")]].

(** Two more stored baseline profiles, the second of the same name as
    [sample_profile]. *)
Definition sample_profile_other : json :=
  JDict [("id", JNum 1000); ("name", JStr "profile-0")].

Definition sample_profile_later : json :=
  JDict [("id", JNum 1002); ("name", JStr "profile-1")].

(** A backend that lists two clusters. *)
Definition two_clusters : list json :=
  [JDict [("entityId", JStr "domain-c1"); ("name", JStr "cluster-1")];
   JDict [("entityId", JStr "domain-c2"); ("name", JStr "cluster-2")]].

Definition two_clusters_env : env :=
  {| omevv := fun _ method _ _ =>
       if String.eqb method "GET"
       then Returns (Response true (JList two_clusters))
       else Returns (Response true
                       (JList [JDict [("groupId", JNum 5)]; JDict [("groupId", JNum 6)]]));
     validate_job_wait := sample_validate_job_wait;
     validate_time := sample_validate_time |}.

(** The REST client answers the fetches of [uri] with [waiting], as in
    [fetches], and the fetch after them with [last]. *)
Fixpoint fetches_then (e : env) (uri : string) (tr : list event)
    (waiting : list response) (last : reply) : Prop :=
  match waiting with
  | [] => omevv e tr "GET" uri None = last
  | r :: rest =>
      omevv e tr "GET" uri None = Returns r /\
      fetches_then e uri ((tr ++ [Invoke "GET" uri None]) ++ [Sleep 3])%list rest last
  end.

(** A backend that accepts the submission, reports PENDING once and then
    fails the next fetch. *)
Definition failing_poll_env : env :=
  {| omevv := fun tr method uri data =>
       if String.eqb method "GET"
          && String.eqb uri "/Consoles/vc-1/BaselineProfiles/1001"
       then match filter (fetched "/Consoles/vc-1/BaselineProfiles/1001") tr with
            | [] => Returns (snapshot "PENDING")
            | _ => Raises (URLError "timed out")
            end
       else omevv (polling_env []) tr method uri data;
     validate_job_wait := sample_validate_job_wait;
     validate_time := sample_validate_time |}.

(** The keys [diff_mode_check] of the delete path reads, in its order. *)
Definition delete_diff_keys : list string :=
  ["name"; "description"; "firmwareRepoId"; "firmwareRepoName"; "clusterGroups"].

(** The first of them that [profile] lacks. *)
Definition first_missing_key (profile : dict) : option string :=
  find (fun k => negb (dict_has k profile)) delete_diff_keys.

(** The projection of [profile] on those keys. *)
Definition delete_projection (profile : dict) : dict :=
  map (fun k => (k, match dict_get k profile with Some v => v | None => JNull end))
    delete_diff_keys.

(** A stored profile that carries no description. *)
Definition sample_profile_without_description : dict :=
  [("id", JNum 1001);
   ("name", JStr "profile-1");
   ("firmwareRepoId", JNum 1000);
   ("firmwareRepoName", JStr "repo-1");
   ("clusterGroups", JList [])].

(** The same profile with its description. *)
Definition sample_profile_with_description : dict :=
  ("description", JStr "nightly") :: sample_profile_without_description.

(** ** How a computation ends *)

(** [r] is a value or an exception: what a computation that neither leaves
    the module nor loops ends with. *)
Definition settled {A} (r : result A) : bool :=
  match r with
  | Ret _ | Raise _ => true
  | Exit _ | OutOfFuel => false
  end.

(** [r] is [exit_json] or an exception. *)
Definition leaves {A} (r : result A) : bool :=
  match r with
  | Exit _ | Raise _ => true
  | Ret _ | OutOfFuel => false
  end.

(** An error code that [in] cannot search: [None], a boolean or a number. *)
Definition not_a_container (v : json) : bool :=
  match v with
  | JNull | JBool _ | JNum _ => true
  | JStr _ | JList _ | JDict _ => false
  end.

(** An error body that names no error code. *)
Definition sample_not_found : json :=
  JDict [("message", JStr "Not found.")].

(** The sample task for two clusters, named in the reverse of the order in
    which [two_clusters] lists them. *)
Definition sample_module_two_clusters : AnsibleModule :=
  {| params :=
       {| state := present;
          name := "profile-1";
          cluster := Some ["cluster-2"; "cluster-1"];
          description := Some "nightly";
          days := Some ["monday"; "friday"];
          time := Some "20:00";
          repository_profile := Some "repo-1";
          job_wait := true;
          job_wait_timeout := 1200;
          vcenter_uuid := Some sample_vcenter |};
     check_mode := true;
     _diff := true |}.

(** A backend that accepts the submission and reports the profile as PENDING
    and then as FAILED, and whose listing of clusters cannot be reached. *)
Definition unlisted_failed_env : env :=
  {| omevv := fun tr method uri data =>
       if String.eqb uri "/Consoles/vc-1/Clusters"
       then Raises (URLError "timed out")
       else omevv (polling_env ["PENDING"; "FAILED"]) tr method uri data;
     validate_job_wait := sample_validate_job_wait;
     validate_time := sample_validate_time |}.

(** The same with a profile that is SUCCESSFUL at the first fetch. *)
Definition unlisted_env : env :=
  {| omevv := fun tr method uri data =>
       if String.eqb uri "/Consoles/vc-1/Clusters"
       then Raises (URLError "timed out")
       else omevv (polling_env ["SUCCESSFUL"]) tr method uri data;
     validate_job_wait := sample_validate_job_wait;
     validate_time := sample_validate_time |}.

(** * Properties *)

(** ** Reasoning about what a computation sends *)

Lemma bind_run {A B} (c : M A) (k : A -> M B) e tr :
  bind c k e tr =
  match c e tr with
  | (Ret a, tr') => k a e tr'
  | (Raise x, tr') => (Raise x, tr')
  | (Exit kw, tr') => (Exit kw, tr')
  | (OutOfFuel, tr') => (OutOfFuel, tr')
  end.
Proof. reflexivity. Qed.

Lemma silent_ret {A} (a : A) : silent (ret a : M A).
Proof. intros e tr. reflexivity. Qed.

Lemma silent_lift {A} (r : result A) : silent (lift r).
Proof. intros e tr. reflexivity. Qed.

Lemma silent_raise {A} (x : exn) : silent (raise x : M A).
Proof. intros e tr. reflexivity. Qed.

Lemma silent_exit_json {A} (kw : dict) : silent (exit_json kw : M A).
Proof. intros e tr. reflexivity. Qed.

Lemma silent_bind {A B} (c : M A) (k : A -> M B) :
  silent c -> (forall a, silent (k a)) -> silent (bind c k).
Proof.
  intros Hc Hk e tr. rewrite bind_run. specialize (Hc e tr).
  destruct (c e tr) as [[a | x | kw |] tr']; simpl in *; subst; auto.
  apply Hk.
Qed.

Lemma silent_bind_stop {A B} (c : M A) (k : A -> M B) :
  silent c -> never_returns c -> silent (bind c k).
Proof.
  intros Hc Hn e tr. rewrite bind_run. specialize (Hc e tr). specialize (Hn e tr).
  destruct (c e tr) as [[a | x | kw |] tr']; simpl in *; subst; auto.
  exfalso. exact (Hn a eq_refl).
Qed.

Lemma silent_when (b : bool) (c : M unit) : silent c -> silent (when b c).
Proof. intros Hc. destruct b; [exact Hc | apply silent_ret]. Qed.

Lemma silent_if {A} (b : bool) (c1 c2 : M A) :
  silent c1 -> silent c2 -> silent (if b then c1 else c2).
Proof. now destruct b. Qed.

Lemma silent_call_self_method {A} (c : class) (attr : string)
    (callee : hasattr c attr = true -> M A) :
  hasattr c attr = false -> silent (call_self_method c attr callee).
Proof.
  intros Hnone e tr. unfold call_self_method. generalize (eq_refl (hasattr c attr)).
  generalize callee. clear callee. rewrite Hnone. reflexivity.
Qed.

Lemma silent_call_validate_job_wait module : silent (call_validate_job_wait module).
Proof. intros e tr. reflexivity. Qed.

Lemma silent_call_validate_time t module : silent (call_validate_time t module).
Proof. intros e tr. reflexivity. Qed.

Lemma sends_invoke_request (method uri : string) (data : option json) :
  sends (invoke_request method uri data) [Invoke method uri data].
Proof.
  intros e tr. unfold invoke_request.
  destruct (omevv e tr method uri data); reflexivity.
Qed.

Lemma sends_bind_silent {A B} (c : M A) (k : A -> M B) (l : list event) :
  sends c l -> (forall a, silent (k a)) -> sends (bind c k) l.
Proof.
  intros Hc Hk e tr. rewrite bind_run. specialize (Hc e tr).
  destruct (c e tr) as [[a | x | kw |] tr']; simpl in *; subst; auto.
  apply Hk.
Qed.

Create HintDb silent.
#[local] Hint Resolve silent_ret silent_lift silent_raise silent_exit_json
  silent_when silent_if silent_call_validate_job_wait
  silent_call_validate_time : silent.

Ltac silence :=
  repeat first
    [ apply silent_bind; [| intros ?]
    | apply silent_when
    | apply silent_call_self_method; reflexivity
    | apply silent_if
    | match goal with |- silent (match ?x with _ => _ end) => destruct x end
    | solve [auto with silent] ].

Lemma result_bind_Ret {A B} (c : result A) (k : A -> result B) (b : B) :
  bind c k = Ret b -> exists a, c = Ret a /\ k a = Ret b.
Proof. destruct c; cbn; intros H; try discriminate. eauto. Qed.

(** ** Schedule builder *)

Lemma selected_In (day : string) (l : list string) :
  OMEVVBaselineProfile.selected day l = true <-> In day l.
Proof.
  unfold OMEVVBaselineProfile.selected. rewrite existsb_exists. split.
  - intros [x [Hin Heq]]. apply String.eqb_eq in Heq. now subst.
  - intros Hin. exists day. split; [assumption | apply String.eqb_refl].
Qed.

Lemma selected_not_In (day : string) (l : list string) :
  OMEVVBaselineProfile.selected day l = false <-> ~ In day l.
Proof.
  rewrite <- selected_In. destruct (OMEVVBaselineProfile.selected day l); split;
    intros; congruence.
Qed.

(** C6, as the code has it: no schedule when [days] is absent or empty or
    when [time] is absent or the empty string; otherwise a schedule whose
    seven flags are all true when "all" is among the days, and else follow
    exact membership of the day name, with [time] kept as given. *)
Theorem create_job_schedule_all_or_nothing (days : option (list string))
    (time : option string) :
  (days = None \/ days = Some [] \/ time = None \/ time = Some "" ->
   OMEVVBaselineProfile.create_job_schedule days time = JNull) /\
  (forall l t,
      days = Some l -> l <> [] -> time = Some t -> t <> "" ->
      (In "all" l ->
       forall day, In day weekdays ->
         flag day (OMEVVBaselineProfile.create_job_schedule days time)
         = Some (JBool true)) /\
      (~ In "all" l ->
       forall day, In day weekdays ->
         exists b,
           flag day (OMEVVBaselineProfile.create_job_schedule days time)
           = Some (JBool b) /\ (b = true <-> In day l)) /\
      flag "time" (OMEVVBaselineProfile.create_job_schedule days time)
      = Some (JStr t)).
Proof.
  split.
  - intros H.
    destruct days as [[|d l]|], time as [[|c t]|]; try reflexivity;
      destruct H as [H | [H | [H | H]]]; discriminate.
  - intros l t -> Hl -> Ht.
    destruct l as [|d l]; [congruence|].
    destruct t as [|c t]; [congruence|].
    unfold OMEVVBaselineProfile.create_job_schedule.
    cbn [of_names of_option truthy map andb negb String.eqb].
    split; [|split].
    + intros Hall day Hday. apply selected_In in Hall. rewrite Hall.
      cbn in Hday.
      repeat (destruct Hday as [<- | Hday]; [reflexivity|]). contradiction.
    + intros Hall day Hday. apply selected_not_In in Hall. rewrite Hall.
      exists (OMEVVBaselineProfile.selected day (d :: l)).
      split; [| apply selected_In].
      cbn in Hday.
      repeat (destruct Hday as [<- | Hday]; [reflexivity|]). contradiction.
    + destruct (OMEVVBaselineProfile.selected "all" (d :: l)); reflexivity.
Qed.

(** The second property of the spec's list for the schedule builder, on its
    two inputs. *)
Lemma create_job_schedule_all_or_nothing_witness :
  flag "sunday" (OMEVVBaselineProfile.create_job_schedule (Some ["all"]) (Some "08:00"))
  = Some (JBool true) /\
  flag "time" (OMEVVBaselineProfile.create_job_schedule (Some ["monday"; "friday"])
                 (Some "20:00"))
  = Some (JStr "20:00") /\
  OMEVVBaselineProfile.create_job_schedule (Some []) (Some "20:00") = JNull.
Proof.
  split; [|split].
  - destruct (create_job_schedule_all_or_nothing (Some ["all"]) (Some "08:00"))
      as [_ H].
    destruct (H ["all"] "08:00" eq_refl ltac:(discriminate) eq_refl ltac:(discriminate))
      as [Hall _].
    apply Hall; simpl; auto 10.
  - destruct (create_job_schedule_all_or_nothing (Some ["monday"; "friday"])
                (Some "20:00")) as [_ H].
    destruct (H ["monday"; "friday"] "20:00" eq_refl ltac:(discriminate) eq_refl
                ltac:(discriminate)) as [_ [_ Htime]].
    exact Htime.
  - destruct (create_job_schedule_all_or_nothing (Some []) (Some "20:00")) as [H _].
    apply H. right. left. reflexivity.
Defined.

(** C6 as written fails when [time] is the empty string: "all" is among the
    days and a time was given, yet no schedule is built. *)
Lemma create_job_schedule_empty_time :
  In "all" ["all"] /\
  OMEVVBaselineProfile.create_job_schedule (Some ["all"]) (Some "") = JNull /\
  flag "monday" (OMEVVBaselineProfile.create_job_schedule (Some ["all"]) (Some ""))
  <> Some (JBool true).
Proof.
  split; [simpl; auto | split; [reflexivity | discriminate]].
Qed.

(** ** Identifier resolution *)

Lemma first_with_no_match (key : string) (value : json) (data : list json) :
  Forall (fun d => exists v, py_get d key = Ret v /\ py_eq v value = false) data ->
  first_with key value data = Ret (JDict []).
Proof.
  induction 1 as [| d data [v [Hget Hneq]] _ IH]; [reflexivity |].
  cbn. rewrite Hget. cbn. rewrite Hneq. exact IH.
Qed.

(** C8, as the code has it.  An exception raised by the REST client, at the
    listing of the clusters or at the translation to group ids, comes out of
    the resolver unchanged.  A response that is not flagged successful is
    read as an empty listing, and so is a successful empty listing: the
    resolver returns no ids, and no translation is requested for no ids. *)
Theorem resolution_failures (e : env) (tr : list event) (cluster_names vcenter_uuid : json) :
  let listing := Invoke "GET" (CLUSTER_URI vcenter_uuid) None in
  (forall err,
      omevv e tr "GET" (CLUSTER_URI vcenter_uuid) None = Raises err ->
      OMEVVBaselineProfile.get_cluster_id cluster_names vcenter_uuid e tr
      = (Raise err, (tr ++ [listing])%list) /\
      OMEVVBaselineProfile.get_group_ids_for_clusters vcenter_uuid cluster_names e tr
      = (Raise err, (tr ++ [listing])%list)) /\
  (forall clusters id ids err,
      omevv e tr "GET" (CLUSTER_URI vcenter_uuid) None
      = Returns (Response true clusters) ->
      OMEVVBaselineProfile.entity_ids clusters cluster_names = Ret (id :: ids) ->
      let translation :=
        Invoke "POST" (CLUSTER_IDS_URI vcenter_uuid)
          (Some (JDict [("clustIds", JList (id :: ids))])) in
      omevv e (tr ++ [listing])%list "POST" (CLUSTER_IDS_URI vcenter_uuid)
        (Some (JDict [("clustIds", JList (id :: ids))])) = Raises err ->
      OMEVVBaselineProfile.get_group_ids_for_clusters vcenter_uuid cluster_names e tr
      = (Raise err, ((tr ++ [listing]) ++ [translation])%list)) /\
  (forall ok data,
      omevv e tr "GET" (CLUSTER_URI vcenter_uuid) None = Returns (Response ok data) ->
      ok = false \/ data = JList [] ->
      OMEVVBaselineProfile.get_cluster_id cluster_names vcenter_uuid e tr
      = (Ret [], (tr ++ [listing])%list) /\
      OMEVVBaselineProfile.get_group_ids_for_clusters vcenter_uuid cluster_names e tr
      = (Ret [], (tr ++ [listing])%list)) /\
  (forall clusters id ids ok data,
      omevv e tr "GET" (CLUSTER_URI vcenter_uuid) None
      = Returns (Response true clusters) ->
      OMEVVBaselineProfile.entity_ids clusters cluster_names = Ret (id :: ids) ->
      omevv e (tr ++ [listing])%list "POST" (CLUSTER_IDS_URI vcenter_uuid)
        (Some (JDict [("clustIds", JList (id :: ids))])) = Returns (Response ok data) ->
      ok = false \/ data = JList [] ->
      fst (OMEVVBaselineProfile.get_group_ids_for_clusters vcenter_uuid cluster_names e tr)
      = Ret []).
Proof.
  intros listing. unfold OMEVVBaselineProfile.get_cluster_id,
    OMEVVBaselineProfile.get_group_ids_for_clusters.
  split; [| split; [| split]].
  - intros err H.
    split; rewrite bind_run; unfold invoke_request; rewrite H; reflexivity.
  - intros clusters id ids err H Hids Hpost.
    rewrite bind_run. unfold invoke_request at 1. rewrite H.
    cbn [success json_data]. rewrite bind_run. unfold lift at 1. rewrite Hids.
    rewrite bind_run. unfold invoke_request. fold listing. rewrite Hpost. reflexivity.
  - intros ok data H Hempty.
    split; rewrite bind_run; unfold invoke_request; rewrite H;
      (destruct Hempty as [-> | ->]; [reflexivity |]); destruct ok; reflexivity.
  - intros clusters id ids ok data H Hids Hpost Hempty.
    rewrite bind_run. unfold invoke_request at 1. rewrite H.
    cbn [success json_data]. rewrite bind_run. unfold lift at 1. rewrite Hids.
    rewrite bind_run. unfold invoke_request. fold listing. rewrite Hpost.
    destruct Hempty as [-> | ->]; [reflexivity |]. destruct ok; reflexivity.
Qed.

Lemma resolution_failures_witness :
  OMEVVBaselineProfile.get_group_ids_for_clusters (JStr "vc-1")
    (JList [JStr "cluster-1"]) (failing_env (URLError "timed out")) []
  = (Raise (URLError "timed out"), [Invoke "GET" "/Consoles/vc-1/Clusters" None]) /\
  OMEVVBaselineProfile.get_cluster_id (JList [JStr "cluster-1"]) (JStr "vc-1")
    unsuccessful_env []
  = (Ret [], [Invoke "GET" "/Consoles/vc-1/Clusters" None]).
Proof.
  split.
  - destruct (resolution_failures (failing_env (URLError "timed out")) []
                (JList [JStr "cluster-1"]) (JStr "vc-1")) as [H _].
    exact (proj2 (H (URLError "timed out") eq_refl)).
  - destruct (resolution_failures unsuccessful_env [] (JList [JStr "cluster-1"])
                (JStr "vc-1")) as [_ [_ [H _]]].
    exact (proj1 (H false (JDict [("message", JStr "Service unavailable.")]) eq_refl
                    (or_introl eq_refl))).
Defined.

(** C8 as written fails for a failure that the REST client signals through
    the [success] flag of its response: the resolver swallows it and returns
    an empty result. *)
Lemma unsuccessful_fetch_is_swallowed :
  omevv unsuccessful_env [] "GET" (CLUSTER_URI (JStr "vc-1")) None
  = Returns (Response false (JDict [("message", JStr "Service unavailable.")])) /\
  OMEVVBaselineProfile.get_cluster_id (JList [JStr "cluster-1"]) (JStr "vc-1")
    unsuccessful_env []
  = (Ret [], [Invoke "GET" "/Consoles/vc-1/Clusters" None]) /\
  OMEVVBaselineProfile.get_group_ids_for_clusters (JStr "vc-1")
    (JList [JStr "cluster-1"]) unsuccessful_env []
  = (Ret [], [Invoke "GET" "/Consoles/vc-1/Clusters" None]).
Proof. repeat split. Qed.

(** *** The repository profile *)

(** A name that matches no listed repository profile resolves to [None]. *)
Lemma get_repo_id_by_name_absent (e : env) (tr : list event) (repository_profile : string)
    (ok : bool) (profiles : list json) :
  repository_profile <> "" ->
  omevv e tr "GET" PROFILE_URI None = Returns (Response ok (JList profiles)) ->
  Forall (fun p => exists v,
              py_get p "profileName" = Ret v /\ py_eq v (JStr repository_profile) = false)
    profiles ->
  OMEVVBaselineProfile.get_repo_id_by_name (JStr repository_profile) e tr
  = (Ret JNull, (tr ++ [Invoke "GET" PROFILE_URI None])%list).
Proof.
  intros Hname Hreply Hnone.
  unfold OMEVVBaselineProfile.get_repo_id_by_name,
    OMEVVFirmwareProfile.get_firmware_repository_profile.
  rewrite !bind_run. unfold invoke_request. rewrite Hreply. cbn [success json_data].
  destruct ok; [| reflexivity].
  assert (Htruthy : truthy (JStr repository_profile) = true).
  { cbn. destruct (String.eqb_spec repository_profile ""); [contradiction | reflexivity]. }
  rewrite Htruthy. unfold OMEVVFirmwareProfile.search_profile_name, lift.
  cbn [py_iter bind result_Monad]. rewrite (first_with_no_match _ _ _ Hnone).
  reflexivity.
Qed.

(** A name that matches resolves to the [id] of the first listed profile of
    that name. *)
Lemma get_repo_id_by_name_found (e : env) (tr : list event) (repository_profile : string)
    (before after : list json) (profile : dict) (v : json) :
  repository_profile <> "" ->
  omevv e tr "GET" PROFILE_URI None
  = Returns (Response true (JList (before ++ JDict profile :: after))) ->
  Forall (fun p => exists v,
              py_get p "profileName" = Ret v /\ py_eq v (JStr repository_profile) = false)
    before ->
  dict_get "profileName" profile = Some v ->
  py_eq v (JStr repository_profile) = true ->
  OMEVVBaselineProfile.get_repo_id_by_name (JStr repository_profile) e tr
  = (Ret (match dict_get "id" profile with Some id => id | None => JNull end),
     (tr ++ [Invoke "GET" PROFILE_URI None])%list).
Proof.
  intros Hname Hreply Hbefore Hkey Hmatch.
  unfold OMEVVBaselineProfile.get_repo_id_by_name,
    OMEVVFirmwareProfile.get_firmware_repository_profile.
  rewrite !bind_run. unfold invoke_request. rewrite Hreply. cbn [success json_data].
  assert (Htruthy : truthy (JStr repository_profile) = true).
  { cbn. destruct (String.eqb_spec repository_profile ""); [contradiction | reflexivity]. }
  rewrite Htruthy. unfold OMEVVFirmwareProfile.search_profile_name, lift.
  cbn [py_iter bind result_Monad].
  assert (Hfirst : first_with "profileName" (JStr repository_profile)
                     (before ++ JDict profile :: after) = Ret (JDict profile)).
  { clear Hreply. induction Hbefore as [| p before [w [Hget Hneq]] _ IH].
    - cbn. rewrite Hkey. cbn. rewrite Hmatch. reflexivity.
    - cbn [app first_with]. rewrite Hget. cbn. rewrite Hneq. exact IH. }
  rewrite Hfirst. destruct profile as [| kv profile]; [discriminate |].
  change (truthy (JDict (kv :: profile))) with true. cbv iota.
  unfold lift, py_get, py_get_default.
  destruct (dict_get "id" (kv :: profile)); reflexivity.
Qed.

(** The empty name is not looked up: the whole listing comes back, and
    [.get("id")] on a list raises. *)
Example get_repo_id_by_name_empty_name :
  OMEVVBaselineProfile.get_repo_id_by_name (JStr "") (sample_env []) []
  = (Raise (AttributeError "'list' object has no attribute 'get'"),
     [Invoke "GET" "/RepositoryProfiles" None]).
Proof. reflexivity. Qed.

(** *** Group membership *)

Lemma hashable_Ret (x y : json) : hashable x = Ret y -> y = x /\ scalar x = true.
Proof. destruct x; cbn; intros H; inversion H; auto. Qed.

Lemma comprehension_Forall (P : json -> Prop) (elt : json -> result json)
    (cond : json -> result bool) (l ys : list json) :
  (forall x y, elt x = Ret y -> P y) ->
  comprehension elt cond l = Ret ys -> Forall P ys.
Proof.
  intros Helt. revert ys. induction l as [| x l IH]; cbn; intros ys H.
  - inversion H. constructor.
  - apply result_bind_Ret in H. destruct H as [b [_ H]]. destruct b; [| auto].
    apply result_bind_Ret in H. destruct H as [y [Hy H]].
    apply result_bind_Ret in H. destruct H as [ys' [Hys H]].
    inversion H. constructor; eauto.
Qed.

Lemma dedup_Forall (P : json -> Prop) (l : list json) :
  Forall P l -> Forall P (dedup l).
Proof.
  induction 1 as [| x l Hx _ IH]; cbn; constructor; auto.
  rewrite Forall_forall in *. intros y Hy. apply filter_In in Hy. apply IH, Hy.
Qed.

Lemma py_set_scalar (l s : list json) :
  py_set l = Ret s -> Forall (fun x => scalar x = true) s.
Proof.
  unfold py_set. intros H. apply result_bind_Ret in H. destruct H as [ys [Hys H]].
  inversion H. apply dedup_Forall.
  apply (comprehension_Forall _ _ _ _ _) with (2 := Hys).
  intros x y Hxy. apply hashable_Ret in Hxy. destruct Hxy as [-> Hx]. exact Hx.
Qed.

Lemma attached_group_ids_scalar (existing_profile : json) (ids : list json) :
  OMEVVBaselineProfile.attached_group_ids existing_profile = Ret ids ->
  Forall (fun x => scalar x = true) ids.
Proof.
  unfold OMEVVBaselineProfile.attached_group_ids. intros H.
  apply result_bind_Ret in H. destruct H as [groups [_ H]].
  apply result_bind_Ret in H. destruct H as [l [_ H]].
  apply result_bind_Ret in H. destruct H as [ys [Hys H]].
  inversion H. apply dedup_Forall.
  apply (comprehension_Forall _ _ _ _ _) with (2 := Hys).
  intros x y Hxy. apply result_bind_Ret in Hxy. destruct Hxy as [v [_ Hv]].
  apply hashable_Ret in Hv. destruct Hv as [-> Hv]. exact Hv.
Qed.

Lemma py_eq_scalar_refl (x : json) : scalar x = true -> py_eq x x = true.
Proof.
  destruct x; cbn; intros H; try discriminate; auto using Bool.eqb_reflx,
    Z.eqb_refl, String.eqb_refl.
Qed.

(** Equal values compare alike with every member of a set. *)
Lemma py_eq_scalar_compat (x y z : json) :
  scalar y = true -> scalar z = true ->
  py_eq x y = true -> py_eq x z = py_eq y z.
Proof.
  destruct x, y, z; cbn; intros Hy Hz Hxy; try discriminate; try reflexivity;
    repeat match goal with
           | b : bool |- _ => destruct b
           | H : Z.eqb _ _ = true |- _ => apply Z.eqb_eq in H; subst
           | H : String.eqb _ _ = true |- _ => apply String.eqb_eq in H; subst
           end;
    cbn in *; try discriminate; try reflexivity.
Qed.

Lemma mem_compat (x y : json) (l : list json) :
  scalar y = true -> Forall (fun z => scalar z = true) l ->
  py_eq x y = true -> mem x l = mem y l.
Proof.
  intros Hy Hl Hxy. unfold mem. induction Hl as [| z l Hz _ IH]; [reflexivity |].
  cbn [existsb]. rewrite IH. now rewrite (py_eq_scalar_compat x y z).
Qed.

Lemma mem_cons (x y : json) (l : list json) : mem x (y :: l) = py_eq x y || mem x l.
Proof. reflexivity. Qed.

Lemma set_difference_cons (y : json) (a b : list json) :
  set_difference (y :: a) b
  = if negb (mem y b) then y :: set_difference a b else set_difference a b.
Proof. reflexivity. Qed.

Lemma mem_set_difference (a b : list json) (x : json) :
  Forall (fun z => scalar z = true) a -> Forall (fun z => scalar z = true) b ->
  mem x (set_difference a b) = mem x a && negb (mem x b).
Proof.
  intros Ha Hb. induction Ha as [| y a Hy _ IH]; [reflexivity |].
  rewrite set_difference_cons, mem_cons.
  destruct (mem y b) eqn:Hyb; cbn [negb].
  - rewrite IH. destruct (py_eq x y) eqn:Hxy; cbn [orb]; [| reflexivity].
    rewrite (mem_compat x y b Hy Hb Hxy), Hyb. cbn. apply andb_false_r.
  - rewrite mem_cons, IH. destruct (py_eq x y) eqn:Hxy; cbn [orb]; [| reflexivity].
    rewrite (mem_compat x y b Hy Hb Hxy), Hyb. reflexivity.
Qed.

Lemma mem_In (a : list json) (y : json) :
  Forall (fun z => scalar z = true) a -> In y a -> mem y a = true.
Proof.
  intros Ha Hy. unfold mem. apply existsb_exists. exists y. split; [exact Hy |].
  apply py_eq_scalar_refl. rewrite Forall_forall in Ha. auto.
Qed.

Lemma set_difference_same (a b : list json) :
  Forall (fun z => scalar z = true) a ->
  (forall x, mem x a = mem x b) -> set_difference a b = [].
Proof.
  intros Ha Hab. unfold set_difference.
  assert (H : forall y, In y a -> negb (mem y b) = false).
  { intros y Hy. rewrite <- Hab, (mem_In a y Ha Hy). reflexivity. }
  clear Ha Hab. induction a as [| y a IH]; [reflexivity |].
  cbn. rewrite (H y (or_introl eq_refl)). apply IH. intros z Hz. apply H. now right.
Qed.

(** C7: with [E] the set of group ids attached to the existing profile and
    [D] the set of freshly resolved group ids, [get_add_remove_group_ids]
    returns [D - E] and [E - D]; for E = {1,2,3} and D = {2,3,4} these are
    {4} and {1}; when [E] and [D] have the same members both are empty. *)
Theorem get_add_remove_group_ids_differences (e : env) (tr tr' : list event)
    (existing_profile vcenter_uuid cluster_names : json) (E fetched D : list json) :
  OMEVVBaselineProfile.attached_group_ids existing_profile = Ret E ->
  OMEVVBaselineProfile.get_group_ids_for_clusters vcenter_uuid cluster_names e tr
  = (Ret fetched, tr') ->
  py_set fetched = Ret D ->
  exists toAdd toRemove,
    OMEVVBaselineProfile.get_add_remove_group_ids existing_profile vcenter_uuid
      cluster_names e tr = (Ret (toAdd, toRemove), tr') /\
    (forall x, mem x toAdd = mem x D && negb (mem x E)) /\
    (forall x, mem x toRemove = mem x E && negb (mem x D)) /\
    (E = [JNum 1; JNum 2; JNum 3] -> D = [JNum 2; JNum 3; JNum 4] ->
     toAdd = [JNum 4] /\ toRemove = [JNum 1]) /\
    ((forall x, mem x E = mem x D) -> toAdd = [] /\ toRemove = []).
Proof.
  intros HE Hfetch HD.
  pose proof (attached_group_ids_scalar _ _ HE) as HsE.
  pose proof (py_set_scalar _ _ HD) as HsD.
  exists (set_difference D E), (set_difference E D).
  split; [| split; [| split; [| split]]].
  - unfold OMEVVBaselineProfile.get_add_remove_group_ids.
    rewrite bind_run. unfold lift at 1. rewrite HE.
    rewrite bind_run, Hfetch. rewrite bind_run. unfold lift at 1. rewrite HD.
    reflexivity.
  - intros x. apply mem_set_difference; assumption.
  - intros x. apply mem_set_difference; assumption.
  - intros -> ->. split; reflexivity.
  - intros Hsame. split; apply set_difference_same; auto.
Qed.

Lemma get_add_remove_group_ids_differences_witness :
  OMEVVBaselineProfile.get_add_remove_group_ids profile_with_groups_123 (JStr "vc-1")
    (JList [JStr "cluster-1"]) env_with_groups_234 []
  = (Ret ([JNum 4], [JNum 1]),
     [Invoke "GET" "/Consoles/vc-1/Clusters" None;
      Invoke "POST" "/Consoles/vc-1/Groups/getGroupsForClusters"
        (Some (JDict [("clustIds", JList [JStr "domain-c1"])]))]).
Proof.
  destruct (get_add_remove_group_ids_differences env_with_groups_234 []
              [Invoke "GET" "/Consoles/vc-1/Clusters" None;
               Invoke "POST" "/Consoles/vc-1/Groups/getGroupsForClusters"
                 (Some (JDict [("clustIds", JList [JStr "domain-c1"])]))]
              profile_with_groups_123 (JStr "vc-1") (JList [JStr "cluster-1"])
              [JNum 1; JNum 2; JNum 3] [JNum 2; JNum 3; JNum 4]
              [JNum 2; JNum 3; JNum 4] eq_refl eq_refl eq_refl)
    as [toAdd [toRemove [Hrun [_ [_ [Hex _]]]]]].
  destruct (Hex eq_refl eq_refl) as [-> ->]. exact Hrun.
Defined.

(** ** Polling *)

Lemma poll_until_terminal_stops (fuel : nat) (fetch : M response) (r : response)
    (status : json) (e : env) (tr : list event) :
  status_of r = Ret status ->
  mem status [JStr "SUCCESSFUL"; JStr "FAILED"] = true ->
  poll_until_terminal fuel fetch r e tr = (Ret r, tr).
Proof.
  intros Hstatus Hfinal. unfold status_of in Hstatus.
  destruct fuel; cbn [poll_until_terminal]; rewrite bind_run; unfold lift at 1;
    rewrite Hstatus, Hfinal; reflexivity.
Qed.

Lemma poll_until_terminal_waits (fuel : nat) (fetch : M response) (r : response)
    (e : env) (tr : list event) :
  still_running r = true ->
  poll_until_terminal (S fuel) fetch r e tr
  = bind fetch (poll_until_terminal fuel fetch) e (tr ++ [Sleep 3])%list.
Proof.
  unfold still_running, status_of. intros Hrun.
  cbn [poll_until_terminal]. rewrite bind_run. unfold lift at 1.
  destruct (py_getitem (json_data r) "status") as [s | | |]; try discriminate.
  apply negb_true_iff in Hrun. rewrite Hrun. reflexivity.
Qed.

(** The loop ends at the first final status: it has fetched once per
    observation and slept 3 before every fetch but the first. *)
Lemma fetch_and_poll (e : env) (uri : string) (waiting : list response)
    (final : response) (status : json) :
  forall (fuel : nat) (tr : list event),
    (List.length waiting <= fuel)%nat ->
    forallb still_running waiting = true ->
    status_of final = Ret status ->
    mem status [JStr "SUCCESSFUL"; JStr "FAILED"] = true ->
    fetches e uri tr (waiting ++ [final]) ->
    bind (invoke_request "GET" uri None)
      (poll_until_terminal fuel (invoke_request "GET" uri None)) e tr
    = (Ret final, (tr ++ poll_events uri (List.length waiting))%list).
Proof.
  induction waiting as [| w waiting IH]; intros fuel tr Hfuel Hwaiting Hstatus Hfinal Hfetch.
  - destruct Hfetch as [Hfetch _]. rewrite bind_run. unfold invoke_request at 1.
    rewrite Hfetch. apply (poll_until_terminal_stops _ _ _ _ _ _ Hstatus Hfinal).
  - destruct Hfetch as [Hfetch Hrest]. cbn [forallb] in Hwaiting.
    apply andb_true_iff in Hwaiting. destruct Hwaiting as [Hw Hwaiting].
    destruct fuel as [| fuel]; [cbn in Hfuel; lia |].
    rewrite bind_run. unfold invoke_request at 1. rewrite Hfetch.
    rewrite (poll_until_terminal_waits _ _ _ _ _ Hw).
    rewrite (IH fuel _ ltac:(cbn in Hfuel; lia) Hwaiting Hstatus Hfinal Hrest).
    cbn [List.length poll_events]. rewrite <- !app_assoc. reflexivity.
Qed.

Lemma bind_assoc {A B C} (c : M A) (f : A -> M B) (g : B -> M C) e tr :
  bind (bind c f) g e tr = bind c (fun x => bind (f x) g) e tr.
Proof.
  rewrite !bind_run. destruct (c e tr) as [[a | x | kw |] tr']; reflexivity.
Qed.

Lemma status_successful_run (r : response) (status : json) e tr :
  status_of r = Ret status ->
  status_successful r e tr = (Ret (py_eq status (JStr "SUCCESSFUL")), tr).
Proof.
  unfold status_of, status_successful. intros H. rewrite bind_run. unfold lift.
  rewrite H. reflexivity.
Qed.

Lemma perform_modify_polls (e : env) (module : AnsibleModule) (fuel : nat)
    (waiting : list response) (final : response) (tr : list event)
    (existing_profile payload diff profile_id data : json) :
  let uri := profile_uri (of_option (vcenter_uuid (params module))) profile_id in
  let events := (Invoke "PATCH" uri (Some payload)
                 :: poll_events uri (List.length waiting)) in
  (List.length waiting <= fuel)%nat ->
  forallb still_running waiting = true ->
  py_get existing_profile "id" = Ret profile_id ->
  omevv e tr "PATCH" uri (Some payload) = Returns (Response true data) ->
  fetches e uri (tr ++ [Invoke "PATCH" uri (Some payload)])%list (waiting ++ [final]) ->
  (status_of final = Ret (JStr "SUCCESSFUL") ->
   ModifyBaselineProfile.perform_modify_baseline_profile fuel module existing_profile
     payload diff e tr
   = (Exit (success_exit SUCCESS_MODIFY_MSG (_diff module) (json_data final) diff),
      (tr ++ events)%list)) /\
  (status_of final = Ret (JStr "FAILED") ->
   ModifyBaselineProfile.perform_modify_baseline_profile fuel module existing_profile
     payload diff e tr
   = (Exit (failure_exit FAILED_MODIFY_MSG (json_data final)), (tr ++ events)%list)).
Proof.
  intros uri events Hfuel Hwaiting Hid Hpatch Hfetch.
  assert (Hrun : forall status,
             status_of final = Ret status ->
             mem status [JStr "SUCCESSFUL"; JStr "FAILED"] = true ->
             ModifyBaselineProfile.perform_modify_baseline_profile fuel module
               existing_profile payload diff e tr
             = (Exit (if py_eq status (JStr "SUCCESSFUL")
                      then success_exit SUCCESS_MODIFY_MSG (_diff module)
                             (json_data final) diff
                      else failure_exit FAILED_MODIFY_MSG (json_data final)),
                (tr ++ events)%list)).
  { intros status Hstatus Hfinal.
    unfold ModifyBaselineProfile.perform_modify_baseline_profile.
    rewrite bind_run. unfold lift at 1. rewrite Hid.
    rewrite bind_run. unfold OMEVVBaselineProfile.modify_baseline_profile.
    rewrite bind_run. unfold invoke_request at 1. fold (profile_uri (of_option (vcenter_uuid (params module))) profile_id). fold uri.
    rewrite Hpatch. cbn [ret M_Monad success].
    unfold OMEVVBaselineProfile.get_baseline_profile_by_id.
    fold (profile_uri (of_option (vcenter_uuid (params module))) profile_id). fold uri.
    rewrite <- bind_assoc. rewrite bind_run.
    rewrite (fetch_and_poll e uri waiting final status fuel _ Hfuel Hwaiting Hstatus
               Hfinal Hfetch).
    rewrite <- app_assoc. cbn [app]. fold events.
    destruct (_diff module); rewrite ?bind_run, ?(status_successful_run _ _ _ _ Hstatus);
      cbn [ret M_Monad]; destruct (py_eq status (JStr "SUCCESSFUL")) eqn:Heq;
      try reflexivity;
      rewrite ?bind_run, ?(status_successful_run _ _ _ _ Hstatus), ?Heq; reflexivity. }
  split; intros Hstatus; rewrite (Hrun _ Hstatus eq_refl); reflexivity.
Qed.

Lemma perform_create_polls (e : env) (module : AnsibleModule) (fuel : nat)
    (waiting : list response) (final : response) (tr tr' : list event)
    (payload : dict) (created diff : json) :
  let vcenter := of_option (vcenter_uuid (params module)) in
  let uri := profile_uri vcenter created in
  let events := (Invoke "POST" (BASELINE_PROFILE_URI vcenter) (Some (JDict payload))
                 :: poll_events uri (List.length waiting)) in
  (List.length waiting <= fuel)%nat ->
  forallb still_running waiting = true ->
  omevv e tr "POST" (BASELINE_PROFILE_URI vcenter) (Some (JDict payload))
  = Returns (Response true created) ->
  fetches e uri
    (tr ++ [Invoke "POST" (BASELINE_PROFILE_URI vcenter) (Some (JDict payload))])%list
    (waiting ++ [final]) ->
  CreateBaselineProfile.diff_mode_check module (JDict payload) e (tr ++ events)%list
  = (Ret diff, tr') ->
  (status_of final = Ret (JStr "SUCCESSFUL") ->
   CreateBaselineProfile.perform_create_baseline_profile fuel module (JDict payload) e tr
   = (Exit (success_exit SUCCESS_CREATION_MSG (_diff module) (json_data final) diff),
      tr')) /\
  (status_of final = Ret (JStr "FAILED") ->
   CreateBaselineProfile.perform_create_baseline_profile fuel module (JDict payload) e tr
   = (Exit (failure_exit FAILED_CREATION_MSG (json_data final)), tr')).
Proof.
  intros vcenter uri events Hfuel Hwaiting Hpost Hfetch Hdiff.
  assert (Hrun : forall status,
             status_of final = Ret status ->
             mem status [JStr "SUCCESSFUL"; JStr "FAILED"] = true ->
             CreateBaselineProfile.perform_create_baseline_profile fuel module
               (JDict payload) e tr
             = (Exit (if py_eq status (JStr "SUCCESSFUL")
                      then success_exit SUCCESS_CREATION_MSG (_diff module)
                             (json_data final) diff
                      else failure_exit FAILED_CREATION_MSG (json_data final)),
                tr')).
  { intros status Hstatus Hfinal.
    unfold CreateBaselineProfile.perform_create_baseline_profile.
    unfold py_get, py_get_default.
    rewrite bind_run. unfold lift at 1. destruct (dict_get "name" payload);
      (rewrite bind_run; unfold lift at 1; destruct (dict_get "firmwareRepoId" payload));
      (rewrite bind_run; unfold lift at 1; destruct (dict_get "groupIds" payload));
      (rewrite bind_run; unfold OMEVVBaselineProfile.create_baseline_profile;
       rewrite bind_run; unfold invoke_request at 1; fold vcenter;
       rewrite Hpost; cbn [ret M_Monad success json_data];
       unfold OMEVVBaselineProfile.get_baseline_profile_by_id;
       fold (profile_uri vcenter created); fold uri;
       rewrite <- bind_assoc; rewrite bind_run;
       rewrite (fetch_and_poll e uri waiting final status fuel _ Hfuel Hwaiting Hstatus
                  Hfinal Hfetch);
       rewrite <- app_assoc; cbn [app]; fold events;
       rewrite bind_run, Hdiff;
       destruct (_diff module);
       rewrite ?bind_run, ?(status_successful_run _ _ _ _ Hstatus);
       cbn [ret M_Monad]; destruct (py_eq status (JStr "SUCCESSFUL")) eqn:Heq;
       try reflexivity;
       rewrite ?bind_run, ?(status_successful_run _ _ _ _ Hstatus), ?Heq; reflexivity). }
  split; intros Hstatus; rewrite (Hrun _ Hstatus eq_refl); reflexivity.
Qed.

(** On create the diff is computed after the wait and before the status is
    looked at: when it raises, so does the method. *)
Lemma perform_create_diff_raises (e : env) (module : AnsibleModule) (fuel : nat)
    (waiting : list response) (final : response) (tr tr' : list event)
    (payload : dict) (created status : json) (err : exn) :
  let vcenter := of_option (vcenter_uuid (params module)) in
  let uri := profile_uri vcenter created in
  let events := (Invoke "POST" (BASELINE_PROFILE_URI vcenter) (Some (JDict payload))
                 :: poll_events uri (List.length waiting)) in
  (List.length waiting <= fuel)%nat ->
  forallb still_running waiting = true ->
  omevv e tr "POST" (BASELINE_PROFILE_URI vcenter) (Some (JDict payload))
  = Returns (Response true created) ->
  fetches e uri
    (tr ++ [Invoke "POST" (BASELINE_PROFILE_URI vcenter) (Some (JDict payload))])%list
    (waiting ++ [final]) ->
  status_of final = Ret status ->
  mem status [JStr "SUCCESSFUL"; JStr "FAILED"] = true ->
  CreateBaselineProfile.diff_mode_check module (JDict payload) e (tr ++ events)%list
  = (Raise err, tr') ->
  CreateBaselineProfile.perform_create_baseline_profile fuel module (JDict payload) e tr
  = (Raise err, tr').
Proof.
  intros vcenter uri events Hfuel Hwaiting Hpost Hfetch Hstatus Hfinal Hdiff.
  unfold CreateBaselineProfile.perform_create_baseline_profile.
  unfold py_get, py_get_default.
  rewrite bind_run. unfold lift at 1. destruct (dict_get "name" payload);
    (rewrite bind_run; unfold lift at 1; destruct (dict_get "firmwareRepoId" payload));
    (rewrite bind_run; unfold lift at 1; destruct (dict_get "groupIds" payload));
    (rewrite bind_run; unfold OMEVVBaselineProfile.create_baseline_profile;
     rewrite bind_run; unfold invoke_request at 1; fold vcenter;
     rewrite Hpost; cbn [ret M_Monad success json_data];
     unfold OMEVVBaselineProfile.get_baseline_profile_by_id;
     fold (profile_uri vcenter created); fold uri;
     rewrite <- bind_assoc; rewrite bind_run;
     rewrite (fetch_and_poll e uri waiting final status fuel _ Hfuel Hwaiting Hstatus
                Hfinal Hfetch);
     rewrite <- app_assoc; cbn [app]; fold events;
     rewrite bind_run, Hdiff; reflexivity).
Qed.

(** C5, as the code has it: after a submission that the backend accepts,
    both [perform_...] methods fetch the profile, sleep 3 and fetch again
    while the status is neither SUCCESSFUL nor FAILED, and stop fetching at
    the first final status.  The modify path then leaves: with changed=true
    and the success message on SUCCESSFUL, with failed=true and the failure
    message on FAILED, the last snapshot attached either way.  The create path
    first computes its diff, with diff mode on or off: when that computation
    returns it leaves in the same two ways, and when it raises, on either
    final status, the method raises the same error and leaves with no
    outcome. *)
Theorem polling_reaches_final_status (e : env) (module : AnsibleModule) (fuel : nat)
    (waiting : list response) (final : response) (tr : list event) :
  let vcenter := of_option (vcenter_uuid (params module)) in
  (List.length waiting <= fuel)%nat ->
  forallb still_running waiting = true ->
  (forall (payload : dict) (created diff : json) (tr' : list event),
      let uri := profile_uri vcenter created in
      let submit := Invoke "POST" (BASELINE_PROFILE_URI vcenter) (Some (JDict payload)) in
      omevv e tr "POST" (BASELINE_PROFILE_URI vcenter) (Some (JDict payload))
      = Returns (Response true created) ->
      fetches e uri (tr ++ [submit])%list (waiting ++ [final]) ->
      CreateBaselineProfile.diff_mode_check module (JDict payload) e
        (tr ++ submit :: poll_events uri (List.length waiting))%list
      = (Ret diff, tr') ->
      (status_of final = Ret (JStr "SUCCESSFUL") ->
       CreateBaselineProfile.perform_create_baseline_profile fuel module (JDict payload)
         e tr
       = (Exit (success_exit SUCCESS_CREATION_MSG (_diff module) (json_data final) diff),
          tr')) /\
      (status_of final = Ret (JStr "FAILED") ->
       CreateBaselineProfile.perform_create_baseline_profile fuel module (JDict payload)
         e tr
       = (Exit (failure_exit FAILED_CREATION_MSG (json_data final)), tr'))) /\
  (forall (existing_profile payload diff profile_id data : json),
      let uri := profile_uri vcenter profile_id in
      let submit := Invoke "PATCH" uri (Some payload) in
      py_get existing_profile "id" = Ret profile_id ->
      omevv e tr "PATCH" uri (Some payload) = Returns (Response true data) ->
      fetches e uri (tr ++ [submit])%list (waiting ++ [final]) ->
      (status_of final = Ret (JStr "SUCCESSFUL") ->
       ModifyBaselineProfile.perform_modify_baseline_profile fuel module
         existing_profile payload diff e tr
       = (Exit (success_exit SUCCESS_MODIFY_MSG (_diff module) (json_data final) diff),
          (tr ++ submit :: poll_events uri (List.length waiting))%list)) /\
      (status_of final = Ret (JStr "FAILED") ->
       ModifyBaselineProfile.perform_modify_baseline_profile fuel module
         existing_profile payload diff e tr
       = (Exit (failure_exit FAILED_MODIFY_MSG (json_data final)),
          (tr ++ submit :: poll_events uri (List.length waiting))%list))) /\
  (forall (payload : dict) (created : json) (err : exn) (tr' : list event),
      let uri := profile_uri vcenter created in
      let submit := Invoke "POST" (BASELINE_PROFILE_URI vcenter) (Some (JDict payload)) in
      omevv e tr "POST" (BASELINE_PROFILE_URI vcenter) (Some (JDict payload))
      = Returns (Response true created) ->
      fetches e uri (tr ++ [submit])%list (waiting ++ [final]) ->
      status_of final = Ret (JStr "SUCCESSFUL") \/ status_of final = Ret (JStr "FAILED") ->
      CreateBaselineProfile.diff_mode_check module (JDict payload) e
        (tr ++ submit :: poll_events uri (List.length waiting))%list
      = (Raise err, tr') ->
      CreateBaselineProfile.perform_create_baseline_profile fuel module (JDict payload)
        e tr
      = (Raise err, tr')).
Proof.
  intros vcenter Hfuel Hwaiting. split; [| split].
  - intros payload created diff tr' uri submit Hpost Hfetch Hdiff.
    exact (perform_create_polls e module fuel waiting final tr tr' payload created diff
             Hfuel Hwaiting Hpost Hfetch Hdiff).
  - intros existing_profile payload diff profile_id data uri submit Hid Hpatch Hfetch.
    exact (perform_modify_polls e module fuel waiting final tr existing_profile payload
             diff profile_id data Hfuel Hwaiting Hid Hpatch Hfetch).
  - intros payload created err tr' uri submit Hpost Hfetch Hstatus Hdiff.
    destruct Hstatus as [Hstatus | Hstatus];
      exact (perform_create_diff_raises e module fuel waiting final tr tr' payload
               created _ err Hfuel Hwaiting Hpost Hfetch Hstatus eq_refl Hdiff).
Qed.

(** The two status sequences of the spec: PENDING, PENDING, SUCCESSFUL on a
    create, and PENDING, FAILED on a modify. *)
Lemma polling_reaches_final_status_witness :
  CreateBaselineProfile.perform_create_baseline_profile 5
    (sample_module present false false) (JDict sample_create_payload)
    (polling_env ["PENDING"; "PENDING"; "SUCCESSFUL"]) []
  = (Exit [("msg", JStr SUCCESS_CREATION_MSG);
           ("baseline_profile_info", json_data (snapshot "SUCCESSFUL"));
           ("changed", JBool true)],
     [Invoke "POST" "/Consoles/vc-1/BaselineProfiles" (Some (JDict sample_create_payload));
      Invoke "GET" "/Consoles/vc-1/BaselineProfiles/1001" None;
      Sleep 3;
      Invoke "GET" "/Consoles/vc-1/BaselineProfiles/1001" None;
      Sleep 3;
      Invoke "GET" "/Consoles/vc-1/BaselineProfiles/1001" None;
      Invoke "GET" "/Consoles/vc-1/Clusters" None;
      Invoke "GET" "/Consoles/vc-1/Clusters" None;
      Invoke "POST" "/Consoles/vc-1/Groups/getGroupsForClusters"
        (Some (JDict [("clustIds", JList [JStr "domain-c1"])]))]) /\
  ModifyBaselineProfile.perform_modify_baseline_profile 5
    (sample_module present false true) sample_profile sample_modify_payload
    (JDict [("before", JDict []); ("after", JDict [])])
    (polling_env ["PENDING"; "FAILED"]) []
  = (Exit [("msg", JStr FAILED_MODIFY_MSG);
           ("baseline_profile_info", json_data (snapshot "FAILED"));
           ("failed", JBool true)],
     [Invoke "PATCH" "/Consoles/vc-1/BaselineProfiles/1001" (Some sample_modify_payload);
      Invoke "GET" "/Consoles/vc-1/BaselineProfiles/1001" None;
      Sleep 3;
      Invoke "GET" "/Consoles/vc-1/BaselineProfiles/1001" None]).
Proof.
  split.
  - destruct (polling_reaches_final_status
                (polling_env ["PENDING"; "PENDING"; "SUCCESSFUL"])
                (sample_module present false false) 5
                [snapshot "PENDING"; snapshot "PENDING"] (snapshot "SUCCESSFUL") []
                ltac:(cbn; lia) eq_refl) as [Hcreate _].
    edestruct (Hcreate sample_create_payload (JNum 1001)) as [Hsuccess _];
      [reflexivity | cbn; repeat split | vm_compute; reflexivity
      | exact (Hsuccess eq_refl)].
  - destruct (polling_reaches_final_status (polling_env ["PENDING"; "FAILED"])
                (sample_module present false true) 5
                [snapshot "PENDING"] (snapshot "FAILED") []
                ltac:(cbn; lia) eq_refl) as [_ [Hmodify _]].
    refine (proj2 (Hmodify sample_profile sample_modify_payload
                     (JDict [("before", JDict []); ("after", JDict [])])
                     (JNum 1001) JNull eq_refl eq_refl _) eq_refl).
    cbn. repeat split.
Defined.

(** C5 as written fails on the create path.  The backend accepts the
    submission and reports PENDING and then FAILED, the second sequence of
    the claim, but its listing of clusters cannot be reached: the method
    stops fetching at FAILED and then raises the error of the listing.  It
    leaves with no exit: neither failed=true nor the failed snapshot is
    reported. *)
Lemma create_poll_ends_without_exit :
  omevv unlisted_failed_env [] "POST" "/Consoles/vc-1/BaselineProfiles"
    (Some (JDict sample_create_payload))
  = Returns (Response true (JNum 1001)) /\
  CreateBaselineProfile.perform_create_baseline_profile 5
    (sample_module present false false) (JDict sample_create_payload)
    unlisted_failed_env []
  = (Raise (URLError "timed out"),
     [Invoke "POST" "/Consoles/vc-1/BaselineProfiles" (Some (JDict sample_create_payload));
      Invoke "GET" "/Consoles/vc-1/BaselineProfiles/1001" None;
      Sleep 3;
      Invoke "GET" "/Consoles/vc-1/BaselineProfiles/1001" None;
      Invoke "GET" "/Consoles/vc-1/Clusters" None]) /\
  kwarg "failed"
    (fst (CreateBaselineProfile.perform_create_baseline_profile 5
            (sample_module present false false) (JDict sample_create_payload)
            unlisted_failed_env []))
  = None.
Proof. repeat split. Qed.

(** ** The run as a whole *)

(** The missing argument stops [validate_common_params]: it sends nothing
    and it never returns. *)
Lemma validate_common_params_stops (module : AnsibleModule) :
  silent (BaselineProfile.validate_common_params module) /\
  never_returns (BaselineProfile.validate_common_params module).
Proof.
  unfold BaselineProfile.validate_common_params. split.
  - apply silent_bind; [auto with silent | intros resp].
    apply silent_bind; [silence | intros _].
    apply silent_bind; [auto with silent | intros _].
    intros e tr. reflexivity.
  - intros e tr a. unfold call_validate_job_wait, call_validate_time. cbn.
    destruct (validate_job_wait e module) as [resp | x | kw |]; cbn;
      try discriminate.
    destruct (truthy resp); cbn; try discriminate.
    destruct (validate_time e _ module) as [[] | x | kw |]; cbn; discriminate.
Qed.

Lemma get_baseline_profile_by_name_sends (profile_name vcenter_uuid : json) :
  sends (OMEVVBaselineProfile.get_baseline_profile_by_name profile_name vcenter_uuid)
    [Invoke "GET" (BASELINE_PROFILE_URI vcenter_uuid) None].
Proof.
  unfold OMEVVBaselineProfile.get_baseline_profile_by_name,
    OMEVVBaselineProfile.get_baseline_profiles.
  apply sends_bind_silent; [| intros; auto with silent].
  apply sends_bind_silent; [apply sends_invoke_request |].
  intros r. silence.
Qed.

Lemma main_try_sends (module : AnsibleModule) :
  sends (main_try module)
    [Invoke "GET" (BASELINE_PROFILE_URI (of_option (vcenter_uuid (params module)))) None].
Proof.
  unfold main_try. destruct (state (params module)).
  - apply sends_bind_silent; [apply get_baseline_profile_by_name_sends |].
    intros existing. apply silent_if.
    + apply silent_bind_stop; apply validate_common_params_stops.
    + apply silent_bind_stop; apply validate_common_params_stops.
  - unfold DeleteBaselineProfile.execute.
    apply sends_bind_silent; [apply get_baseline_profile_by_name_sends |].
    intros found. silence.
Qed.

Lemma except_HTTPError_silent module err_code body :
  silent (except_HTTPError module err_code body).
Proof. unfold except_HTTPError. silence. Qed.

(** Whatever the collaborators do, a run hands exactly one request to the
    REST client: the listing of the baseline profiles. *)
Lemma run_sends (e : env) (module : AnsibleModule) :
  snd (run e module) =
  [Invoke "GET" (BASELINE_PROFILE_URI (of_option (vcenter_uuid (params module)))) None].
Proof.
  unfold run, main. pose proof (main_try_sends module e []) as H.
  destruct (main_try module e []) as [[[] | x | kw |] tr]; simpl in H; subst;
    try reflexivity.
  destruct x; try reflexivity.
  apply except_HTTPError_silent.
Qed.






(** ** Deleting a profile that is not there *)

(** The lookup by name, when the listing holds no profile of that name. *)
Lemma get_baseline_profile_by_name_absent (e : env) (tr : list event)
    (profile_name vcenter_uuid : json) (ok : bool) (profiles : list json) :
  omevv e tr "GET" (BASELINE_PROFILE_URI vcenter_uuid) None
  = Returns (Response ok (JList profiles)) ->
  (ok = true ->
   Forall (fun p => exists v, py_get p "name" = Ret v /\ py_eq v profile_name = false)
     profiles) ->
  OMEVVBaselineProfile.get_baseline_profile_by_name profile_name vcenter_uuid e tr
  = (Ret (JDict []),
     (tr ++ [Invoke "GET" (BASELINE_PROFILE_URI vcenter_uuid) None])%list).
Proof.
  intros Hreply Hnone.
  unfold OMEVVBaselineProfile.get_baseline_profile_by_name,
    OMEVVBaselineProfile.get_baseline_profiles.
  rewrite !bind_run. unfold invoke_request. rewrite Hreply.
  cbn [success json_data]. destruct ok; cbn.
  - rewrite (first_with_no_match _ _ _ (Hnone eq_refl)). reflexivity.
  - reflexivity.
Qed.

(** C4: with state=absent and no profile of the given name in the listing,
    the run leaves with changed=false and the no-changes message, whatever
    the check-mode and diff flags, and the listing is the only request. *)
Theorem delete_absent_is_no_change (e : env) (module : AnsibleModule) (ok : bool)
    (profiles : list json) :
  state (params module) = absent ->
  omevv e [] "GET" (BASELINE_PROFILE_URI (of_option (vcenter_uuid (params module)))) None
  = Returns (Response ok (JList profiles)) ->
  (ok = true ->
   Forall (fun p => exists v,
               py_get p "name" = Ret v /\ py_eq v (JStr (name (params module))) = false)
     profiles) ->
  kwarg "changed" (fst (run e module)) = Some (JBool false) /\
  kwarg "msg" (fst (run e module)) = Some (JStr CHANGES_NOT_FOUND_MSG) /\
  kwarg "failed" (fst (run e module)) = None /\
  snd (run e module)
  = [Invoke "GET" (BASELINE_PROFILE_URI (of_option (vcenter_uuid (params module)))) None] /\
  Forall (fun ev => mutating ev = false) (snd (run e module)).
Proof.
  intros Hstate Hreply Hnone.
  assert (Hrun : fst (run e module)
                 = Exit (if negb (check_mode module) && _diff module
                         then [("msg", JStr CHANGES_NOT_FOUND_MSG);
                               ("diff", JDict [("before", JDict []); ("after", JDict [])]);
                               ("changed", JBool false)]
                         else [("msg", JStr CHANGES_NOT_FOUND_MSG);
                               ("changed", JBool false)])).
  { unfold run, main, main_try, DeleteBaselineProfile.execute.
    rewrite Hstate, bind_run.
    rewrite (get_baseline_profile_by_name_absent _ _ _ _ _ _ Hreply Hnone).
    destruct (check_mode module), (_diff module); reflexivity. }
  rewrite Hrun, run_sends.
  repeat split; try (destruct (negb (check_mode module) && _diff module); reflexivity).
  repeat constructor.
Qed.

Lemma delete_absent_is_no_change_witness :
  kwarg "changed" (fst (run (sample_env []) (sample_module absent true false)))
  = Some (JBool false) /\
  kwarg "changed" (fst (run (sample_env [sample_profile]) sample_module_other_name))
  = Some (JBool false).
Proof.
  split.
  - apply (delete_absent_is_no_change (sample_env []) (sample_module absent true false)
             true []); [reflexivity | reflexivity | constructor].
  - refine (proj1 (delete_absent_is_no_change (sample_env [sample_profile])
                     sample_module_other_name true [sample_profile] eq_refl eq_refl _)).
    intros _. constructor; [| constructor].
    exists (JStr "profile-1"). split; reflexivity.
Defined.

(** ** The [except] clauses of [main] *)

(** C10, as the code has it.  The clause for HTTP errors parses the body of
    the error itself.  When the body is JSON: an error of status 500 leaves
    with failed=true and the parsed body as the message; any other error
    whose body carries a string error code leaves with the no-changes message
    when the code contains "18001" and the run is in check mode, else with
    skipped=true and the backend's message when the code contains "500", else
    with failed=true, the backend's message and the parsed body attached.
    When the body is not JSON, whatever the status, [json.load] raises inside
    the clause and the run ends with that [ValueError], without an exit.  A
    URL error leaves with unreachable=true and without the failed flag. *)
Theorem transport_error_outcomes (e : env) (module : AnsibleModule) :
  (forall status body tr,
      main_try module e [] = (Raise (HTTPError status (JSONText body)), tr) ->
      (status = 500%Z ->
       fst (run e module) = Exit [("msg", body); ("failed", JBool true)]) /\
      (status <> 500%Z ->
       forall code message,
         py_get body "errorCode" = Ret (JStr code) ->
         py_get body "message" = Ret message ->
         fst (run e module)
         = Exit (if is_substring "18001" code && check_mode module
                 then [("msg", JStr CHANGES_NOT_FOUND_MSG)]
                 else if is_substring "500" code
                      then [("msg", message); ("skipped", JBool true)]
                      else [("msg", message); ("error_info", body);
                            ("failed", JBool true)]))) /\
  (forall status message tr,
      main_try module e [] = (Raise (HTTPError status (NotJSON message)), tr) ->
      run e module = (Raise (ValueError message), tr)) /\
  (forall reason tr,
      main_try module e [] = (Raise (URLError reason), tr) ->
      fst (run e module)
      = Exit [("msg", JStr ("<urlopen error " ++ reason ++ ">"));
              ("unreachable", JBool true)] /\
      kwarg "failed" (fst (run e module)) = None).
Proof.
  split; [| split].
  - intros status body tr Htry. unfold run, main. rewrite Htry.
    unfold except_HTTPError. split.
    + intros ->. reflexivity.
    + intros Hstatus code message Hcode Hmessage.
      apply Z.eqb_neq in Hstatus.
      rewrite bind_run. rewrite Hstatus. cbn [when ret M_Monad].
      rewrite bind_run. unfold lift at 1. cbn [json_load].
      rewrite bind_run. unfold lift at 1. rewrite Hcode.
      rewrite bind_run. unfold lift at 1. rewrite Hmessage.
      cbn.
      destruct (is_substring "18001" code && check_mode module); [reflexivity |].
      cbn. destruct (is_substring "500" code); reflexivity.
  - intros status message tr Htry. unfold run, main. rewrite Htry.
    unfold except_HTTPError. rewrite bind_run.
    destruct (Z.eqb status 500); reflexivity.
  - intros reason tr Htry. unfold run, main. rewrite Htry. split; reflexivity.
Qed.

Lemma transport_error_outcomes_witness :
  fst (run (failing_env (HTTPError 400 (JSONText sample_conflict)))
         (sample_module present true false))
  = Exit [("msg", JStr CHANGES_NOT_FOUND_MSG)] /\
  fst (run (failing_env (HTTPError 500 (JSONText sample_conflict)))
         (sample_module present true false))
  = Exit [("msg", sample_conflict); ("failed", JBool true)] /\
  run (failing_env (HTTPError 502 sample_error_page)) (sample_module present true false)
  = (Raise (ValueError "Expecting value: line 1 column 1 (char 0)"),
     [Invoke "GET" "/Consoles/vc-1/BaselineProfiles" None]) /\
  kwarg "failed"
    (fst (run (failing_env (URLError "timed out")) (sample_module absent false false)))
  = None.
Proof.
  split; [| split; [| split]].
  - destruct (transport_error_outcomes
                (failing_env (HTTPError 400 (JSONText sample_conflict)))
                (sample_module present true false)) as [H _].
    destruct (H 400%Z sample_conflict
                [Invoke "GET" "/Consoles/vc-1/BaselineProfiles" None] eq_refl)
      as [_ H400].
    exact (H400 ltac:(discriminate) "18001"
             (JStr "Baseline profile with name Test already exists.")
             eq_refl eq_refl).
  - destruct (transport_error_outcomes
                (failing_env (HTTPError 500 (JSONText sample_conflict)))
                (sample_module present true false)) as [H _].
    destruct (H 500%Z sample_conflict
                [Invoke "GET" "/Consoles/vc-1/BaselineProfiles" None] eq_refl)
      as [H500 _].
    exact (H500 eq_refl).
  - destruct (transport_error_outcomes (failing_env (HTTPError 502 sample_error_page))
                (sample_module present true false)) as [_ [H _]].
    exact (H 502%Z "Expecting value: line 1 column 1 (char 0)"
             [Invoke "GET" "/Consoles/vc-1/BaselineProfiles" None] eq_refl).
  - destruct (transport_error_outcomes (failing_env (URLError "timed out"))
                (sample_module absent false false)) as [_ [_ H]].
    exact (proj2 (H "timed out" [Invoke "GET" "/Consoles/vc-1/BaselineProfiles" None]
                    eq_refl)).
Defined.

(** C10 as written fails three times.  Under check mode, the "already
    exists" code on an HTTP status of 500 leaves with failed=true, not with
    the no-changes outcome; an HTTP error whose code contains "500" leaves
    with skipped=true and without the failed flag or the error body; and an
    HTTP error whose body is not JSON leaves with no exit at all: the run
    ends with the [ValueError] of [json.load]. *)
Lemma http_error_not_as_claimed :
  check_mode (sample_module present true false) = true /\
  py_get sample_conflict "errorCode" = Ret (JStr "18001") /\
  fst (run (failing_env (HTTPError 500 (JSONText sample_conflict)))
         (sample_module present true false))
  = Exit [("msg", sample_conflict); ("failed", JBool true)] /\
  fst (run (failing_env (HTTPError 400 (JSONText sample_internal)))
         (sample_module present false false))
  = Exit [("msg", JStr "Internal error."); ("skipped", JBool true)] /\
  kwarg "failed"
    (fst (run (failing_env (HTTPError 400 (JSONText sample_internal)))
            (sample_module present false false)))
  = None /\
  fst (run (failing_env (HTTPError 502 sample_error_page))
         (sample_module present false false))
  = Raise (ValueError "Expecting value: line 1 column 1 (char 0)").
Proof. repeat split. Qed.

(** ** Where the run stops short of what the module sets out to do *)

(** C2 at its failing input.  No run mutates, in check mode or out of it.
    But the diff of a dry run has no counterpart in the real run.  For a
    delete of [sample_profile] the dry run reports [sample_delete_diff];
    the real run with the same inputs raises [AttributeError] at
    [self.delete_baseline_profile] and computes no diff, although
    [perform_delete_baseline_profile], which nothing calls, would compute
    that same diff.  For a create or a modify the dry run itself stops at the
    [TypeError] of [validate_common_params] and reports no diff. *)
Theorem dry_run_diff_without_real_run :
  (forall e module, Forall (fun ev => mutating ev = false) (snd (run e module))) /\
  run (sample_env [sample_profile]) (sample_module absent true true)
  = (Exit [("msg", JStr CHANGES_FOUND_MSG); ("diff", sample_delete_diff);
           ("changed", JBool true)],
     [Invoke "GET" "/Consoles/vc-1/BaselineProfiles" None]) /\
  run (sample_env [sample_profile]) (sample_module absent false true)
  = (Exit [("msg", JStr no_delete_method_message); ("failed", JBool true)],
     [Invoke "GET" "/Consoles/vc-1/BaselineProfiles" None]) /\
  DeleteBaselineProfile.perform_delete_baseline_profile (sample_module absent false true)
    sample_profile (sample_env [sample_profile]) []
  = (Exit [("msg", JStr SUCCESS_DELETION_MSG); ("baseline_profile_info", JDict []);
           ("diff", sample_delete_diff); ("changed", JBool true)],
     [Invoke "DELETE" "/Consoles/vc-1/BaselineProfiles/1001" None]) /\
  run (sample_env []) (sample_module present true true)
  = (Exit [("msg", JStr missing_argument_message); ("failed", JBool true)],
     [Invoke "GET" "/Consoles/vc-1/BaselineProfiles" None]) /\
  run (sample_env [sample_profile]) (sample_module present true true)
  = (Exit [("msg", JStr missing_argument_message); ("failed", JBool true)],
     [Invoke "GET" "/Consoles/vc-1/BaselineProfiles" None]).
Proof.
  split; [| repeat split].
  intros e module. rewrite run_sends. repeat constructor.
Qed.

(** What [execute] of the modify path sets out to do: once the diff is the
    no-op diff, the statements after the validation leave with the
    no-changes message and send nothing more. *)
Lemma modify_execute_body_no_op (e : env) (module : AnsibleModule) (existing : dict)
    (tr tr1 tr2 tr3 : list event) (add_group_ids remove_group_ids : list json)
    (firmware_repo_id : json) :
  let vcenter := of_option (vcenter_uuid (params module)) in
  OMEVVBaselineProfile.get_add_remove_group_ids (JDict existing) vcenter
    (of_names (cluster (params module))) e tr
  = (Ret (add_group_ids, remove_group_ids), tr1) ->
  OMEVVBaselineProfile.get_repo_id_by_name
    (of_option (repository_profile (params module))) e tr1
  = (Ret firmware_repo_id, tr2) ->
  ModifyBaselineProfile.diff_mode_check module (JDict existing)
    (JDict [("addgroupIds", JList add_group_ids);
            ("removeGroupIds", JList remove_group_ids);
            ("jobSchedule",
             OMEVVBaselineProfile.create_job_schedule (days (params module))
               (time (params module)));
            ("description", of_option (description (params module)));
            ("configurationRepoId", JNum 0);
            ("firmwareRepoId", firmware_repo_id);
            ("driverRepoId", JNum 0);
            ("modifiedBy", JStr "Administrator@VSPHERE.LOCAL")]) e tr2
  = (Ret no_op_diff, tr3) ->
  ModifyBaselineProfile.execute_body module (JDict existing) e tr
  = (Exit [("msg", JStr CHANGES_NOT_FOUND_MSG); ("changed", JBool false)], tr3).
Proof.
  intros vcenter Hgroups Hrepo Hdiff.
  unfold ModifyBaselineProfile.execute_body. fold vcenter.
  rewrite bind_run, Hgroups. rewrite bind_run, Hrepo.
  rewrite bind_run. unfold lift at 1, py_get, py_get_default.
  destruct (dict_get "description" existing); rewrite bind_run, Hdiff; reflexivity.
Qed.

(** C3 at its failing input.  The stored profile, projected on the six keys
    with the live schedule put in, equals what the task asks for: the diff is
    the no-op diff, and the statements of [execute] after the validation
    would leave with the no-changes message, having sent no PATCH.  The run
    never gets there: it stops at the [TypeError] of
    [validate_common_params] and leaves with failed=true. *)
Theorem modify_no_op_is_not_reached :
  fst (ModifyBaselineProfile.diff_mode_check (sample_module present false true)
         sample_profile sample_modify_payload (sample_env [sample_profile]) [])
  = Ret no_op_diff /\
  ModifyBaselineProfile.execute_body (sample_module present false true) sample_profile
    (sample_env [sample_profile]) []
  = (Exit [("msg", JStr CHANGES_NOT_FOUND_MSG); ("changed", JBool false)],
     [Invoke "GET" "/Consoles/vc-1/Clusters" None;
      Invoke "POST" "/Consoles/vc-1/Groups/getGroupsForClusters"
        (Some (JDict [("clustIds", JList [JStr "domain-c1"])]));
      Invoke "GET" "/RepositoryProfiles" None;
      Invoke "GET" "/Consoles/vc-1/Clusters" None;
      Invoke "GET" "/Consoles/vc-1/Clusters" None;
      Invoke "POST" "/Consoles/vc-1/Groups/getGroupsForClusters"
        (Some (JDict [("clustIds", JList [JStr "domain-c1"])]));
      Invoke "GET" "/Consoles/vc-1/UpdateJobs/77" None]) /\
  run (sample_env [sample_profile]) (sample_module present false true)
  = (Exit [("msg", JStr missing_argument_message); ("failed", JBool true)],
     [Invoke "GET" "/Consoles/vc-1/BaselineProfiles" None]) /\
  kwarg "changed" (fst (run (sample_env [sample_profile])
                          (sample_module present false true))) = None.
Proof. repeat split. Qed.

(** C9 at its failing input.  For a repository profile the backend does not
    hold, [get_repo_id_by_name] returns [None] and raises nothing, and
    [validate_repository_profile], given both its arguments, would answer
    with the message for an invalid repository profile.  The run hands it
    one argument: what comes out is the text of the [TypeError], not that
    message. *)
Theorem unknown_repository_is_not_reported :
  OMEVVBaselineProfile.get_repo_id_by_name (JStr "repo-9") (sample_env []) []
  = (Ret JNull, [Invoke "GET" "/RepositoryProfiles" None]) /\
  OMEVVBaselineProfile.validate_repository_profile (JStr "repo-9")
    sample_module_unknown_repository (sample_env []) []
  = (Ret (JDict [("error",
                  JStr "Invalid repository profile: repo-9. Please provide a valid profile.")]),
     [Invoke "GET" "/RepositoryProfiles" None]) /\
  run (sample_env []) sample_module_unknown_repository
  = (Exit [("msg", JStr missing_argument_message); ("failed", JBool true)],
     [Invoke "GET" "/Consoles/vc-1/BaselineProfiles" None]).
Proof. repeat split. Qed.

(** * Further properties of the two files *)

(** ** More on what a computation returns and sends *)

Lemma bind_Ret_inv {A B} (c : M A) (k : A -> M B) e tr b tr' :
  bind c k e tr = (Ret b, tr') ->
  exists a tr1, c e tr = (Ret a, tr1) /\ k a e tr1 = (Ret b, tr').
Proof.
  rewrite bind_run. destruct (c e tr) as [[a | x | kw |] tr1]; intros H;
    try discriminate. eauto.
Qed.

Lemma lift_Ret_inv {A} (r : result A) e tr a tr' :
  lift r e tr = (Ret a, tr') -> r = Ret a /\ tr' = tr.
Proof. unfold lift. intros H. inversion H. auto. Qed.

Lemma silent_sends_only (P : event -> bool) {A} (c : M A) :
  silent c -> sends_only P c.
Proof.
  intros Hc e tr. exists []. rewrite app_nil_r. split; [apply Hc | reflexivity].
Qed.

Lemma sends_only_invoke_request (P : event -> bool) (method uri : string)
    (data : option json) :
  P (Invoke method uri data) = true -> sends_only P (invoke_request method uri data).
Proof.
  intros HP e tr. exists [Invoke method uri data]. split.
  - apply sends_invoke_request.
  - cbn. now rewrite HP.
Qed.

Lemma sends_only_bind (P : event -> bool) {A B} (c : M A) (k : A -> M B) :
  sends_only P c -> (forall a, sends_only P (k a)) -> sends_only P (bind c k).
Proof.
  intros Hc Hk e tr. rewrite bind_run. destruct (Hc e tr) as [l [Hl HP]].
  destruct (c e tr) as [[a | x | kw |] tr1]; cbn in Hl; subst tr1;
    try (exists l; split; [reflexivity | exact HP]).
  destruct (Hk a e (tr ++ l)%list) as [l' [Hl' HP']].
  exists (l ++ l')%list. split.
  - rewrite Hl'. now rewrite app_assoc.
  - rewrite forallb_app, HP, HP'. reflexivity.
Qed.

Lemma sends_only_if (P : event -> bool) {A} (b : bool) (c1 c2 : M A) :
  sends_only P c1 -> sends_only P c2 -> sends_only P (if b then c1 else c2).
Proof. now destruct b. Qed.

Lemma sends_only_when (P : event -> bool) (b : bool) (c : M unit) :
  sends_only P c -> sends_only P (when b c).
Proof. intros Hc. destruct b; [exact Hc | apply silent_sends_only, silent_ret]. Qed.

Ltac reads_only :=
  repeat first
    [ apply sends_only_bind; [| intros ?]
    | apply sends_only_when
    | apply sends_only_if
    | apply sends_only_invoke_request; reflexivity
    | match goal with |- sends_only _ (match ?x with _ => _ end) => destruct x end
    | solve [apply silent_sends_only; silence] ].

(** ** Looking a profile up by name *)

Lemma first_with_Ret (key : string) (value : json) (data : list json) (found : json) :
  first_with key value data = Ret found ->
  (found = JDict [] /\
   Forall (fun d => exists v, py_get d key = Ret v /\ py_eq v value = false) data) \/
  (exists before after v,
      data = (before ++ found :: after)%list /\
      py_get found key = Ret v /\ py_eq v value = true /\
      Forall (fun d => exists v, py_get d key = Ret v /\ py_eq v value = false) before).
Proof.
  revert found. induction data as [| d data IH]; intros found H.
  - inversion H. left. split; constructor.
  - cbn in H. destruct (py_get d key) as [v | | |] eqn:Hget; try discriminate.
    cbn in H. destruct (py_eq v value) eqn:Heq.
    + inversion H. subst. right. exists [], data, v. repeat split; auto.
    + destruct (IH found H) as [[-> Hall] | [before [after [w [-> [Hw [Hmatch Hbefore]]]]]]].
      * left. split; [reflexivity |]. constructor; eauto.
      * right. exists (d :: before), after, w. repeat split; auto.
        constructor; eauto.
Qed.

(** X1: what [search_profile_name] returns is the first listed profile whose
    [profileName] equals the name, and the empty dict only when no listed
    profile before the end bears the name. *)
Theorem search_profile_name_first_match (data : list json) (profile_name found : json) :
  OMEVVFirmwareProfile.search_profile_name (JList data) profile_name = Ret found ->
  (found = JDict [] /\
   Forall (fun d => exists v,
               py_get d "profileName" = Ret v /\ py_eq v profile_name = false) data) \/
  (exists before after v,
      data = (before ++ found :: after)%list /\
      py_get found "profileName" = Ret v /\ py_eq v profile_name = true /\
      Forall (fun d => exists v,
                  py_get d "profileName" = Ret v /\ py_eq v profile_name = false)
        before).
Proof.
  unfold OMEVVFirmwareProfile.search_profile_name. cbn [py_iter bind result_Monad].
  apply first_with_Ret.
Qed.

Lemma search_profile_name_first_match_witness :
  (sample_repository_b = JDict [] /\
   Forall (fun d => exists v,
               py_get d "profileName" = Ret v /\ py_eq v (JStr "b") = false)
     sample_repositories) \/
  (exists before after v,
      sample_repositories = (before ++ sample_repository_b :: after)%list /\
      py_get sample_repository_b "profileName" = Ret v /\
      py_eq v (JStr "b") = true /\
      Forall (fun d => exists v,
                  py_get d "profileName" = Ret v /\ py_eq v (JStr "b") = false)
        before).
Proof.
  exact (search_profile_name_first_match sample_repositories (JStr "b")
           sample_repository_b eq_refl).
Defined.

(** X2: [get_repo_id_by_name] resolves a non-empty name to the [id] of the
    first listed repository profile of that name ([None] when that profile
    has no [id]), and to [None] when no listed profile bears the name or the
    listing is flagged unsuccessful; either way it sends the one GET. *)
Theorem get_repo_id_by_name_resolves (e : env) (tr : list event)
    (repository_profile : string) :
  repository_profile <> "" ->
  (forall (before after : list json) (profile : dict) (v : json),
      omevv e tr "GET" PROFILE_URI None
      = Returns (Response true (JList (before ++ JDict profile :: after))) ->
      Forall (fun p => exists v,
                  py_get p "profileName" = Ret v /\
                  py_eq v (JStr repository_profile) = false) before ->
      dict_get "profileName" profile = Some v ->
      py_eq v (JStr repository_profile) = true ->
      OMEVVBaselineProfile.get_repo_id_by_name (JStr repository_profile) e tr
      = (Ret (match dict_get "id" profile with Some id => id | None => JNull end),
         (tr ++ [Invoke "GET" PROFILE_URI None])%list)) /\
  (forall (profiles : list json),
      omevv e tr "GET" PROFILE_URI None = Returns (Response true (JList profiles)) ->
      Forall (fun p => exists v,
                  py_get p "profileName" = Ret v /\
                  py_eq v (JStr repository_profile) = false) profiles ->
      OMEVVBaselineProfile.get_repo_id_by_name (JStr repository_profile) e tr
      = (Ret JNull, (tr ++ [Invoke "GET" PROFILE_URI None])%list)) /\
  (forall (data : json),
      omevv e tr "GET" PROFILE_URI None = Returns (Response false data) ->
      OMEVVBaselineProfile.get_repo_id_by_name (JStr repository_profile) e tr
      = (Ret JNull, (tr ++ [Invoke "GET" PROFILE_URI None])%list)).
Proof.
  intros Hname. split; [| split].
  - intros before after profile v Hreply Hbefore Hkey Hmatch.
    exact (get_repo_id_by_name_found e tr repository_profile before after profile v
             Hname Hreply Hbefore Hkey Hmatch).
  - intros profiles Hreply Hnone.
    exact (get_repo_id_by_name_absent e tr repository_profile true profiles Hname
             Hreply Hnone).
  - intros data Hreply.
    unfold OMEVVBaselineProfile.get_repo_id_by_name,
      OMEVVFirmwareProfile.get_firmware_repository_profile.
    rewrite !bind_run. unfold invoke_request. rewrite Hreply. reflexivity.
Qed.

Lemma get_repo_id_by_name_resolves_witness :
  OMEVVBaselineProfile.get_repo_id_by_name (JStr "repo-1") (sample_env []) []
  = (Ret (JNum 1000), [Invoke "GET" "/RepositoryProfiles" None]) /\
  OMEVVBaselineProfile.get_repo_id_by_name (JStr "repo-1") unsuccessful_env []
  = (Ret JNull, [Invoke "GET" "/RepositoryProfiles" None]).
Proof.
  split.
  - exact (proj1 (get_repo_id_by_name_resolves (sample_env []) [] "repo-1"
                    ltac:(discriminate))
             [] [] [("id", JNum 1000); ("profileName", JStr "repo-1")] (JStr "repo-1")
             eq_refl (Forall_nil _) eq_refl eq_refl).
  - exact (proj2 (proj2 (get_repo_id_by_name_resolves unsuccessful_env [] "repo-1"
                           ltac:(discriminate)))
             (JDict [("message", JStr "Service unavailable.")]) eq_refl).
Defined.

(** X3: without a name ([None] or the empty string) the listing is not
    searched: [get_firmware_repository_profile] hands back the whole listing,
    and [get_repo_id_by_name] then raises [AttributeError] on any non-empty
    listing, having sent its GET. *)
Theorem get_repo_id_by_name_needs_a_name (e : env) (tr : list event)
    (repository_profile p : json) (ps : list json) :
  truthy repository_profile = false ->
  omevv e tr "GET" PROFILE_URI None = Returns (Response true (JList (p :: ps))) ->
  OMEVVFirmwareProfile.get_firmware_repository_profile repository_profile e tr
  = (Ret (JList (p :: ps)), (tr ++ [Invoke "GET" PROFILE_URI None])%list) /\
  OMEVVBaselineProfile.get_repo_id_by_name repository_profile e tr
  = (Raise (AttributeError "'list' object has no attribute 'get'"),
     (tr ++ [Invoke "GET" PROFILE_URI None])%list).
Proof.
  intros Hname Hreply.
  unfold OMEVVBaselineProfile.get_repo_id_by_name,
    OMEVVFirmwareProfile.get_firmware_repository_profile.
  rewrite !bind_run. unfold invoke_request. rewrite Hreply.
  cbn [success json_data]. rewrite Hname. split; reflexivity.
Qed.

Lemma get_repo_id_by_name_needs_a_name_witness :
  OMEVVBaselineProfile.get_repo_id_by_name JNull (sample_env []) []
  = (Raise (AttributeError "'list' object has no attribute 'get'"),
     [Invoke "GET" "/RepositoryProfiles" None]).
Proof.
  exact (proj2 (get_repo_id_by_name_needs_a_name (sample_env []) [] JNull
                  (JDict [("id", JNum 1000); ("profileName", JStr "repo-1")]) []
                  eq_refl eq_refl)).
Defined.

(** X4: [get_baseline_profile_by_name] returns the first listed baseline
    profile whose [name] equals the name asked for, whatever comes after it
    in the listing, and sends the one GET of the listing. *)
Theorem get_baseline_profile_by_name_first (e : env) (tr : list event)
    (profile_name vcenter_uuid v : json) (before after : list json) (profile : dict) :
  omevv e tr "GET" (BASELINE_PROFILE_URI vcenter_uuid) None
  = Returns (Response true (JList (before ++ JDict profile :: after))) ->
  Forall (fun p => exists v, py_get p "name" = Ret v /\ py_eq v profile_name = false)
    before ->
  dict_get "name" profile = Some v ->
  py_eq v profile_name = true ->
  OMEVVBaselineProfile.get_baseline_profile_by_name profile_name vcenter_uuid e tr
  = (Ret (JDict profile),
     (tr ++ [Invoke "GET" (BASELINE_PROFILE_URI vcenter_uuid) None])%list).
Proof.
  intros Hreply Hbefore Hkey Hmatch.
  unfold OMEVVBaselineProfile.get_baseline_profile_by_name,
    OMEVVBaselineProfile.get_baseline_profiles.
  rewrite !bind_run. unfold invoke_request. rewrite Hreply.
  cbn [success json_data ret M_Monad]. unfold lift. cbn [py_iter bind result_Monad].
  assert (Hfirst : first_with "name" profile_name (before ++ JDict profile :: after)
                   = Ret (JDict profile)).
  { clear Hreply. induction Hbefore as [| p before [w [Hget Hneq]] _ IH].
    - cbn. rewrite Hkey. cbn. rewrite Hmatch. reflexivity.
    - cbn [app first_with]. rewrite Hget. cbn. rewrite Hneq. exact IH. }
  rewrite Hfirst. reflexivity.
Qed.

Lemma get_baseline_profile_by_name_first_witness :
  OMEVVBaselineProfile.get_baseline_profile_by_name (JStr "profile-1") (JStr "vc-1")
    (sample_env [sample_profile_other; sample_profile; sample_profile_later]) []
  = (Ret sample_profile, [Invoke "GET" "/Consoles/vc-1/BaselineProfiles" None]).
Proof.
  refine (get_baseline_profile_by_name_first
            (sample_env [sample_profile_other; sample_profile; sample_profile_later]) []
            (JStr "profile-1") (JStr "vc-1") (JStr "profile-1") [sample_profile_other]
            [sample_profile_later] _ eq_refl _ eq_refl eq_refl).
  constructor; [| constructor]. exists (JStr "profile-0"). split; reflexivity.
Defined.

(** ** Repository profiles *)

Lemma filter_is_none (l : list json) :
  (existsb is_none l = false /\ filter is_none l = []) \/
  (existsb is_none l = true /\ exists r, filter is_none l = JNull :: r).
Proof.
  induction l as [| x l IH]; [left; split; reflexivity |].
  cbn. destruct x; cbn; try exact IH.
  right. split; [reflexivity | eauto].
Qed.

(** The message is never built: joining the missing parameters, which are
    all [None], raises. *)
Lemma missing_parameters_message_outcome (required_params : list json) :
  OMEVVFirmwareProfile.missing_parameters_message required_params
  = if existsb is_none required_params
    then Raise (TypeError "sequence item 0: expected str instance, NoneType found")
    else Ret JNull.
Proof.
  unfold OMEVVFirmwareProfile.missing_parameters_message.
  destruct (filter_is_none required_params) as [[-> ->] | [-> [r ->]]]; reflexivity.
Qed.

(** X5: [create_firmware_repository_profile] never returns an error message.
    When [name], [catalog_path] or [protocol_type] is [None] it raises
    [TypeError] while building the message and sends nothing; otherwise it
    sends one POST with the payload and returns the response with [None]. *)
Theorem create_firmware_repository_profile_outcome (e : env) (tr : list event)
    (name catalog_path description protocol_type share_username share_password
       share_domain : json) :
  let payload :=
    JDict (OMEVVFirmwareProfile.get_create_payload_details name catalog_path
             description protocol_type share_username share_password share_domain) in
  OMEVVFirmwareProfile.create_firmware_repository_profile name catalog_path description
    protocol_type share_username share_password share_domain e tr
  = if is_none name || is_none catalog_path || is_none protocol_type
    then (Raise (TypeError "sequence item 0: expected str instance, NoneType found"), tr)
    else match omevv e tr "POST" PROFILE_URI (Some payload) with
         | Returns resp =>
             (Ret (resp, JNull), (tr ++ [Invoke "POST" PROFILE_URI (Some payload)])%list)
         | Raises err =>
             (Raise err, (tr ++ [Invoke "POST" PROFILE_URI (Some payload)])%list)
         end.
Proof.
  intros payload. unfold OMEVVFirmwareProfile.create_firmware_repository_profile.
  rewrite bind_run. unfold lift at 1. rewrite missing_parameters_message_outcome.
  cbn [existsb]. rewrite orb_false_r, orb_assoc.
  destruct (is_none name || is_none catalog_path || is_none protocol_type);
    [reflexivity |].
  rewrite bind_run. unfold invoke_request. fold payload.
  destruct (omevv e tr "POST" PROFILE_URI (Some payload)); reflexivity.
Qed.

(** X6: [modify_firmware_repository_profile] never returns an error message
    either.  When [name] or [catalog_path] is [None] it raises [TypeError]
    and sends nothing; otherwise it sends one PUT to the address of the
    profile and returns the response with [None]. *)
Theorem modify_firmware_repository_profile_outcome (e : env) (tr : list event)
    (profile_id name catalog_path description share_username share_password
       share_domain : json) :
  let payload :=
    JDict (OMEVVFirmwareProfile.get_modify_payload_details name catalog_path
             description share_username share_password share_domain) in
  let uri := PROFILE_URI ++ "/" ++ py_str profile_id in
  OMEVVFirmwareProfile.modify_firmware_repository_profile profile_id name catalog_path
    description share_username share_password share_domain e tr
  = if is_none name || is_none catalog_path
    then (Raise (TypeError "sequence item 0: expected str instance, NoneType found"), tr)
    else match omevv e tr "PUT" uri (Some payload) with
         | Returns resp =>
             (Ret (resp, JNull), (tr ++ [Invoke "PUT" uri (Some payload)])%list)
         | Raises err => (Raise err, (tr ++ [Invoke "PUT" uri (Some payload)])%list)
         end.
Proof.
  intros payload uri. unfold OMEVVFirmwareProfile.modify_firmware_repository_profile.
  rewrite bind_run. unfold lift at 1. rewrite missing_parameters_message_outcome.
  cbn [existsb]. rewrite orb_false_r.
  destruct (is_none name || is_none catalog_path); [reflexivity |].
  rewrite bind_run. unfold invoke_request. fold payload. fold uri.
  destruct (omevv e tr "PUT" uri (Some payload)); reflexivity.
Qed.

(** X7: both payload builders leave [description] out when it is [None] and
    carry it as given otherwise; the payload of a modify is the payload of a
    create without [protocolType] and [profileType], and the latter is always
    "Firmware". *)
Theorem repository_payloads_agree (name catalog_path description protocol_type
    share_username share_password share_domain : json) :
  let created :=
    OMEVVFirmwareProfile.get_create_payload_details name catalog_path description
      protocol_type share_username share_password share_domain in
  let modified :=
    OMEVVFirmwareProfile.get_modify_payload_details name catalog_path description
      share_username share_password share_domain in
  dict_get "description" created
  = (if is_none description then None else Some description) /\
  dict_get "profileType" created = Some (JStr "Firmware") /\
  dict_get "protocolType" modified = None /\
  dict_get "profileType" modified = None /\
  (forall key,
      key <> "protocolType" -> key <> "profileType" ->
      dict_get key modified = dict_get key created).
Proof.
  intros created modified. subst created modified.
  unfold OMEVVFirmwareProfile.get_create_payload_details,
    OMEVVFirmwareProfile.get_modify_payload_details.
  destruct (is_none description); cbn; (repeat split; try reflexivity);
    intros key Hprotocol Htype;
    apply String.eqb_neq in Hprotocol; apply String.eqb_neq in Htype;
    rewrite Hprotocol, Htype; reflexivity.
Qed.

(** X8: the payload of a connection test never carries [None] in its
    credentials: a user name, password or domain that is [None] is sent as
    the empty string, one that is given is sent as it is; certificate
    checking is always switched off. *)
Theorem form_conn_payload_credentials (protocol_type catalog_path share_username
    share_password share_domain : json) :
  let payload :=
    OMEVVFirmwareProfile.form_conn_payload protocol_type catalog_path share_username
      share_password share_domain in
  exists username password domain,
    dict_get "shareCredential" payload
    = Some (JDict [("username", username); ("password", password); ("domain", domain)]) /\
    is_none username = false /\ is_none password = false /\ is_none domain = false /\
    (is_none share_username = false -> username = share_username) /\
    (is_none share_password = false -> password = share_password) /\
    (is_none share_domain = false -> domain = share_domain) /\
    dict_get "checkCertificate" payload = Some (JBool false).
Proof.
  intros payload.
  exists (OMEVVFirmwareProfile.or_empty share_username),
    (OMEVVFirmwareProfile.or_empty share_password),
    (OMEVVFirmwareProfile.or_empty share_domain).
  unfold OMEVVFirmwareProfile.or_empty.
  repeat split;
    try (destruct share_username; reflexivity);
    try (destruct share_password; reflexivity);
    try (destruct share_domain; reflexivity);
    intros H; rewrite H; reflexivity.
Qed.

(** ** The two validations by name *)

Lemma comprehension_always (elt : json -> result json) (l vs : list json) :
  Forall2 (fun x v => elt x = Ret v) l vs ->
  comprehension elt always l = Ret vs.
Proof.
  induction 1 as [| x v l vs Hx _ IH]; [reflexivity |].
  cbn. rewrite Hx. cbn. rewrite IH. reflexivity.
Qed.

Lemma comprehension_filter (f : json -> bool) (l : list json) :
  comprehension (fun x => Ret x) (fun x => Ret (f x)) l = Ret (filter f l).
Proof.
  induction l as [| x l IH]; [reflexivity |].
  cbn. destruct (f x); cbn; rewrite IH; reflexivity.
Qed.

Lemma filter_map_JStr (f : json -> bool) (names : list string) :
  filter f (map JStr names) = map JStr (filter (fun n => f (JStr n)) names).
Proof.
  induction names as [| n names IH]; [reflexivity |].
  cbn. destruct (f (JStr n)); cbn; now rewrite IH.
Qed.

Lemma join_from_strings (i : nat) (l : list string) :
  join_from i (map JStr l) = Ret (String.concat ", " l).
Proof.
  revert i. induction l as [| s l IH]; intros i; [reflexivity |].
  destruct l as [| t l]; [reflexivity |].
  change (join_from i (map JStr (s :: t :: l)))
    with (bind (join_from (S i) (map JStr (t :: l)))
            (fun u => Ret (s ++ ", " ++ u))).
  rewrite IH. reflexivity.
Qed.

(** X9: [validate_cluster_names] answers success exactly when every name
    asked for is the [name] of a listed cluster, whatever the success flag of
    the listing; otherwise its error names the unknown ones, in the order
    given and joined by ", ".  It sends the one GET of the listing. *)
Theorem validate_cluster_names_verdict (e : env) (tr : list event) (names : list string)
    (vcenter_uuid : json) (ok : bool) (clusters available : list json) :
  omevv e tr "GET" (CLUSTER_URI vcenter_uuid) None
  = Returns (Response ok (JList clusters)) ->
  Forall2 (fun c v => py_get c "name" = Ret v) clusters available ->
  OMEVVBaselineProfile.validate_cluster_names (JList (map JStr names)) vcenter_uuid e tr
  = (Ret (match filter (fun n => negb (mem (JStr n) available)) names with
          | [] => JDict [("success", JBool true)]
          | unknown =>
              JDict [("error",
                      JStr (INVALID_CLUSTER_NAMES_MSG (String.concat ", " unknown)))]
          end),
     (tr ++ [Invoke "GET" (CLUSTER_URI vcenter_uuid) None])%list).
Proof.
  intros Hreply Havailable.
  unfold OMEVVBaselineProfile.validate_cluster_names,
    OMEVVBaselineProfile.get_all_clusters.
  rewrite bind_run. unfold invoke_request. rewrite Hreply.
  cbn [response_truthy negb json_data]. rewrite bind_run. unfold lift at 1.
  cbn [py_iter bind result_Monad]. rewrite (comprehension_always _ _ _ Havailable).
  rewrite bind_run. unfold lift at 1. cbn [py_iter bind result_Monad].
  rewrite comprehension_filter, filter_map_JStr.
  destruct (filter (fun n => negb (mem (JStr n) available)) names) as [| u unknown];
    [reflexivity |].
  cbn [map]. rewrite bind_run. unfold lift, join_comma.
  change (JStr u :: map JStr unknown) with (map JStr (u :: unknown)).
  rewrite join_from_strings. reflexivity.
Qed.

Lemma validate_cluster_names_verdict_witness :
  OMEVVBaselineProfile.validate_cluster_names
    (JList (map JStr ["cluster-9"; "cluster-1"; "cluster-7"])) (JStr "vc-1")
    (sample_env []) []
  = (Ret (JDict [("error",
                  JStr "Invalid cluster names: cluster-9, cluster-7. Please provide valid clusters.")]),
     [Invoke "GET" "/Consoles/vc-1/Clusters" None]).
Proof.
  refine (validate_cluster_names_verdict (sample_env []) []
            ["cluster-9"; "cluster-1"; "cluster-7"] (JStr "vc-1") true
            [JDict [("entityId", JStr "domain-c1"); ("name", JStr "cluster-1")]]
            [JStr "cluster-1"] eq_refl _).
  repeat constructor.
Defined.

(** X10: [validate_repository_profile], given both its arguments, answers
    success exactly when the name is the [profileName] of a listed repository
    profile, and otherwise the error for an invalid repository profile that
    quotes the name; it sends the one GET of the listing. *)
Theorem validate_repository_profile_verdict (e : env) (tr : list event)
    (repository_profile : json) (module : AnsibleModule) (ok : bool)
    (profiles available : list json) :
  omevv e tr "GET" PROFILE_URI None = Returns (Response ok (JList profiles)) ->
  Forall2 (fun p v => py_get p "profileName" = Ret v) profiles available ->
  OMEVVBaselineProfile.validate_repository_profile repository_profile module e tr
  = (Ret (if mem repository_profile available
          then JDict [("success", JBool true)]
          else JDict [("error", JStr (INVALID_REPO_PROFILE_MSG repository_profile))]),
     (tr ++ [Invoke "GET" PROFILE_URI None])%list).
Proof.
  intros Hreply Havailable.
  unfold OMEVVBaselineProfile.validate_repository_profile,
    OMEVVFirmwareProfile.get_all_repository_profiles.
  rewrite bind_run. unfold invoke_request. rewrite Hreply.
  cbn [response_truthy negb json_data]. rewrite bind_run. unfold lift at 1.
  cbn [py_iter bind result_Monad]. rewrite (comprehension_always _ _ _ Havailable).
  destruct (mem repository_profile available); reflexivity.
Qed.

Lemma validate_repository_profile_verdict_witness :
  OMEVVBaselineProfile.validate_repository_profile (JStr "repo-1")
    (sample_module present false false) (sample_env []) []
  = (Ret (JDict [("success", JBool true)]), [Invoke "GET" "/RepositoryProfiles" None]).
Proof.
  refine (validate_repository_profile_verdict (sample_env []) [] (JStr "repo-1")
            (sample_module present false false) true
            [JDict [("id", JNum 1000); ("profileName", JStr "repo-1")]]
            [JStr "repo-1"] eq_refl _).
  repeat constructor.
Defined.

(** ** Resolving cluster names *)

Lemma comprehension_ext (elt : json -> result json) (cond1 cond2 : json -> result bool)
    (l : list json) :
  Forall (fun x => cond1 x = cond2 x) l ->
  comprehension elt cond1 l = comprehension elt cond2 l.
Proof.
  induction 1 as [| x l Hx _ IH]; [reflexivity |].
  cbn. rewrite Hx, IH. reflexivity.
Qed.

Lemma mem_app (x : json) (a b : list json) : mem x (a ++ b) = mem x a || mem x b.
Proof. apply existsb_app. Qed.

Lemma entity_ids_ignores_unknown (clusters names1 names2 : list json) (unknown : json) :
  Forall (fun c => forall v, py_getitem c "name" = Ret v -> py_eq v unknown = false)
    clusters ->
  OMEVVBaselineProfile.entity_ids (JList clusters) (JList (names1 ++ unknown :: names2))
  = OMEVVBaselineProfile.entity_ids (JList clusters) (JList (names1 ++ names2)).
Proof.
  intros Hclusters. unfold OMEVVBaselineProfile.entity_ids.
  cbn [py_iter bind result_Monad]. apply comprehension_ext.
  rewrite Forall_forall in *. intros c Hc. specialize (Hclusters c Hc).
  destruct (py_getitem c "name") as [v | | |]; try reflexivity.
  cbn. rewrite !mem_app, mem_cons, (Hclusters v eq_refl). reflexivity.
Qed.

(** X11: a name that no listed cluster bears is passed over in silence:
    with it or without it among the names, [get_cluster_id] and
    [get_group_ids_for_clusters] send the same requests and end alike. *)
Theorem unknown_cluster_name_is_ignored (e : env) (tr : list event) (vcenter_uuid : json)
    (clusters names1 names2 : list json) (unknown : json) :
  omevv e tr "GET" (CLUSTER_URI vcenter_uuid) None
  = Returns (Response true (JList clusters)) ->
  Forall (fun c => forall v, py_getitem c "name" = Ret v -> py_eq v unknown = false)
    clusters ->
  OMEVVBaselineProfile.get_cluster_id (JList (names1 ++ unknown :: names2))
    vcenter_uuid e tr
  = OMEVVBaselineProfile.get_cluster_id (JList (names1 ++ names2)) vcenter_uuid e tr /\
  OMEVVBaselineProfile.get_group_ids_for_clusters vcenter_uuid
    (JList (names1 ++ unknown :: names2)) e tr
  = OMEVVBaselineProfile.get_group_ids_for_clusters vcenter_uuid
      (JList (names1 ++ names2)) e tr.
Proof.
  intros Hreply Hclusters.
  unfold OMEVVBaselineProfile.get_cluster_id,
    OMEVVBaselineProfile.get_group_ids_for_clusters.
  split; rewrite !bind_run; unfold invoke_request; rewrite !Hreply;
    cbn [success json_data];
    rewrite (entity_ids_ignores_unknown _ _ _ _ Hclusters); reflexivity.
Qed.

Lemma unknown_cluster_name_is_ignored_witness :
  OMEVVBaselineProfile.get_group_ids_for_clusters (JStr "vc-1")
    (JList ([JStr "cluster-1"] ++ JStr "cluster-9" :: [])) (sample_env []) []
  = OMEVVBaselineProfile.get_group_ids_for_clusters (JStr "vc-1")
      (JList ([JStr "cluster-1"] ++ [])) (sample_env []) [].
Proof.
  refine (proj2 (unknown_cluster_name_is_ignored (sample_env []) [] (JStr "vc-1")
                   [JDict [("entityId", JStr "domain-c1"); ("name", JStr "cluster-1")]]
                   [JStr "cluster-1"] [] (JStr "cluster-9") eq_refl _)).
  constructor; [| constructor]. intros v Hv. inversion Hv. reflexivity.
Defined.

(** X12: when none of the listed clusters bears one of the names,
    [get_cluster_id] and [get_group_ids_for_clusters] return the empty list
    and the listing is their only request: no translation to group ids is
    asked for. *)
Theorem no_cluster_matches_no_translation (e : env) (tr : list event)
    (vcenter_uuid : json) (clusters names : list json) :
  omevv e tr "GET" (CLUSTER_URI vcenter_uuid) None
  = Returns (Response true (JList clusters)) ->
  Forall (fun c => exists v, py_getitem c "name" = Ret v /\ mem v names = false)
    clusters ->
  OMEVVBaselineProfile.get_cluster_id (JList names) vcenter_uuid e tr
  = (Ret [], (tr ++ [Invoke "GET" (CLUSTER_URI vcenter_uuid) None])%list) /\
  OMEVVBaselineProfile.get_group_ids_for_clusters vcenter_uuid (JList names) e tr
  = (Ret [], (tr ++ [Invoke "GET" (CLUSTER_URI vcenter_uuid) None])%list).
Proof.
  intros Hreply Hclusters.
  assert (Hids : OMEVVBaselineProfile.entity_ids (JList clusters) (JList names) = Ret []).
  { clear Hreply. unfold OMEVVBaselineProfile.entity_ids.
    cbn [py_iter bind result_Monad].
    induction Hclusters as [| c clusters [v [Hname Hmem]] _ IH]; [reflexivity |].
    cbn. rewrite Hname. cbn. rewrite Hmem. exact IH. }
  unfold OMEVVBaselineProfile.get_cluster_id,
    OMEVVBaselineProfile.get_group_ids_for_clusters.
  split; rewrite !bind_run; unfold invoke_request; rewrite Hreply;
    cbn [success json_data]; unfold lift; rewrite Hids; reflexivity.
Qed.

Lemma no_cluster_matches_no_translation_witness :
  OMEVVBaselineProfile.get_group_ids_for_clusters (JStr "vc-1")
    (JList [JStr "cluster-9"]) (sample_env []) []
  = (Ret [], [Invoke "GET" "/Consoles/vc-1/Clusters" None]).
Proof.
  refine (proj2 (no_cluster_matches_no_translation (sample_env []) [] (JStr "vc-1")
                   [JDict [("entityId", JStr "domain-c1"); ("name", JStr "cluster-1")]]
                   [JStr "cluster-9"] eq_refl _)).
  constructor; [| constructor]. exists (JStr "cluster-1"). split; reflexivity.
Defined.

(** X13: the ids [get_cluster_id] returns are the [entityId]s of the listed
    clusters whose [name] is among the names asked for, in the order of the
    listing, not in the order of the names. *)
Theorem get_cluster_id_follows_listing (e : env) (tr : list event) (vcenter_uuid : json)
    (clusters names : list json) (listed : list (json * json)) :
  omevv e tr "GET" (CLUSTER_URI vcenter_uuid) None
  = Returns (Response true (JList clusters)) ->
  Forall2 (fun c p => py_getitem c "name" = Ret (fst p) /\
                      py_getitem c "entityId" = Ret (snd p)) clusters listed ->
  OMEVVBaselineProfile.get_cluster_id (JList names) vcenter_uuid e tr
  = (Ret (map snd (filter (fun p => mem (fst p) names) listed)),
     (tr ++ [Invoke "GET" (CLUSTER_URI vcenter_uuid) None])%list).
Proof.
  intros Hreply Hlisted.
  assert (Hids : OMEVVBaselineProfile.entity_ids (JList clusters) (JList names)
                 = Ret (map snd (filter (fun p => mem (fst p) names) listed))).
  { clear Hreply. unfold OMEVVBaselineProfile.entity_ids.
    cbn [py_iter bind result_Monad].
    induction Hlisted as [| c p clusters listed [Hname Hid] _ IH]; [reflexivity |].
    cbn [comprehension bind result_Monad filter]. rewrite Hname. cbv beta iota.
    change (py_in (fst p) (JList names)) with (Ret (mem (fst p) names)).
    cbv beta iota. destruct (mem (fst p) names); [| exact IH].
    rewrite Hid. cbv beta iota. rewrite IH. reflexivity. }
  unfold OMEVVBaselineProfile.get_cluster_id.
  rewrite !bind_run. unfold invoke_request. rewrite Hreply.
  cbn [success json_data]. unfold lift. rewrite Hids. reflexivity.
Qed.

Lemma get_cluster_id_follows_listing_witness :
  OMEVVBaselineProfile.get_cluster_id (JList [JStr "cluster-2"; JStr "cluster-1"])
    (JStr "vc-1") two_clusters_env []
  = (Ret [JStr "domain-c1"; JStr "domain-c2"],
     [Invoke "GET" "/Consoles/vc-1/Clusters" None]).
Proof.
  refine (get_cluster_id_follows_listing two_clusters_env [] (JStr "vc-1")
            two_clusters [JStr "cluster-2"; JStr "cluster-1"]
            [(JStr "cluster-1", JStr "domain-c1"); (JStr "cluster-2", JStr "domain-c2")]
            eq_refl _).
  repeat constructor.
Defined.

(** ** More on group membership *)

Lemma set_difference_scalar (a b : list json) :
  Forall (fun z => scalar z = true) a ->
  Forall (fun z => scalar z = true) (set_difference a b).
Proof.
  intros Ha. rewrite Forall_forall in *. intros x Hx.
  apply filter_In in Hx. apply Ha, Hx.
Qed.

Lemma comprehension_always_raise (elt : json -> result json) (before after : list json)
    (x : json) (err : exn) :
  Forall (fun y => exists v, elt y = Ret v) before ->
  elt x = Raise err ->
  comprehension elt always (before ++ x :: after) = Raise err.
Proof.
  intros Hbefore Hx. induction Hbefore as [| y before [v Hv] _ IH].
  - cbn. rewrite Hx. reflexivity.
  - cbn [app comprehension always bind result_Monad]. rewrite Hv, IH. reflexivity.
Qed.

(** X14: the two lists [get_add_remove_group_ids] returns are a patch from
    the attached group ids [E] to the resolved ones [D]: adding the first to
    [E] and then removing the second leaves exactly the members of [D], and
    no id is both added and removed. *)
Theorem add_remove_is_a_patch (e : env) (tr tr' : list event)
    (existing_profile vcenter_uuid cluster_names : json) (E fetched D : list json) :
  OMEVVBaselineProfile.attached_group_ids existing_profile = Ret E ->
  OMEVVBaselineProfile.get_group_ids_for_clusters vcenter_uuid cluster_names e tr
  = (Ret fetched, tr') ->
  py_set fetched = Ret D ->
  exists toAdd toRemove,
    OMEVVBaselineProfile.get_add_remove_group_ids existing_profile vcenter_uuid
      cluster_names e tr = (Ret (toAdd, toRemove), tr') /\
    (forall x, mem x (set_difference (E ++ toAdd) toRemove) = mem x D) /\
    (forall x, mem x toAdd && mem x toRemove = false).
Proof.
  intros HE Hfetch HD.
  pose proof (attached_group_ids_scalar _ _ HE) as HsE.
  pose proof (py_set_scalar _ _ HD) as HsD.
  exists (set_difference D E), (set_difference E D).
  split; [| split].
  - unfold OMEVVBaselineProfile.get_add_remove_group_ids.
    rewrite bind_run. unfold lift at 1. rewrite HE.
    rewrite bind_run, Hfetch. rewrite bind_run. unfold lift at 1. rewrite HD.
    reflexivity.
  - intros x. rewrite mem_set_difference.
    + rewrite mem_app, !mem_set_difference by assumption.
      destruct (mem x E), (mem x D); reflexivity.
    + apply Forall_app. split; [assumption | now apply set_difference_scalar].
    + now apply set_difference_scalar.
  - intros x. rewrite !mem_set_difference by assumption.
    destruct (mem x E), (mem x D); reflexivity.
Qed.

Lemma add_remove_is_a_patch_witness :
  exists toAdd toRemove,
    OMEVVBaselineProfile.get_add_remove_group_ids profile_with_groups_123 (JStr "vc-1")
      (JList [JStr "cluster-1"]) env_with_groups_234 []
    = (Ret (toAdd, toRemove),
       [Invoke "GET" "/Consoles/vc-1/Clusters" None;
        Invoke "POST" "/Consoles/vc-1/Groups/getGroupsForClusters"
          (Some (JDict [("clustIds", JList [JStr "domain-c1"])]))]) /\
    (forall x,
        mem x (set_difference ([JNum 1; JNum 2; JNum 3] ++ toAdd) toRemove)
        = mem x [JNum 2; JNum 3; JNum 4]) /\
    (forall x, mem x toAdd && mem x toRemove = false).
Proof.
  exact (add_remove_is_a_patch env_with_groups_234 []
           [Invoke "GET" "/Consoles/vc-1/Clusters" None;
            Invoke "POST" "/Consoles/vc-1/Groups/getGroupsForClusters"
              (Some (JDict [("clustIds", JList [JStr "domain-c1"])]))]
           profile_with_groups_123 (JStr "vc-1") (JList [JStr "cluster-1"])
           [JNum 1; JNum 2; JNum 3] [JNum 2; JNum 3; JNum 4] [JNum 2; JNum 3; JNum 4]
           eq_refl eq_refl eq_refl).
Defined.

Lemma attached_group_ids_of_groups (existing : dict) (groups : list json) :
  dict_get "clusterGroups" existing = Some (JList groups) ->
  OMEVVBaselineProfile.attached_group_ids (JDict existing)
  = (ids <- comprehension
              (fun group => v <- py_getitem group "omevv_groupID" ;; hashable v)
              always groups ;;
     Ret (dedup ids)).
Proof.
  intros Hgroups. unfold OMEVVBaselineProfile.attached_group_ids, py_get_default.
  rewrite Hgroups. reflexivity.
Qed.

Lemma set_difference_nil_r (a : list json) : set_difference a [] = a.
Proof.
  induction a as [| x a IH]; [reflexivity |].
  rewrite set_difference_cons. cbn [mem existsb negb]. now rewrite IH.
Qed.

(** X15: an attached group without [omevv_groupID] makes
    [get_add_remove_group_ids] raise [KeyError] before it sends anything;
    a profile without [clusterGroups] counts as attached to no group, so
    the ids to add are exactly the resolved ones, as a set, and none is to be
    removed. *)
Theorem attached_groups_edge_cases (e : env) (tr : list event)
    (vcenter_uuid cluster_names : json) (existing : dict) :
  (forall (before after : list json) (group : dict),
      dict_get "clusterGroups" existing
      = Some (JList (before ++ JDict group :: after)) ->
      Forall (fun g => exists v,
                  py_getitem g "omevv_groupID" = Ret v /\ scalar v = true) before ->
      dict_get "omevv_groupID" group = None ->
      OMEVVBaselineProfile.get_add_remove_group_ids (JDict existing) vcenter_uuid
        cluster_names e tr
      = (Raise (KeyError "omevv_groupID"), tr)) /\
  (forall (fetched D : list json) (tr' : list event),
      dict_get "clusterGroups" existing = None ->
      OMEVVBaselineProfile.get_group_ids_for_clusters vcenter_uuid cluster_names e tr
      = (Ret fetched, tr') ->
      py_set fetched = Ret D ->
      exists toAdd,
        OMEVVBaselineProfile.get_add_remove_group_ids (JDict existing) vcenter_uuid
          cluster_names e tr
        = (Ret (toAdd, []), tr') /\
        (forall x, mem x toAdd = mem x D)).
Proof.
  split.
  - intros before after group Hgroups Hbefore Hmissing.
    unfold OMEVVBaselineProfile.get_add_remove_group_ids.
    rewrite bind_run. unfold lift at 1.
    rewrite (attached_group_ids_of_groups _ _ Hgroups).
    assert (Hraise : comprehension
                       (fun group => v <- py_getitem group "omevv_groupID" ;; hashable v)
                       always (before ++ JDict group :: after)
                     = Raise (KeyError "omevv_groupID")).
    { apply comprehension_always_raise.
      - rewrite Forall_forall in *. intros g Hg.
        destruct (Hbefore g Hg) as [v [Hv Hs]]. exists v. rewrite Hv.
        destruct v; try discriminate Hs; reflexivity.
      - cbn. rewrite Hmissing. reflexivity. }
    rewrite Hraise. reflexivity.
  - intros fetched D tr' Hgroups Hfetch HD.
    exists (set_difference D []). split.
    + unfold OMEVVBaselineProfile.get_add_remove_group_ids.
      rewrite bind_run. unfold lift at 1.
      unfold OMEVVBaselineProfile.attached_group_ids, py_get_default.
      rewrite Hgroups. cbn [bind result_Monad py_iter comprehension dedup].
      rewrite bind_run, Hfetch. rewrite bind_run. unfold lift at 1. rewrite HD.
      reflexivity.
    + intros x. now rewrite set_difference_nil_r.
Qed.

Lemma attached_groups_edge_cases_witness :
  OMEVVBaselineProfile.get_add_remove_group_ids
    (JDict [("name", JStr "profile-1");
            ("clusterGroups", JList [JDict [("omevv_groupID", JNum 1)];
                                     JDict [("clusterName", JStr "cluster-2")]])])
    (JStr "vc-1") (JList [JStr "cluster-1"]) env_with_groups_234 []
  = (Raise (KeyError "omevv_groupID"), []) /\
  (exists toAdd,
      OMEVVBaselineProfile.get_add_remove_group_ids (JDict [("name", JStr "profile-1")])
        (JStr "vc-1") (JList [JStr "cluster-1"]) env_with_groups_234 []
      = (Ret (toAdd, []),
         [Invoke "GET" "/Consoles/vc-1/Clusters" None;
          Invoke "POST" "/Consoles/vc-1/Groups/getGroupsForClusters"
            (Some (JDict [("clustIds", JList [JStr "domain-c1"])]))]) /\
      (forall x, mem x toAdd = mem x [JNum 2; JNum 3; JNum 4])).
Proof.
  split.
  - refine (proj1 (attached_groups_edge_cases env_with_groups_234 [] (JStr "vc-1")
                     (JList [JStr "cluster-1"])
                     [("name", JStr "profile-1");
                      ("clusterGroups",
                       JList [JDict [("omevv_groupID", JNum 1)];
                              JDict [("clusterName", JStr "cluster-2")]])])
              [JDict [("omevv_groupID", JNum 1)]] []
              [("clusterName", JStr "cluster-2")] eq_refl _ eq_refl).
    constructor; [| constructor]. exists (JNum 1). split; reflexivity.
  - exact (proj2 (attached_groups_edge_cases env_with_groups_234 [] (JStr "vc-1")
                    (JList [JStr "cluster-1"]) [("name", JStr "profile-1")])
             [JNum 2; JNum 3; JNum 4] [JNum 2; JNum 3; JNum 4] _ eq_refl eq_refl
             eq_refl).
Defined.

(** ** More on the schedule builder *)

(** X16: [create_job_schedule] reads [days] as a set: two lists of days with
    the same members, in whatever order and with whatever repetitions, give
    the same schedule. *)
Theorem create_job_schedule_reads_a_set (l1 l2 : list string) (time : option string) :
  (forall day, In day l1 <-> In day l2) ->
  OMEVVBaselineProfile.create_job_schedule (Some l1) time
  = OMEVVBaselineProfile.create_job_schedule (Some l2) time.
Proof.
  intros Hsame.
  assert (Hsel : forall day, OMEVVBaselineProfile.selected day l1
                             = OMEVVBaselineProfile.selected day l2).
  { intros day. destruct (OMEVVBaselineProfile.selected day l2) eqn:H2.
    - apply selected_In. apply Hsame. now apply selected_In.
    - apply selected_not_In. intros H1. apply selected_not_In in H2.
      apply H2. now apply Hsame. }
  unfold OMEVVBaselineProfile.create_job_schedule. rewrite !Hsel.
  destruct l1 as [| a l1], l2 as [| b l2]; try reflexivity.
  - exfalso. destruct (Hsame b) as [_ H]. exact (H (or_introl eq_refl)).
  - exfalso. destruct (Hsame a) as [H _]. exact (H (or_introl eq_refl)).
Qed.

Lemma create_job_schedule_reads_a_set_witness :
  OMEVVBaselineProfile.create_job_schedule (Some ["friday"; "monday"; "friday"])
    (Some "20:00")
  = OMEVVBaselineProfile.create_job_schedule (Some ["monday"; "friday"]) (Some "20:00").
Proof.
  apply create_job_schedule_reads_a_set. intros day. cbn. tauto.
Defined.

(** ** Submitting and waiting *)

(** X17: a submission the backend does not accept ends the method at once:
    on a response that is not flagged successful both [perform_...] methods
    leave with failed=true and their failure message, and on an exception of
    the REST client they raise it; either way the submission is the only
    request, and the message about missing parameters is never reported. *)
Theorem rejected_submission_is_final (e : env) (module : AnsibleModule) (fuel : nat)
    (tr : list event) :
  let vcenter := of_option (vcenter_uuid (params module)) in
  (forall (payload : dict) (data : json),
      omevv e tr "POST" (BASELINE_PROFILE_URI vcenter) (Some (JDict payload))
      = Returns (Response false data) ->
      CreateBaselineProfile.perform_create_baseline_profile fuel module (JDict payload)
        e tr
      = (Exit [("msg", JStr FAILED_CREATION_MSG); ("failed", JBool true)],
         (tr ++ [Invoke "POST" (BASELINE_PROFILE_URI vcenter) (Some (JDict payload))])%list))
  /\
  (forall (payload : dict) (err : exn),
      omevv e tr "POST" (BASELINE_PROFILE_URI vcenter) (Some (JDict payload))
      = Raises err ->
      CreateBaselineProfile.perform_create_baseline_profile fuel module (JDict payload)
        e tr
      = (Raise err,
         (tr ++ [Invoke "POST" (BASELINE_PROFILE_URI vcenter) (Some (JDict payload))])%list))
  /\
  (forall (existing_profile profile_id payload diff data : json),
      py_get existing_profile "id" = Ret profile_id ->
      omevv e tr "PATCH" (profile_uri vcenter profile_id) (Some payload)
      = Returns (Response false data) ->
      ModifyBaselineProfile.perform_modify_baseline_profile fuel module existing_profile
        payload diff e tr
      = (Exit [("msg", JStr FAILED_MODIFY_MSG); ("failed", JBool true)],
         (tr ++ [Invoke "PATCH" (profile_uri vcenter profile_id) (Some payload)])%list))
  /\
  (forall (existing_profile profile_id payload diff : json) (err : exn),
      py_get existing_profile "id" = Ret profile_id ->
      omevv e tr "PATCH" (profile_uri vcenter profile_id) (Some payload) = Raises err ->
      ModifyBaselineProfile.perform_modify_baseline_profile fuel module existing_profile
        payload diff e tr
      = (Raise err,
         (tr ++ [Invoke "PATCH" (profile_uri vcenter profile_id) (Some payload)])%list)).
Proof.
  intros vcenter.
  assert (Hcreate : forall (payload : dict) (r : reply),
             omevv e tr "POST" (BASELINE_PROFILE_URI vcenter) (Some (JDict payload)) = r ->
             match r with Returns (Response true _) => False | _ => True end ->
             CreateBaselineProfile.perform_create_baseline_profile fuel module
               (JDict payload) e tr
             = (match r with
                | Raises err => Raise err
                | _ => Exit [("msg", JStr FAILED_CREATION_MSG); ("failed", JBool true)]
                end,
                (tr ++ [Invoke "POST" (BASELINE_PROFILE_URI vcenter)
                          (Some (JDict payload))])%list)).
  { intros payload r Hpost Hr.
    unfold CreateBaselineProfile.perform_create_baseline_profile, py_get,
      py_get_default.
    rewrite bind_run; unfold lift at 1; destruct (dict_get "name" payload);
      (rewrite bind_run; unfold lift at 1; destruct (dict_get "firmwareRepoId" payload));
      (rewrite bind_run; unfold lift at 1; destruct (dict_get "groupIds" payload));
      rewrite bind_run; unfold OMEVVBaselineProfile.create_baseline_profile;
      rewrite bind_run; unfold invoke_request; fold vcenter; rewrite Hpost;
      destruct r as [[[|] data] | err]; try contradiction; reflexivity. }
  assert (Hmodify : forall (existing_profile profile_id payload diff : json) (r : reply),
             py_get existing_profile "id" = Ret profile_id ->
             omevv e tr "PATCH" (profile_uri vcenter profile_id) (Some payload) = r ->
             match r with Returns (Response true _) => False | _ => True end ->
             ModifyBaselineProfile.perform_modify_baseline_profile fuel module
               existing_profile payload diff e tr
             = (match r with
                | Raises err => Raise err
                | _ => Exit [("msg", JStr FAILED_MODIFY_MSG); ("failed", JBool true)]
                end,
                (tr ++ [Invoke "PATCH" (profile_uri vcenter profile_id)
                          (Some payload)])%list)).
  { intros existing_profile profile_id payload diff r Hid Hpatch Hr.
    unfold ModifyBaselineProfile.perform_modify_baseline_profile.
    rewrite bind_run. unfold lift at 1. rewrite Hid.
    rewrite bind_run. unfold OMEVVBaselineProfile.modify_baseline_profile.
    rewrite bind_run. unfold invoke_request. fold vcenter.
    unfold profile_uri in Hpatch. rewrite Hpatch.
    destruct r as [[[|] data] | err]; try contradiction; reflexivity. }
  repeat split.
  - intros payload data Hpost. exact (Hcreate payload _ Hpost I).
  - intros payload err Hpost. exact (Hcreate payload _ Hpost I).
  - intros existing_profile profile_id payload diff data Hid Hpatch.
    exact (Hmodify existing_profile profile_id payload diff _ Hid Hpatch I).
  - intros existing_profile profile_id payload diff err Hid Hpatch.
    exact (Hmodify existing_profile profile_id payload diff _ Hid Hpatch I).
Qed.

Lemma rejected_submission_is_final_witness :
  CreateBaselineProfile.perform_create_baseline_profile 5
    (sample_module present false false) (JDict []) unsuccessful_env []
  = (Exit [("msg", JStr FAILED_CREATION_MSG); ("failed", JBool true)],
     [Invoke "POST" "/Consoles/vc-1/BaselineProfiles" (Some (JDict []))]) /\
  ModifyBaselineProfile.perform_modify_baseline_profile 5
    (sample_module present false false) sample_profile sample_modify_payload no_op_diff
    (failing_env (URLError "timed out")) []
  = (Raise (URLError "timed out"),
     [Invoke "PATCH" "/Consoles/vc-1/BaselineProfiles/1001" (Some sample_modify_payload)]).
Proof.
  destruct (rejected_submission_is_final unsuccessful_env
              (sample_module present false false) 5 []) as [Hcreate _].
  destruct (rejected_submission_is_final (failing_env (URLError "timed out"))
              (sample_module present false false) 5 []) as [_ [_ [_ Hmodify]]].
  split.
  - exact (Hcreate [] (JDict [("message", JStr "Service unavailable.")]) eq_refl).
  - exact (Hmodify sample_profile (JNum 1001) sample_modify_payload no_op_diff
             (URLError "timed out") eq_refl eq_refl).
Defined.

(** How the loop ends when a fetch fails or a snapshot has no status. *)
Lemma fetch_and_poll_fails (e : env) (uri : string) (waiting : list response)
    (last : reply) (err : exn) :
  forall (fuel : nat) (tr : list event),
    (List.length waiting <= fuel)%nat ->
    forallb still_running waiting = true ->
    fetches_then e uri tr waiting last ->
    last = Raises err \/ (exists r, last = Returns r /\ status_of r = Raise err) ->
    bind (invoke_request "GET" uri None)
      (poll_until_terminal fuel (invoke_request "GET" uri None)) e tr
    = (Raise err, (tr ++ poll_events uri (List.length waiting))%list).
Proof.
  induction waiting as [| w waiting IH]; intros fuel tr Hfuel Hwaiting Hfetch Hlast.
  - cbn in Hfetch. rewrite bind_run. unfold invoke_request at 1. rewrite Hfetch.
    destruct Hlast as [-> | [r [-> Hstatus]]]; [reflexivity |].
    unfold status_of in Hstatus.
    destruct fuel; cbn [poll_until_terminal]; rewrite bind_run; unfold lift at 1;
      rewrite Hstatus; reflexivity.
  - destruct Hfetch as [Hfetch Hrest]. cbn [forallb] in Hwaiting.
    apply andb_true_iff in Hwaiting. destruct Hwaiting as [Hw Hwaiting].
    destruct fuel as [| fuel]; [cbn in Hfuel; lia |].
    rewrite bind_run. unfold invoke_request at 1. rewrite Hfetch.
    rewrite (poll_until_terminal_waits _ _ _ _ _ Hw).
    rewrite (IH fuel _ ltac:(cbn in Hfuel; lia) Hwaiting Hrest Hlast).
    cbn [List.length poll_events]. rewrite <- !app_assoc. reflexivity.
Qed.

(** X18: the wait is not a retry.  When, after any number of snapshots that
    are still running, a fetch raises, or brings a snapshot that has no
    status to read, [perform_modify_baseline_profile] and
    [perform_create_baseline_profile] raise that error at once: no further
    fetch is made and no outcome is reported. *)
Theorem polling_stops_at_first_error (e : env) (module : AnsibleModule) (fuel : nat)
    (waiting : list response) (last : reply) (err : exn) (tr : list event) :
  let vcenter := of_option (vcenter_uuid (params module)) in
  (List.length waiting <= fuel)%nat ->
  forallb still_running waiting = true ->
  last = Raises err \/ (exists r, last = Returns r /\ status_of r = Raise err) ->
  (forall (payload : dict) (created : json),
      let uri := profile_uri vcenter created in
      let submit := Invoke "POST" (BASELINE_PROFILE_URI vcenter) (Some (JDict payload)) in
      omevv e tr "POST" (BASELINE_PROFILE_URI vcenter) (Some (JDict payload))
      = Returns (Response true created) ->
      fetches_then e uri (tr ++ [submit])%list waiting last ->
      CreateBaselineProfile.perform_create_baseline_profile fuel module (JDict payload)
        e tr
      = (Raise err, (tr ++ submit :: poll_events uri (List.length waiting))%list)) /\
  (forall (existing_profile payload diff profile_id data : json),
      let uri := profile_uri vcenter profile_id in
      let submit := Invoke "PATCH" uri (Some payload) in
      py_get existing_profile "id" = Ret profile_id ->
      omevv e tr "PATCH" uri (Some payload) = Returns (Response true data) ->
      fetches_then e uri (tr ++ [submit])%list waiting last ->
      ModifyBaselineProfile.perform_modify_baseline_profile fuel module existing_profile
        payload diff e tr
      = (Raise err, (tr ++ submit :: poll_events uri (List.length waiting))%list)).
Proof.
  intros vcenter Hfuel Hwaiting Hlast. split.
  - intros payload created uri submit Hpost Hfetch. subst submit.
    unfold CreateBaselineProfile.perform_create_baseline_profile, py_get,
      py_get_default.
    rewrite bind_run; unfold lift at 1; destruct (dict_get "name" payload);
      (rewrite bind_run; unfold lift at 1; destruct (dict_get "firmwareRepoId" payload));
      (rewrite bind_run; unfold lift at 1; destruct (dict_get "groupIds" payload));
      rewrite bind_run; unfold OMEVVBaselineProfile.create_baseline_profile;
      rewrite bind_run; unfold invoke_request at 1; fold vcenter; rewrite Hpost;
      cbn [ret M_Monad success json_data];
      unfold OMEVVBaselineProfile.get_baseline_profile_by_id;
      fold (profile_uri vcenter created); fold uri;
      rewrite <- bind_assoc; rewrite bind_run;
      rewrite (fetch_and_poll_fails e uri waiting last err fuel _ Hfuel Hwaiting Hfetch
                 Hlast);
      rewrite <- app_assoc; reflexivity.
  - intros existing_profile payload diff profile_id data uri submit Hid Hpatch Hfetch.
    subst submit.
    unfold ModifyBaselineProfile.perform_modify_baseline_profile.
    rewrite bind_run. unfold lift at 1. rewrite Hid.
    rewrite bind_run. unfold OMEVVBaselineProfile.modify_baseline_profile.
    rewrite bind_run. unfold invoke_request at 1.
    fold vcenter. fold (profile_uri vcenter profile_id). fold uri.
    rewrite Hpatch. cbn [ret M_Monad success].
    unfold OMEVVBaselineProfile.get_baseline_profile_by_id.
    fold (profile_uri vcenter profile_id). fold uri.
    rewrite <- bind_assoc. rewrite bind_run.
    rewrite (fetch_and_poll_fails e uri waiting last err fuel _ Hfuel Hwaiting Hfetch
               Hlast).
    rewrite <- app_assoc. reflexivity.
Qed.

Lemma polling_stops_at_first_error_witness :
  ModifyBaselineProfile.perform_modify_baseline_profile 5
    (sample_module present false false) sample_profile sample_modify_payload no_op_diff
    failing_poll_env []
  = (Raise (URLError "timed out"),
     [Invoke "PATCH" "/Consoles/vc-1/BaselineProfiles/1001" (Some sample_modify_payload);
      Invoke "GET" "/Consoles/vc-1/BaselineProfiles/1001" None;
      Sleep 3;
      Invoke "GET" "/Consoles/vc-1/BaselineProfiles/1001" None]).
Proof.
  destruct (polling_stops_at_first_error failing_poll_env
              (sample_module present false false) 5 [snapshot "PENDING"]
              (Raises (URLError "timed out")) (URLError "timed out") []
              ltac:(cbn; lia) eq_refl (or_introl eq_refl)) as [_ Hmodify].
  refine (Hmodify sample_profile sample_modify_payload no_op_diff (JNum 1001) JNull
            eq_refl eq_refl _).
  cbn. repeat split.
Defined.

(** ** Deleting *)

Lemma delete_diff_reads_five_keys_aux (module : AnsibleModule) (profile : dict) :
  DeleteBaselineProfile.diff_mode_check module (JDict profile)
  = match first_missing_key profile with
    | Some key => Raise (KeyError key)
    | None =>
        Ret (if _diff module
             then JDict [("before", JDict (delete_projection profile));
                         ("after", JDict [])]
             else JDict [])
    end.
Proof.
  unfold DeleteBaselineProfile.diff_mode_check, first_missing_key, delete_projection,
    delete_diff_keys, dict_has, py_getitem.
  cbn [find map].
  destruct (dict_get "name" profile); [| reflexivity].
  destruct (dict_get "description" profile); [| reflexivity].
  destruct (dict_get "firmwareRepoId" profile); [| reflexivity].
  destruct (dict_get "firmwareRepoName" profile); [| reflexivity].
  destruct (dict_get "clusterGroups" profile); [| reflexivity].
  destruct (_diff module); reflexivity.
Qed.

(** X19: [diff_mode_check] of the delete path reads all five keys of the
    profile before it looks at the diff flag: a profile that lacks one of
    them raises [KeyError] for the first one missing, with diff mode on or
    off; a profile that has them all gives the projection on the five keys as
    [before] and an empty [after] with diff mode on, and the empty dict with
    diff mode off. *)
Theorem delete_diff_reads_five_keys (module : AnsibleModule) (profile : dict) :
  DeleteBaselineProfile.diff_mode_check module (JDict profile)
  = match first_missing_key profile with
    | Some key => Raise (KeyError key)
    | None =>
        Ret (if _diff module
             then JDict [("before", JDict (delete_projection profile));
                         ("after", JDict [])]
             else JDict [])
    end.
Proof. apply delete_diff_reads_five_keys_aux. Qed.

(** X20: [perform_delete_baseline_profile] on a profile that has the five
    keys and an [id] sends exactly one DELETE, to the address of the profile,
    and reads the outcome off that one response: changed=true and the success
    message when it is flagged successful (with the diff only in diff mode),
    failed=true and the failure message when it is not, and the exception
    itself when the REST client raises.  A profile that lacks one of the five
    keys, or the [id], raises [KeyError] and nothing is sent. *)
Theorem perform_delete_is_one_request (e : env) (module : AnsibleModule)
    (tr : list event) (profile : dict) :
  let vcenter := of_option (vcenter_uuid (params module)) in
  (forall key,
      first_missing_key profile = Some key ->
      DeleteBaselineProfile.perform_delete_baseline_profile module (JDict profile) e tr
      = (Raise (KeyError key), tr)) /\
  (first_missing_key profile = None ->
   dict_get "id" profile = None ->
   DeleteBaselineProfile.perform_delete_baseline_profile module (JDict profile) e tr
   = (Raise (KeyError "id"), tr)) /\
  (forall profile_id,
      first_missing_key profile = None ->
      dict_get "id" profile = Some profile_id ->
      DeleteBaselineProfile.perform_delete_baseline_profile module (JDict profile) e tr
      = (match omevv e tr "DELETE" (profile_uri vcenter profile_id) None with
         | Returns (Response true _) =>
             Exit (if _diff module
                   then [("msg", JStr SUCCESS_DELETION_MSG);
                         ("baseline_profile_info", JDict []);
                         ("diff", JDict [("before", JDict (delete_projection profile));
                                         ("after", JDict [])]);
                         ("changed", JBool true)]
                   else [("msg", JStr SUCCESS_DELETION_MSG);
                         ("baseline_profile_info", JDict []);
                         ("changed", JBool true)])
         | Returns (Response false _) =>
             Exit [("msg", JStr FAILED_DELETION_MSG); ("failed", JBool true)]
         | Raises err => Raise err
         end,
         (tr ++ [Invoke "DELETE" (profile_uri vcenter profile_id) None])%list)).
Proof.
  intros vcenter.
  unfold DeleteBaselineProfile.perform_delete_baseline_profile.
  split; [| split].
  - intros key Hmissing. rewrite bind_run. unfold lift at 1.
    rewrite delete_diff_reads_five_keys_aux, Hmissing. reflexivity.
  - intros Hmissing Hid. rewrite bind_run. unfold lift at 1.
    rewrite delete_diff_reads_five_keys_aux, Hmissing.
    rewrite bind_run. unfold lift at 1, py_getitem. rewrite Hid. reflexivity.
  - intros profile_id Hmissing Hid. rewrite bind_run. unfold lift at 1.
    rewrite delete_diff_reads_five_keys_aux, Hmissing.
    rewrite bind_run. unfold lift at 1, py_getitem. rewrite Hid.
    rewrite bind_run. unfold OMEVVBaselineProfile.delete_baseline_profile,
      invoke_request. fold vcenter. fold (profile_uri vcenter profile_id).
    destruct (omevv e tr "DELETE" (profile_uri vcenter profile_id) None)
      as [[[|] data] | err]; try reflexivity.
    cbn [success]. destruct (_diff module); reflexivity.
Qed.

Lemma perform_delete_is_one_request_witness :
  DeleteBaselineProfile.perform_delete_baseline_profile (sample_module absent false false)
    (JDict sample_profile_without_description) (sample_env []) []
  = (Raise (KeyError "description"), []) /\
  DeleteBaselineProfile.perform_delete_baseline_profile (sample_module absent false false)
    (JDict sample_profile_with_description) unsuccessful_env []
  = (Exit [("msg", JStr FAILED_DELETION_MSG); ("failed", JBool true)],
     [Invoke "DELETE" "/Consoles/vc-1/BaselineProfiles/1001" None]).
Proof.
  split.
  - exact (proj1 (perform_delete_is_one_request (sample_env [])
                    (sample_module absent false false) []
                    sample_profile_without_description) "description" eq_refl).
  - exact (proj2 (proj2 (perform_delete_is_one_request unsuccessful_env
                           (sample_module absent false false) []
                           sample_profile_with_description))
             (JNum 1001) eq_refl eq_refl).
Defined.

(** X21: a run with state=absent whose lookup finds a non-empty profile.  In
    check mode without diff it reports changed=true and the changes-found
    message.  In check mode with diff it reports the projection of the profile
    on the five keys as [before], unless the profile lacks one of them, which
    the last [except] clause turns into failed=true with the quoted key as
    message.  Out of check mode it is failed=true with the message of the
    [AttributeError].  The requests of the lookup are all the run sends. *)
Theorem delete_existing_outcomes (e : env) (module : AnsibleModule) (profile : dict)
    (tr1 : list event) :
  state (params module) = absent ->
  OMEVVBaselineProfile.get_baseline_profile_by_name (JStr (name (params module)))
    (of_option (vcenter_uuid (params module))) e []
  = (Ret (JDict profile), tr1) ->
  profile <> [] ->
  run e module
  = (Exit
       (if check_mode module
        then
          if _diff module
          then
            match first_missing_key profile with
            | Some key => [("msg", JStr ("'" ++ key ++ "'")); ("failed", JBool true)]
            | None =>
                [("msg", JStr CHANGES_FOUND_MSG);
                 ("diff", JDict [("before", JDict (delete_projection profile));
                                 ("after", JDict [])]);
                 ("changed", JBool true)]
            end
          else [("msg", JStr CHANGES_FOUND_MSG); ("changed", JBool true)]
        else [("msg", JStr no_delete_method_message); ("failed", JBool true)]),
     tr1).
Proof.
  intros Hstate Hlookup Hfound.
  unfold run, main, main_try, DeleteBaselineProfile.execute.
  rewrite Hstate, bind_run, Hlookup.
  assert (Htruthy : truthy (JDict profile) = true)
    by (destruct profile; [contradiction | reflexivity]).
  rewrite Htruthy.
  destruct (check_mode module), (_diff module) eqn:Hdiff; cbn [andb negb when].
  - rewrite !bind_run. unfold lift at 1.
    rewrite delete_diff_reads_five_keys_aux, Hdiff.
    destruct (first_missing_key profile) as [key |]; reflexivity.
  - reflexivity.
  - reflexivity.
  - reflexivity.
Qed.

Lemma delete_existing_outcomes_witness :
  run (sample_env [JDict sample_profile_without_description])
    (sample_module absent true true)
  = (Exit [("msg", JStr "'description'"); ("failed", JBool true)],
     [Invoke "GET" "/Consoles/vc-1/BaselineProfiles" None]).
Proof.
  exact (delete_existing_outcomes
           (sample_env [JDict sample_profile_without_description])
           (sample_module absent true true)
           sample_profile_without_description
           [Invoke "GET" "/Consoles/vc-1/BaselineProfiles" None]
           eq_refl eq_refl
           (fun H => match H in _ = l return match l with [] => False | _ => True end
                     with eq_refl => I end)).
Defined.

(** ** How a run ends *)

(** X22: an exception raised inside the [except HTTPError] clause is not
    caught by the clauses after it.  For an HTTP error of a status other than
    500 whose body parses to a dict with [None], a boolean or a number as (or
    no) [errorCode], the test ['18001' in code] raises [TypeError]; the run
    ends with that exception and never reaches [exit_json].  A body that
    parses to something other than a dict ends the run with the
    [AttributeError] of [error_info.get]. *)
Theorem http_error_without_code_escapes (e : env) (module : AnsibleModule) (status : Z)
    (body : json) (tr : list event) :
  main_try module e [] = (Raise (HTTPError status (JSONText body)), tr) ->
  status <> 500%Z ->
  (forall code,
      py_get body "errorCode" = Ret code ->
      not_a_container code = true ->
      run e module
      = (Raise (TypeError ("argument of type '" ++ type_name code
                           ++ "' is not iterable")), tr)) /\
  ((forall d, body <> JDict d) ->
   run e module
   = (Raise (AttributeError ("'" ++ type_name body ++ "' object has no attribute 'get'")),
      tr)).
Proof.
  intros Htry Hstatus. apply Z.eqb_neq in Hstatus.
  unfold run, main. rewrite Htry. unfold except_HTTPError.
  rewrite bind_run, Hstatus. cbn [when ret M_Monad].
  rewrite bind_run. unfold lift at 1. cbn [json_load].
  rewrite bind_run. unfold lift at 1. split.
  - intros code Hcode Hscalar. rewrite Hcode.
    destruct body as [| b | n | s | l | d]; try discriminate Hcode.
    rewrite bind_run. unfold lift at 1, py_get, py_get_default.
    destruct (dict_get "message" d);
      destruct code; try discriminate Hscalar; reflexivity.
  - intros Hbody. destruct body as [| b | n | s | l | d]; try reflexivity.
    now destruct (Hbody d).
Qed.

Lemma http_error_without_code_escapes_witness :
  run (failing_env (HTTPError 404 (JSONText sample_not_found)))
    (sample_module absent true false)
  = (Raise (TypeError "argument of type 'NoneType' is not iterable"),
     [Invoke "GET" "/Consoles/vc-1/BaselineProfiles" None]).
Proof.
  refine (proj1 (http_error_without_code_escapes
                   (failing_env (HTTPError 404 (JSONText sample_not_found)))
                   (sample_module absent true false) 404%Z sample_not_found
                   [Invoke "GET" "/Consoles/vc-1/BaselineProfiles" None]
                   eq_refl _)
            JNull eq_refl eq_refl).
  discriminate.
Defined.

Lemma first_with_settled (key : string) (value : json) (data : list json) :
  settled (first_with key value data) = true.
Proof.
  induction data as [| d r IH]; [reflexivity |].
  cbn [first_with]. unfold py_get, py_get_default.
  destruct d as [| b | n | s | l | d]; try reflexivity.
  destruct (dict_get key d) as [v |]; cbn [bind result_Monad].
  - destruct (py_eq v value); [reflexivity | exact IH].
  - destruct (py_eq JNull value); [reflexivity | exact IH].
Qed.

Lemma get_baseline_profile_by_name_settled (profile_name vcenter_uuid : json) (e : env)
    (tr : list event) :
  settled (fst (OMEVVBaselineProfile.get_baseline_profile_by_name profile_name
                  vcenter_uuid e tr)) = true.
Proof.
  unfold OMEVVBaselineProfile.get_baseline_profile_by_name,
    OMEVVBaselineProfile.get_baseline_profiles.
  rewrite !bind_run. unfold invoke_request.
  destruct (omevv e tr "GET" (BASELINE_PROFILE_URI vcenter_uuid) None)
    as [[ok data] | err]; [| reflexivity].
  cbn [success json_data].
  destruct ok; cbn; [| reflexivity].
  destruct data as [| b | n | s | l | d]; cbn; try reflexivity;
    apply first_with_settled.
Qed.

Lemma validate_common_params_leaves (module : AnsibleModule) (e : env)
    (tr : list event) :
  validate_job_wait e module <> OutOfFuel ->
  validate_time e (of_option (time (params module))) module <> OutOfFuel ->
  leaves (fst (BaselineProfile.validate_common_params module e tr)) = true.
Proof.
  intros Hwait Htime.
  unfold BaselineProfile.validate_common_params, call_validate_job_wait,
    call_validate_time.
  cbn.
  destruct (validate_job_wait e module) as [resp | x | kw |]; cbn;
    try reflexivity; try contradiction.
  destruct (truthy resp); cbn; try reflexivity.
  destruct (validate_time e _ module) as [[] | x | kw |]; cbn;
    try reflexivity; contradiction.
Qed.

Lemma except_HTTPError_leaves (module : AnsibleModule) (err_code : Z) (err : http_body)
    (e : env) (tr : list event) :
  leaves (fst (except_HTTPError module err_code err e tr)) = true.
Proof.
  unfold except_HTTPError. rewrite bind_run.
  destruct err as [body | message];
    (destruct (Z.eqb err_code 500); [reflexivity |]); [| reflexivity].
  cbn [when ret M_Monad].
  rewrite bind_run. unfold lift at 1. cbn [json_load].
  rewrite bind_run. unfold lift at 1, py_get, py_get_default.
  destruct body as [| b | n | s | l | d]; try reflexivity.
  destruct (dict_get "errorCode" d) as [code |];
    rewrite bind_run; unfold lift at 1;
    destruct (dict_get "message" d) as [message |];
    rewrite bind_run; unfold lift at 1.
  1, 2: destruct code as [| b | n | s | l | d']; cbn; try reflexivity.
  all: try (destruct (is_substring "18001" s && check_mode module); cbn;
            [reflexivity |];
            destruct (is_substring "500" s); reflexivity).
  all: try (destruct (mem (JStr "18001") l && check_mode module); cbn;
            [reflexivity |];
            destruct (mem (JStr "500") l); reflexivity).
  all: try (destruct (dict_has "18001" d' && check_mode module); cbn;
            [reflexivity |];
            destruct (dict_has "500" d'); reflexivity).
  all: reflexivity.
Qed.

(** X23: a run never falls off the end of [main].  When the two validators
    the module imports come back (with a value, an exception or an exit), the
    run ends in [exit_json] or in an exception, whatever the REST client
    answers and whatever the task asks for. *)
Theorem run_leaves_or_raises (e : env) (module : AnsibleModule) :
  validate_job_wait e module <> OutOfFuel ->
  validate_time e (of_option (time (params module))) module <> OutOfFuel ->
  (exists kwargs, fst (run e module) = Exit kwargs) \/
  (exists err, fst (run e module) = Raise err).
Proof.
  intros Hwait Htime.
  assert (Hleaves : leaves (fst (run e module)) = true).
  { unfold run, main.
    assert (Htry : leaves (fst (main_try module e [])) = true).
    { unfold main_try. destruct (state (params module)).
      - rewrite bind_run.
        pose proof (get_baseline_profile_by_name_settled
                      (JStr (name (params module)))
                      (of_option (vcenter_uuid (params module))) e []) as Hlookup.
        destruct (OMEVVBaselineProfile.get_baseline_profile_by_name _ _ e [])
          as [[existing | x | kw |] tr1]; try discriminate Hlookup; [| reflexivity].
        pose proof (validate_common_params_leaves module e tr1 Hwait Htime) as Hstop.
        destruct (truthy existing);
          [unfold ModifyBaselineProfile.execute
          | unfold CreateBaselineProfile.execute];
          rewrite bind_run;
          destruct (BaselineProfile.validate_common_params module e tr1)
            as [[[] | x | kw |] tr2]; try discriminate Hstop; reflexivity.
      - unfold DeleteBaselineProfile.execute. rewrite bind_run.
        pose proof (get_baseline_profile_by_name_settled
                      (JStr (name (params module)))
                      (of_option (vcenter_uuid (params module))) e []) as Hlookup.
        destruct (OMEVVBaselineProfile.get_baseline_profile_by_name _ _ e [])
          as [[existing | x | kw |] tr1]; try discriminate Hlookup; [| reflexivity].
        destruct (truthy existing), (check_mode module), (_diff module);
          cbn [andb negb when]; try reflexivity.
        rewrite !bind_run. unfold lift at 1.
        destruct (DeleteBaselineProfile.diff_mode_check _ existing)
          as [diff | x | kw |] eqn:Hdiff; try reflexivity.
        exfalso. revert Hdiff. unfold DeleteBaselineProfile.diff_mode_check, py_getitem.
        destruct existing as [| b | n | s | l | d]; try discriminate.
        cbn.
        destruct (dict_get "name" d); [| discriminate].
        destruct (dict_get "description" d); [| discriminate].
        destruct (dict_get "firmwareRepoId" d); [| discriminate].
        destruct (dict_get "firmwareRepoName" d); [| discriminate].
        destruct (dict_get "clusterGroups" d); [| discriminate].
        destruct (_diff module); discriminate. }
    destruct (main_try module e []) as [[[] | x | kw |] tr]; try discriminate Htry;
      [| reflexivity].
    destruct x; try reflexivity.
    apply except_HTTPError_leaves. }
  destruct (fst (run e module)) as [[] | x | kw |]; try discriminate Hleaves.
  - right. now exists x.
  - left. now exists kw.
Qed.

Lemma run_leaves_or_raises_witness :
  (exists kwargs,
      fst (run (sample_env [sample_profile]) (sample_module present false false))
      = Exit kwargs) \/
  (exists err,
      fst (run (sample_env [sample_profile]) (sample_module present false false))
      = Raise err).
Proof.
  apply (run_leaves_or_raises (sample_env [sample_profile])
           (sample_module present false false)); discriminate.
Defined.

(** ** What the lookups send *)

(** X24: [get_cluster_groups] passes [cluster_name] as a keyword to
    [get_group_ids_for_clusters], whose parameter is [cluster_names].  For an
    empty list of names the loop does not run and the result is the empty
    list; for any other list the first call raises [TypeError] when its
    arguments are bound.  Nothing is sent in either case. *)
Theorem get_cluster_groups_rejects_its_keyword (module : AnsibleModule)
    (cluster_names : list json) (e : env) (tr : list event) :
  CreateBaselineProfile.get_cluster_groups module (JList cluster_names) e tr
  = (match cluster_names with
     | [] => Ret []
     | _ :: _ =>
         Raise (TypeError
                  "OMEVVBaselineProfile.get_group_ids_for_clusters() got an unexpected keyword argument 'cluster_name'")
     end, tr).
Proof. destruct cluster_names; reflexivity. Qed.

Lemma is_substring_refl (t : string) : is_substring t t = true.
Proof.
  assert (Hprefix : String.prefix t t = true).
  { induction t as [| c t IH]; [reflexivity |].
    cbn. destruct (Ascii.ascii_dec c c); [exact IH | contradiction]. }
  destruct t; cbn in *; [reflexivity | now rewrite Hprefix].
Qed.

Lemma is_substring_append (t a s : string) :
  is_substring t s = true -> is_substring t (a ++ s) = true.
Proof.
  intros Hs. induction a as [| c a IH]; [exact Hs |].
  cbn [append is_substring]. rewrite IH. now destruct (String.prefix t _).
Qed.

Lemma resolving_group_translation (vcenter_uuid : json) (data : option json) :
  resolving (Invoke "POST" (CLUSTER_IDS_URI vcenter_uuid) data) = true.
Proof.
  unfold resolving, CLUSTER_IDS_URI.
  rewrite (is_substring_append _ "/Consoles/");
    [reflexivity | apply is_substring_append, is_substring_refl].
Qed.

Lemma is_get_resolving (ev : event) : is_get ev = true -> resolving ev = true.
Proof. destruct ev; cbn; [| discriminate]. now intros ->. Qed.

Lemma sends_only_weaken (P Q : event -> bool) {A} (c : M A) :
  (forall ev, P ev = true -> Q ev = true) -> sends_only P c -> sends_only Q c.
Proof.
  intros HPQ Hc e tr. destruct (Hc e tr) as [l [Hl HP]]. exists l. split; [exact Hl |].
  rewrite forallb_forall in *. auto.
Qed.

Lemma get_cluster_id_gets (cluster_names vcenter_uuid : json) :
  sends_only is_get (OMEVVBaselineProfile.get_cluster_id cluster_names vcenter_uuid).
Proof. unfold OMEVVBaselineProfile.get_cluster_id. reads_only. Qed.

Lemma get_group_ids_for_clusters_resolves (vcenter_uuid cluster_names : json) :
  sends_only resolving
    (OMEVVBaselineProfile.get_group_ids_for_clusters vcenter_uuid cluster_names).
Proof.
  unfold OMEVVBaselineProfile.get_group_ids_for_clusters.
  apply sends_only_bind; [apply sends_only_invoke_request; reflexivity | intros resp].
  apply sends_only_bind; [apply silent_sends_only; silence | intros ids].
  destruct ids; [apply silent_sends_only; silence |].
  apply sends_only_bind;
    [apply sends_only_invoke_request, resolving_group_translation | intros group_resp].
  apply silent_sends_only; silence.
Qed.

Lemma get_repo_id_by_name_gets (repository_profile : json) :
  sends_only is_get (OMEVVBaselineProfile.get_repo_id_by_name repository_profile).
Proof.
  unfold OMEVVBaselineProfile.get_repo_id_by_name,
    OMEVVFirmwareProfile.get_firmware_repository_profile.
  reads_only.
Qed.

Lemma get_add_remove_group_ids_resolves (existing_profile vcenter_uuid cluster_names : json) :
  sends_only resolving
    (OMEVVBaselineProfile.get_add_remove_group_ids existing_profile vcenter_uuid
       cluster_names).
Proof.
  unfold OMEVVBaselineProfile.get_add_remove_group_ids.
  apply sends_only_bind; [apply silent_sends_only; silence | intros current].
  apply sends_only_bind; [apply get_group_ids_for_clusters_resolves | intros fetched].
  apply silent_sends_only; silence.
Qed.

(** X25: the lookups of [OMEVVBaselineProfile] change nothing on the backend,
    whatever it answers.  The two validators, [get_cluster_id],
    [get_repo_id_by_name], [get_baseline_profile_by_name],
    [get_baseline_profile_by_id] and [get_current_job_schedule] send GET
    requests only; [get_group_ids_for_clusters] and
    [get_add_remove_group_ids] send, besides GET requests, only the POST that
    translates cluster ids to group ids. *)
Theorem lookups_only_read (module : AnsibleModule)
    (a b c : json) :
  sends_only is_get (OMEVVBaselineProfile.validate_repository_profile a module) /\
  sends_only is_get (OMEVVBaselineProfile.validate_cluster_names a b) /\
  sends_only is_get (OMEVVBaselineProfile.get_cluster_id a b) /\
  sends_only is_get (OMEVVBaselineProfile.get_repo_id_by_name a) /\
  sends_only is_get (OMEVVBaselineProfile.get_baseline_profile_by_name a b) /\
  sends_only is_get (OMEVVBaselineProfile.get_baseline_profile_by_id a b) /\
  sends_only is_get (OMEVVBaselineProfile.get_current_job_schedule a b) /\
  sends_only resolving (OMEVVBaselineProfile.get_group_ids_for_clusters a b) /\
  sends_only resolving (OMEVVBaselineProfile.get_add_remove_group_ids a b c).
Proof.
  repeat split.
  - unfold OMEVVBaselineProfile.validate_repository_profile,
      OMEVVFirmwareProfile.get_all_repository_profiles. reads_only.
  - unfold OMEVVBaselineProfile.validate_cluster_names,
      OMEVVBaselineProfile.get_all_clusters. reads_only.
  - apply get_cluster_id_gets.
  - apply get_repo_id_by_name_gets.
  - unfold OMEVVBaselineProfile.get_baseline_profile_by_name,
      OMEVVBaselineProfile.get_baseline_profiles. reads_only.
  - unfold OMEVVBaselineProfile.get_baseline_profile_by_id. reads_only.
  - unfold OMEVVBaselineProfile.get_current_job_schedule. reads_only.
  - apply get_group_ids_for_clusters_resolves.
  - apply get_add_remove_group_ids_resolves.
Qed.

Lemma never_returns_bind {A B} (c : M A) (k : A -> M B) :
  (forall a, never_returns (k a)) -> never_returns (bind c k).
Proof.
  intros Hk e tr b. rewrite bind_run.
  destruct (c e tr) as [[a | x | kw |] tr1]; cbn; try discriminate. apply Hk.
Qed.

Lemma never_returns_unbound {A} (c : class) (attr : string)
    (callee : hasattr c attr = true -> M A) :
  hasattr c attr = false -> never_returns (call_self_method c attr callee).
Proof.
  intros Hattr e tr a. unfold call_self_method.
  generalize (@eq_refl bool (hasattr c attr)).
  generalize (hasattr c attr) at 2 3.
  intros found. destruct found; intros bound; [congruence | discriminate].
Qed.

Lemma create_diff_mode_check_resolves (module : AnsibleModule) (payload : json) :
  sends_only resolving (CreateBaselineProfile.diff_mode_check module payload).
Proof.
  unfold CreateBaselineProfile.diff_mode_check.
  apply sends_only_bind;
    [apply (sends_only_weaken is_get), get_cluster_id_gets; apply is_get_resolving
    | intros cluster_ids].
  apply sends_only_bind; [apply get_group_ids_for_clusters_resolves | intros group_ids].
  apply silent_sends_only; silence.
Qed.

Lemma modify_diff_mode_check_resolves (module : AnsibleModule)
    (existing_profile payload : json) :
  sends_only resolving
    (ModifyBaselineProfile.diff_mode_check module existing_profile payload).
Proof.
  unfold ModifyBaselineProfile.diff_mode_check.
  apply sends_only_bind; [apply silent_sends_only; silence | intros _].
  apply sends_only_bind;
    [apply (sends_only_weaken is_get), get_cluster_id_gets; apply is_get_resolving
    | intros cluster_ids].
  apply sends_only_bind; [apply get_group_ids_for_clusters_resolves | intros group_ids].
  apply sends_only_bind; [apply silent_sends_only; silence | intros names].
  apply sends_only_bind; [apply silent_sends_only; silence | intros drift_job_id].
  apply sends_only_bind;
    [unfold OMEVVBaselineProfile.get_current_job_schedule;
     apply sends_only_invoke_request; reflexivity
    | intros old_job_schedule_resp].
  apply silent_sends_only; silence.
Qed.

(** X26: the statements of the two [execute] methods after
    [self.validate_common_params()] only look things up and then stop.
    Whatever the backend answers and whatever the task asks for, in check mode
    or out of it, they send GET requests and the POST that translates cluster
    ids to group ids, nothing else; and they never run to their end: they
    leave through [exit_json] or with an exception. *)
Theorem execute_bodies_read_and_stop (module : AnsibleModule) (existing_profile : json) :
  sends_only resolving (CreateBaselineProfile.execute_body module) /\
  never_returns (CreateBaselineProfile.execute_body module) /\
  sends_only resolving (ModifyBaselineProfile.execute_body module existing_profile) /\
  never_returns (ModifyBaselineProfile.execute_body module existing_profile).
Proof.
  split; [| split; [| split]].
  - unfold CreateBaselineProfile.execute_body.
    apply sends_only_bind;
      [apply (sends_only_weaken is_get), get_repo_id_by_name_gets;
       apply is_get_resolving
      | intros firmware_repo_id].
    apply sends_only_bind; [apply get_group_ids_for_clusters_resolves | intros group_ids].
    apply sends_only_bind.
    + apply sends_only_when.
      apply sends_only_bind; [apply create_diff_mode_check_resolves | intros diff].
      apply silent_sends_only; silence.
    + intros _. apply silent_sends_only; silence.
  - unfold CreateBaselineProfile.execute_body.
    repeat (apply never_returns_bind; intros ?).
    now apply never_returns_unbound.
  - unfold ModifyBaselineProfile.execute_body.
    apply sends_only_bind; [apply get_add_remove_group_ids_resolves | intros [add remove]].
    apply sends_only_bind;
      [apply (sends_only_weaken is_get), get_repo_id_by_name_gets;
       apply is_get_resolving
      | intros firmware_repo_id].
    apply sends_only_bind; [apply silent_sends_only; silence | intros _].
    apply sends_only_bind; [apply modify_diff_mode_check_resolves | intros diff].
    apply silent_sends_only; silence.
  - unfold ModifyBaselineProfile.execute_body.
    apply never_returns_bind. intros [add remove].
    repeat (apply never_returns_bind; intros ?).
    now apply never_returns_unbound.
Qed.

(** ** The diff of a dry run *)

Lemma dict_get_drop_none_skip (k k' : string) (v : json) (d : dict) :
  String.eqb k k' = false ->
  dict_get k (drop_none ((k', v) :: d)) = dict_get k (drop_none d).
Proof.
  intros Hk. unfold drop_none. cbn [filter snd].
  destruct v; try reflexivity; cbn [dict_get]; now rewrite Hk.
Qed.

Lemma drop_none_no_None (d : dict) :
  Forall (fun kv => snd kv <> JNull) (drop_none d).
Proof.
  apply Forall_forall. intros [k v] Hin. apply filter_In in Hin.
  destruct Hin as [_ Hv]. cbn in *. now destruct v.
Qed.

(** X27: the diff of a create pairs cluster names with cluster ids and group
    ids by position, the names in the order of the task and the ids in the
    order of the backend's answers.  For a task that names two clusters in
    the reverse of the order in which the backend lists them, each name is
    reported with the id and the group of the other cluster. *)
Theorem create_diff_pairs_by_position (e : env) (module : AnsibleModule)
    (tr : list event) (payload : dict) (name1 name2 : string) (id1 id2 g1 g2 : json) :
  let vcenter := of_option (vcenter_uuid (params module)) in
  cluster (params module) = Some [name2; name1] ->
  (forall tr',
      omevv e tr' "GET" (CLUSTER_URI vcenter) None
      = Returns (Response true
                   (JList [JDict [("entityId", id1); ("name", JStr name1)];
                           JDict [("entityId", id2); ("name", JStr name2)]]))) ->
  (forall tr',
      omevv e tr' "POST" (CLUSTER_IDS_URI vcenter)
        (Some (JDict [("clustIds", JList [id1; id2])]))
      = Returns (Response true (JList [JDict [("groupId", g1)];
                                       JDict [("groupId", g2)]]))) ->
  exists after,
    fst (CreateBaselineProfile.diff_mode_check module (JDict payload) e tr)
    = Ret (JDict [("before", JDict []); ("after", JDict after)]) /\
    dict_get "clusterGroups" after
    = Some (JList [JDict [("clusterID", id1);
                          ("clusterName", JStr name2);
                          ("omevv_groupID", g1)];
                   JDict [("clusterID", id2);
                          ("clusterName", JStr name1);
                          ("omevv_groupID", g2)]]).
Proof.
  intros vcenter Hcluster Hlisting Hgroups.
  unfold CreateBaselineProfile.diff_mode_check.
  fold vcenter. rewrite Hcluster.
  assert (Hids : forall tr',
             OMEVVBaselineProfile.get_cluster_id (of_names (Some [name2; name1]))
               vcenter e tr'
             = (Ret [id1; id2],
                (tr' ++ [Invoke "GET" (CLUSTER_URI vcenter) None])%list)).
  { intros tr'. unfold OMEVVBaselineProfile.get_cluster_id.
    rewrite bind_run. unfold invoke_request. rewrite Hlisting.
    cbn. rewrite !String.eqb_refl, !Bool.orb_true_r. reflexivity. }
  assert (Hgids : forall tr',
             OMEVVBaselineProfile.get_group_ids_for_clusters vcenter
               (of_names (Some [name2; name1])) e tr'
             = (Ret [g1; g2],
                ((tr' ++ [Invoke "GET" (CLUSTER_URI vcenter) None])
                   ++ [Invoke "POST" (CLUSTER_IDS_URI vcenter)
                         (Some (JDict [("clustIds", JList [id1; id2])]))])%list)).
  { intros tr'. unfold OMEVVBaselineProfile.get_group_ids_for_clusters.
    rewrite bind_run. unfold invoke_request. rewrite Hlisting.
    cbn. rewrite !String.eqb_refl, !Bool.orb_true_r. cbn.
    rewrite Hgroups. reflexivity. }
  rewrite bind_run, Hids, bind_run, Hgids.
  exists (drop_none
            [("name", match dict_get "name" payload with Some v => v | None => JNull end);
             ("firmwareRepoId",
              match dict_get "firmwareRepoId" payload with Some v => v | None => JNull end);
             ("firmwareRepoName", of_option (repository_profile (params module)));
             ("clusterGroups",
              cluster_groups_of [JStr name2; JStr name1] [id1; id2] [g1; g2]);
             ("description", of_option (description (params module)));
             ("jobSchedule",
              match dict_get "jobSchedule" payload with Some v => v | None => JNull end)]).
  split.
  - cbn. destruct (dict_get "name" payload), (dict_get "firmwareRepoId" payload),
      (dict_get "jobSchedule" payload); reflexivity.
  - rewrite !dict_get_drop_none_skip by reflexivity. reflexivity.
Qed.

Lemma create_diff_pairs_by_position_witness :
  exists after,
    fst (CreateBaselineProfile.diff_mode_check sample_module_two_clusters
           (JDict sample_create_payload) two_clusters_env [])
    = Ret (JDict [("before", JDict []); ("after", JDict after)]) /\
    dict_get "clusterGroups" after
    = Some (JList [JDict [("clusterID", JStr "domain-c1");
                          ("clusterName", JStr "cluster-2");
                          ("omevv_groupID", JNum 5)];
                   JDict [("clusterID", JStr "domain-c2");
                          ("clusterName", JStr "cluster-1");
                          ("omevv_groupID", JNum 6)]]).
Proof.
  exact (create_diff_pairs_by_position two_clusters_env sample_module_two_clusters []
           sample_create_payload "cluster-1" "cluster-2"
           (JStr "domain-c1") (JStr "domain-c2") (JNum 5) (JNum 6)
           eq_refl (fun _ => eq_refl) (fun _ => eq_refl)).
Defined.

Lemma ret_Ret_inv {A} (a b : A) (e : env) (tr tr' : list event) :
  (ret a : M A) e tr = (Ret b, tr') -> a = b.
Proof. intros H. inversion H. reflexivity. Qed.

(** X28: what [diff_mode_check] of the modify path can return.  It is either
    the empty diff, or a diff whose [after] holds the name of the task and is
    therefore not empty, and neither side of which holds a [None].  So the
    test of [execute] for a diff that is empty on both sides succeeds exactly
    on the empty diff. *)
Theorem modify_diff_is_empty_or_names_the_profile (e : env) (module : AnsibleModule)
    (existing_profile payload : json) (tr : list event) (diff : json) :
  fst (ModifyBaselineProfile.diff_mode_check module existing_profile payload e tr)
  = Ret diff ->
  diff = no_op_diff \/
  exists before after,
    diff = JDict [("before", JDict before); ("after", JDict after)] /\
    dict_get "name" after = Some (JStr (name (params module))) /\
    truthy (JDict after) = true /\
    Forall (fun kv => snd kv <> JNull) before /\
    Forall (fun kv => snd kv <> JNull) after.
Proof.
  intros Hdiff.
  destruct (ModifyBaselineProfile.diff_mode_check module existing_profile payload e tr)
    as [r tr'] eqn:H.
  cbn in Hdiff. subst r.
  unfold ModifyBaselineProfile.diff_mode_check in H.
  repeat (apply bind_Ret_inv in H; destruct H as (? & ? & _ & H)).
  match type of H with
  | (if ?b then _ else _) _ _ = _ => destruct b
  end; apply ret_Ret_inv in H; subst diff; [now left | right].
  eexists _, _. split; [reflexivity |].
  split; [reflexivity |]. split; [reflexivity |].
  split; apply drop_none_no_None.
Qed.

Lemma modify_diff_is_empty_or_names_the_profile_witness :
  no_op_diff = no_op_diff \/
  exists before after,
    no_op_diff = JDict [("before", JDict before); ("after", JDict after)] /\
    dict_get "name" after = Some (JStr (name (params (sample_module present true true)))) /\
    truthy (JDict after) = true /\
    Forall (fun kv => snd kv <> JNull) before /\
    Forall (fun kv => snd kv <> JNull) after.
Proof.
  exact (modify_diff_is_empty_or_names_the_profile (sample_env [sample_profile])
           (sample_module present true true) sample_profile sample_modify_payload []
           no_op_diff eq_refl).
Defined.

(** X29: [perform_create_baseline_profile] computes the diff after the wait,
    with diff mode on or off, and before it looks at the final status.  When
    that computation raises, the method raises the same error and reports no
    outcome, although the profile has been submitted and has reached its
    final status, be it SUCCESSFUL or FAILED. *)
Theorem create_outcome_needs_the_diff (e : env) (module : AnsibleModule) (fuel : nat)
    (waiting : list response) (final : response) (tr tr' : list event)
    (payload : dict) (created status : json) (err : exn) :
  let vcenter := of_option (vcenter_uuid (params module)) in
  let uri := profile_uri vcenter created in
  let events := (Invoke "POST" (BASELINE_PROFILE_URI vcenter) (Some (JDict payload))
                 :: poll_events uri (List.length waiting)) in
  (List.length waiting <= fuel)%nat ->
  forallb still_running waiting = true ->
  omevv e tr "POST" (BASELINE_PROFILE_URI vcenter) (Some (JDict payload))
  = Returns (Response true created) ->
  fetches e uri
    (tr ++ [Invoke "POST" (BASELINE_PROFILE_URI vcenter) (Some (JDict payload))])%list
    (waiting ++ [final]) ->
  status_of final = Ret status ->
  mem status [JStr "SUCCESSFUL"; JStr "FAILED"] = true ->
  CreateBaselineProfile.diff_mode_check module (JDict payload) e (tr ++ events)%list
  = (Raise err, tr') ->
  CreateBaselineProfile.perform_create_baseline_profile fuel module (JDict payload) e tr
  = (Raise err, tr').
Proof.
  intros vcenter uri events Hfuel Hwaiting Hpost Hfetch Hstatus Hfinal Hdiff.
  unfold CreateBaselineProfile.perform_create_baseline_profile.
  unfold py_get, py_get_default.
  rewrite bind_run. unfold lift at 1. destruct (dict_get "name" payload);
    (rewrite bind_run; unfold lift at 1; destruct (dict_get "firmwareRepoId" payload));
    (rewrite bind_run; unfold lift at 1; destruct (dict_get "groupIds" payload));
    (rewrite bind_run; unfold OMEVVBaselineProfile.create_baseline_profile;
     rewrite bind_run; unfold invoke_request at 1; fold vcenter;
     rewrite Hpost; cbn [ret M_Monad success json_data];
     unfold OMEVVBaselineProfile.get_baseline_profile_by_id;
     fold (profile_uri vcenter created); fold uri;
     rewrite <- bind_assoc; rewrite bind_run;
     rewrite (fetch_and_poll e uri waiting final status fuel _ Hfuel Hwaiting Hstatus
                Hfinal Hfetch);
     rewrite <- app_assoc; cbn [app]; fold events;
     rewrite bind_run, Hdiff; reflexivity).
Qed.

Lemma create_outcome_needs_the_diff_witness :
  CreateBaselineProfile.perform_create_baseline_profile 5
    (sample_module present false false) (JDict sample_create_payload) unlisted_env []
  = (Raise (URLError "timed out"),
     [Invoke "POST" "/Consoles/vc-1/BaselineProfiles" (Some (JDict sample_create_payload));
      Invoke "GET" "/Consoles/vc-1/BaselineProfiles/1001" None;
      Invoke "GET" "/Consoles/vc-1/Clusters" None]).
Proof.
  refine (create_outcome_needs_the_diff unlisted_env (sample_module present false false)
            5 [] (snapshot "SUCCESSFUL") [] _ sample_create_payload (JNum 1001)
            (JStr "SUCCESSFUL") (URLError "timed out")
            ltac:(cbn; lia) eq_refl eq_refl _ eq_refl eq_refl eq_refl).
  cbn. repeat split.
Defined.
